(** * Stablecoin peg monitor: the fetch, store and derive pipeline

    A shallow embedding of

    - [scripts/fetch_chainlink_price.py]      (module [Fetch]),
    - [scripts/utils/setup_snowflake_tables.py] and the two statements
      repeated in [scripts/utils/load_real_data.py]   (module [Sql]),
    - [scripts/utils/load_real_data.py] and
      [dagster_pipeline/ops/chainlink_price_op.py]    (module [Load]),
    - the two loaders of [streamlit_app/app.py]       (module [Dashboard]).

    Python [float] and the warehouse type [DOUBLE] are IEEE 754 binary64
    numbers: they are Rocq's primitive [float], and every operation on them
    is the primitive one.  Everything outside the process (the RPC node,
    the clock, the environment, the warehouse connection) answers through
    a [world], a record of oracles that see the whole history of the run;
    each call is written to the trace together with its answer.

    Calls to [print] only write to the console and are left out; calls to
    the logger are kept as [Log] events.  The decorators [st.cache_data]
    and [st.cache_resource] only decide whether a loader runs again; a
    loader below is one run of its body. *)

From Stdlib Require Import ZArith NArith List String Ascii Bool Lia.
From Stdlib Require Import Floats Sorted Permutation.
Import ListNotations.

#[local] Set Warnings "-inexact-float".
#[local] Open Scope Z_scope.

(* ================================================================= *)
(** * IEEE 754: shapes of specification floats *)

Module IEEE.

Definition is_nan_sf (x : spec_float) : bool :=
  match x with S754_nan => true | _ => false end.

Definition is_inf_sf (x : spec_float) : bool :=
  match x with S754_infinity _ => true | _ => false end.

Definition is_zero_sf (x : spec_float) : bool :=
  match x with S754_zero _ => true | _ => false end.

(** A zero, or a number or an infinity whose sign bit is [s]. *)
Definition has_sign_sf (s : bool) (x : spec_float) : bool :=
  match x with
  | S754_zero _ => true
  | S754_infinity s' | S754_finite s' _ _ => Bool.eqb s s'
  | S754_nan => false
  end.

End IEEE.

(* ================================================================= *)
(** * Generic list helpers *)

(** Stable insertion sort; [leb a b = true] when [a] may stay before [b]. *)
Section Sorting.
Context {A : Type} (leb : A -> A -> bool).

Fixpoint insert_sorted (x : A) (l : list A) : list A :=
    match l with
    | [] => [x]
    | y :: l' => if leb x y then x :: l else y :: insert_sorted x l'
    end.

Definition order_by (l : list A) : list A :=
    fold_right insert_sorted [] l.
End Sorting.

(* ================================================================= *)
(** * The warehouse: tables, the view and the derived table *)

Module Sql.

(** SQL booleans are three-valued; [None] is NULL.  A [WHEN] arm is taken
    only when its condition is TRUE. *)
Definition when (c : option bool) : bool :=
  match c with Some true => true | _ => false end.

Inductive sql_error := Division_by_zero.

Definition sql_sub (a b : option float) : option float :=
  match a, b with Some x, Some y => Some (x - y)%float | _, _ => None end.

Definition sql_abs (a : option float) : option float :=
  option_map PrimFloat.abs a.

Definition sql_gt (a b : option float) : option bool :=
  match a, b with Some x, Some y => Some (y <? x)%float | _, _ => None end.

Definition sql_le (a b : option float) : option bool :=
  match a, b with Some x, Some y => Some (x <=? y)%float | _, _ => None end.

(** [a / b]: NULL when an operand is NULL, an error when the divisor is
    zero. *)
Definition sql_div (a b : option float) : sql_error + option float :=
  match a, b with
  | Some x, Some y => if (y =? 0)%float then inl Division_by_zero
                      else inr (Some (x / y)%float)
  | _, _ => inr None
  end.

(** [NULLIF(a, b)]: NULL when [a = b], else [a]. *)
Definition NULLIF (a b : option float) : option float :=
  match a, b with
  | Some x, Some y => if (x =? y)%float then None else Some x
  | _, _ => a
  end.

(** ** CHAINLINK_PRICES

    Every row is written by [write_pandas] from a frame whose cells are a
    Python [int], [str] and two [float]s, so no column of a row is NULL. *)
Module CHAINLINK_PRICES.
Record row := {
    TIMESTAMP : Z;
    TOKEN : string;
    PRICE : float;
    DEVIATION_FROM_1 : float;
    LOADED_AT : Z
  }.
Definition key (r : row) : Z * string := (TIMESTAMP r, TOKEN r).
End CHAINLINK_PRICES.

(** ** stablecoin_peg_health (a view) *)
Module stablecoin_peg_health.
Record row := {
    TIMESTAMP : Z;
    TOKEN : string;
    PRICE : float;
    DEVIATION_FROM_PEG : float;
    ABS_DEVIATION_FROM_PEG : float;
    DEVIATION_FROM_PEG_PCT : float;
    PEG_STATUS : string;
    LOADED_AT : Z
  }.

  (** [ORDER BY TOKEN, TIMESTAMP DESC] *)
Definition order (a b : row) : bool :=
    (TOKEN a <? TOKEN b)%string
    || ((TOKEN a =? TOKEN b)%string && (TIMESTAMP b <=? TIMESTAMP a)).

Definition select (r : CHAINLINK_PRICES.row) : row :=
    let price := CHAINLINK_PRICES.PRICE r in
    {| TIMESTAMP := CHAINLINK_PRICES.TIMESTAMP r;
       TOKEN := CHAINLINK_PRICES.TOKEN r;
       PRICE := price;
       DEVIATION_FROM_PEG := (price - 1.0)%float;
       ABS_DEVIATION_FROM_PEG := abs (price - 1.0)%float;
       DEVIATION_FROM_PEG_PCT := ((price - 1.0) * 100)%float;
       PEG_STATUS :=
         if (abs (price - 1.0) <=? 0.001)%float then "healthy"
         else if (abs (price - 1.0) <=? 0.005)%float then "warning"
         else "critical";
       LOADED_AT := CHAINLINK_PRICES.LOADED_AT r |}.

Definition query (t : list CHAINLINK_PRICES.row) : list row :=
    order_by order (map select t).
End stablecoin_peg_health.

(** ** stablecoin_peg_zscore (a table, computed when it is created)

    [AVG] and [STDDEV] are the warehouse's aggregates over the values of
    a window frame; they answer NULL where the warehouse does (no row for
    [AVG], fewer than two for [STDDEV]). *)
Module rolling_stats.
Record row := {
    TIMESTAMP : Z;
    TOKEN : string;
    PRICE : float;
    DEVIATION_FROM_PEG : float;
    ROLLING_MEAN_24H : option float;
    ROLLING_STDDEV_24H : option float
  }.
End rolling_stats.

Module stablecoin_peg_zscore.
Record row := {
    TIMESTAMP : Z;
    TOKEN : string;
    PRICE : float;
    DEVIATION_FROM_PEG : float;
    ROLLING_MEAN_24H : option float;
    ROLLING_STDDEV_24H : option float;
    ZSCORE : option float;
    ZSCORE_STATUS : string
  }.

Definition order (a b : row) : bool :=
    (TOKEN a <? TOKEN b)%string
    || ((TOKEN a =? TOKEN b)%string && (TIMESTAMP b <=? TIMESTAMP a)).
End stablecoin_peg_zscore.

Section Zscore.
Variables AVG STDDEV : list float -> option float.

#[local] Abbreviation peg := stablecoin_peg_health.row.

  (** [PARTITION BY TOKEN]: the partition of the current row [r]. *)
Definition partition_by_TOKEN (r : peg) (peg_data : list peg) : list peg :=
    filter (fun r' => (stablecoin_peg_health.TOKEN r'
                       =? stablecoin_peg_health.TOKEN r)%string) peg_data.

  (** [ORDER BY TIMESTAMP] inside a partition. *)
Definition order_by_TIMESTAMP (p : list peg) : list peg :=
    order_by (fun a b => stablecoin_peg_health.TIMESTAMP a
                         <=? stablecoin_peg_health.TIMESTAMP b) p.

  (** [RANGE BETWEEN n PRECEDING AND CURRENT ROW]: the rows of the ordered
      partition whose sort key lies between the current key minus [n] and
      the current key; rows that share the current key are peers of the
      current row and belong to the frame. *)
Definition range_between_preceding_and_current_row
      (n : Z) (r : peg) (ordered : list peg) : list peg :=
    filter (fun r' =>
              (stablecoin_peg_health.TIMESTAMP r - n
               <=? stablecoin_peg_health.TIMESTAMP r')
              && (stablecoin_peg_health.TIMESTAMP r'
                  <=? stablecoin_peg_health.TIMESTAMP r)) ordered.

Definition window_frame (r : peg) (peg_data : list peg) : list peg :=
    range_between_preceding_and_current_row 86400 r
      (order_by_TIMESTAMP (partition_by_TOKEN r peg_data)).

Definition rolling_stats_select (peg_data : list peg) (r : peg)
    : rolling_stats.row :=
    let frame :=
      map stablecoin_peg_health.DEVIATION_FROM_PEG (window_frame r peg_data) in
    {| rolling_stats.TIMESTAMP := stablecoin_peg_health.TIMESTAMP r;
       rolling_stats.TOKEN := stablecoin_peg_health.TOKEN r;
       rolling_stats.PRICE := stablecoin_peg_health.PRICE r;
       rolling_stats.DEVIATION_FROM_PEG :=
         stablecoin_peg_health.DEVIATION_FROM_PEG r;
       rolling_stats.ROLLING_MEAN_24H := AVG frame;
       rolling_stats.ROLLING_STDDEV_24H := STDDEV frame |}.

  (** [(DEVIATION_FROM_PEG - ROLLING_MEAN_24H) / d] *)
Definition deviation_over (r : rolling_stats.row) (d : option float)
    : sql_error + option float :=
    sql_div (sql_sub (Some (rolling_stats.DEVIATION_FROM_PEG r))
                     (rolling_stats.ROLLING_MEAN_24H r)) d.

Definition ZSCORE_of (r : rolling_stats.row) : sql_error + option float :=
    if when (sql_gt (rolling_stats.ROLLING_STDDEV_24H r) (Some 0%float))
    then deviation_over r (rolling_stats.ROLLING_STDDEV_24H r)
    else inr (Some 0%float).

Definition ZSCORE_STATUS_of (r : rolling_stats.row) : sql_error + string :=
    let d := NULLIF (rolling_stats.ROLLING_STDDEV_24H r) (Some 0%float) in
    match deviation_over r d with
    | inl e => inl e
    | inr q =>
        if when (sql_gt (sql_abs q) (Some 2%float)) then inr "outlier"%string
        else
          match deviation_over r d with
          | inl e => inl e
          | inr q' =>
              if when (sql_gt (sql_abs q') (Some 1%float))
              then inr "unusual"%string
              else inr "normal"%string
          end
    end.

Definition zscore_select (r : rolling_stats.row)
    : sql_error + stablecoin_peg_zscore.row :=
    match ZSCORE_of r with
    | inl e => inl e
    | inr z =>
        match ZSCORE_STATUS_of r with
        | inl e => inl e
        | inr st =>
            inr {| stablecoin_peg_zscore.TIMESTAMP := rolling_stats.TIMESTAMP r;
                   stablecoin_peg_zscore.TOKEN := rolling_stats.TOKEN r;
                   stablecoin_peg_zscore.PRICE := rolling_stats.PRICE r;
                   stablecoin_peg_zscore.DEVIATION_FROM_PEG :=
                     rolling_stats.DEVIATION_FROM_PEG r;
                   stablecoin_peg_zscore.ROLLING_MEAN_24H :=
                     rolling_stats.ROLLING_MEAN_24H r;
                   stablecoin_peg_zscore.ROLLING_STDDEV_24H :=
                     rolling_stats.ROLLING_STDDEV_24H r;
                   stablecoin_peg_zscore.ZSCORE := z;
                   stablecoin_peg_zscore.ZSCORE_STATUS := st |}
        end
    end.

Fixpoint select_all {A B} (f : A -> sql_error + B) (l : list A)
    : sql_error + list B :=
    match l with
    | [] => inr []
    | a :: l' =>
        match f a with
        | inl e => inl e
        | inr b => match select_all f l' with
                   | inl e => inl e
                   | inr bs => inr (b :: bs)
                   end
        end
    end.

  (** [CREATE OR REPLACE TABLE stablecoin_peg_zscore AS WITH peg_data AS
      (SELECT * FROM stablecoin_peg_health), rolling_stats AS (...)
      SELECT ... FROM rolling_stats ORDER BY TOKEN, TIMESTAMP DESC] *)
Definition zscore_query (t : list CHAINLINK_PRICES.row)
    : sql_error + list stablecoin_peg_zscore.row :=
    let peg_data := stablecoin_peg_health.query t in
    let rolling := map (rolling_stats_select peg_data) peg_data in
    match select_all zscore_select rolling with
    | inl e => inl e
    | inr rows => inr (order_by stablecoin_peg_zscore.order rows)
    end.
End Zscore.

End Sql.

(* ================================================================= *)
(** * Python values, exceptions and the part of pandas the code uses *)

Module Py.

Inductive exn_class :=
| ValueError | ConnectionError | RuntimeError | OverflowError
| ZeroDivisionError | KeyError | ProgrammingError
| Exception (name : string).

Record exn := Exn { exn_cls : exn_class; exn_msg : string }.

Inductive result (A : Type) :=
| Ok (a : A)
| Raise (e : exn).
Arguments Ok {A} a.
Arguments Raise {A} e.

Inductive value :=
| VInt (z : Z)
| VFloat (f : float)
| VStr (s : string)
| VDatetime (seconds : value).

Definition dict := list (string * value).

Fixpoint get (d : dict) (k : string) : option value :=
  match d with
  | [] => None
  | (k', v) :: d' => if (k' =? k)%string then Some v else get d' k
  end.

Definition keys (d : dict) : list string := map fst d.

(** ** float(int), int ** int and float / int *)

(** [float(z)]: the nearest binary64 number, ties to even; [OverflowError]
    when that is not finite. *)
Definition float_of_int (z : Z) : result float :=
  let f := SF2Prim (binary_normalize prec emax z 0 false) in
  if is_infinity f
  then Raise (Exn OverflowError "int too large to convert to float")
  else Ok f.

(** [x / n] for a float [x] and an int [n]: [n] is converted first; a zero
    divisor raises. *)
Definition truediv_float_int (x : float) (n : Z) : result float :=
  match float_of_int n with
  | Raise e => Raise e
  | Ok y => if (y =? 0)%float
            then Raise (Exn ZeroDivisionError "float division by zero")
            else Ok (x / y)%float
  end.

(** ** DataFrame *)

Record DataFrame := {
  columns : list string;
  index : list Z;
  rows : list (list value)
}.

Definition empty_frame : DataFrame :=
  {| columns := []; index := []; rows := [] |}.

Definition len (df : DataFrame) : Z := Z.of_nat (List.length (rows df)).

(** [df.empty]: some axis has List.length 0. *)
Definition empty (df : DataFrame) : bool :=
  match columns df, index df with
  | [], _ | _, [] => true
  | _, _ => false
  end.

Definition range (n : nat) : list Z := map Z.of_nat (seq 0 n).

Fixpoint union_keys (seen : list string) (ks : list string) : list string :=
  match ks with
  | [] => seen
  | k :: ks' =>
      if existsb (String.eqb k) seen then union_keys seen ks'
      else union_keys (seen ++ [k]) ks'
  end.

(** [pd.DataFrame(records)]: one row per dict; the columns are the keys in
    order of first appearance; a key a dict lacks gives NaN. *)
Definition DataFrame_of_records (records : list dict) : DataFrame :=
  let cols := fold_left (fun seen d => union_keys seen (keys d)) records [] in
  {| columns := cols;
     index := range (List.length records);
     rows := map (fun d => map (fun c => match get d c with
                                         | Some v => v
                                         | None => VFloat nan
                                         end) cols) records |}.

Fixpoint position (c : string) (cols : list string) : option nat :=
  match cols with
  | [] => None
  | c' :: cols' => if (c' =? c)%string then Some O
                   else option_map S (position c cols')
  end.

Fixpoint positions (wanted cols : list string) : result (list nat) :=
  match wanted with
  | [] => Ok []
  | c :: wanted' =>
      match position c cols, positions wanted' cols with
      | Some i, Ok l => Ok (i :: l)
      | None, _ => Raise (Exn KeyError c)
      | _, Raise e => Raise e
      end
  end.

(** [df[[c1, ..., cn]]] *)
Definition getitem (df : DataFrame) (wanted : list string) : result DataFrame :=
  match positions wanted (columns df) with
  | Raise e => Raise e
  | Ok ps =>
      Ok {| columns := wanted;
            index := index df;
            rows := map (fun r => map (fun i => nth i r (VFloat nan)) ps)
                        (rows df) |}
  end.

(** Order of two cells of one column; cells of different kinds do not
    occur in one column of the frames built here. *)
Fixpoint value_leb (a b : value) : bool :=
  match a, b with
  | VInt x, VInt y => x <=? y
  | VFloat x, VFloat y => (x <=? y)%float
  | VStr x, VStr y => (x <=? y)%string
  | VDatetime x, VDatetime y => value_leb x y
  | _, _ => false
  end.

(** [df.sort_values(by)]: the rows move together with their labels. *)
Definition sort_values (df : DataFrame) (by_ : string) : result DataFrame :=
  match position by_ (columns df) with
  | None => Raise (Exn KeyError by_)
  | Some i =>
      let cell (lr : Z * list value) := nth i (snd lr) (VFloat nan) in
      let sorted := order_by (fun a b => value_leb (cell a) (cell b))
                             (combine (index df) (rows df)) in
      Ok {| columns := columns df;
            index := map fst sorted;
            rows := map snd sorted |}
  end.

(** [df.reset_index(drop=True)] *)
Definition reset_index (df : DataFrame) : DataFrame :=
  {| columns := columns df;
     index := range (List.length (rows df));
     rows := rows df |}.

(** [df.rename(columns=mapping)] *)
Definition rename (df : DataFrame) (mapping : list (string * string))
  : DataFrame :=
  let new c :=
    match find (fun kv => (fst kv =? c)%string) mapping with
    | Some kv => snd kv
    | None => c
    end in
  {| columns := map new (columns df); index := index df; rows := rows df |}.

(** [df.columns = names] *)
Definition set_columns (df : DataFrame) (names : list string)
  : result DataFrame :=
  if (List.length names =? List.length (columns df))%nat
  then Ok {| columns := names; index := index df; rows := rows df |}
  else Raise (Exn ValueError "Length mismatch").

(** [df.drop(columns=[c])] for a column that is present. *)
Definition drop_column (df : DataFrame) (c : string) : DataFrame :=
  match position c (columns df) with
  | None => df
  | Some i =>
      let cut {A} (l : list A) := firstn i l ++ skipn (S i) l in
      {| columns := cut (columns df);
         index := index df;
         rows := map cut (rows df) |}
  end.

(** The cells of one column. *)
Definition column (df : DataFrame) (c : string) : option (list value) :=
  match position c (columns df) with
  | None => None
  | Some i => Some (map (fun r => nth i r (VFloat nan)) (rows df))
  end.

End Py.

(* ================================================================= *)
(** * The warehouse as the loaders see it *)

Module Warehouse.
Import Py.

(** A table that was never created is [None]; the view is a stored query
    and holds no rows of its own. *)
Record t := {
  CHAINLINK_PRICES : option (list Sql.CHAINLINK_PRICES.row);
  stablecoin_peg_health : bool;
  stablecoin_peg_zscore : option (list Sql.stablecoin_peg_zscore.row)
}.

Definition initial : t :=
  {| CHAINLINK_PRICES := None;
     stablecoin_peg_health := false;
     stablecoin_peg_zscore := None |}.

(** The statements the code sends through [cursor.execute]. *)
Inductive statement :=
| CREATE_TABLE_IF_NOT_EXISTS_CHAINLINK_PRICES
| CREATE_OR_REPLACE_VIEW_stablecoin_peg_health
| CREATE_OR_REPLACE_TABLE_stablecoin_peg_zscore
| SELECT_COUNT_FROM_CHAINLINK_PRICES
| SELECT_COUNT_DISTINCT_TOKEN_FROM_CHAINLINK_PRICES.

Definition missing (name : string) : exn :=
  Exn ProgrammingError ("Object does not exist: " ++ name).

Fixpoint distinct (l : list string) : list string :=
  match l with
  | [] => []
  | x :: l' => if existsb (String.eqb x) l' then distinct l'
               else x :: distinct l'
  end.

Section Execute.
Variables AVG STDDEV : list float -> option float.

(** The new state and, for a [SELECT], the single cell it returns. *)
Definition execute (db : t) (s : statement) : result (t * option Z) :=
  match s with
  | CREATE_TABLE_IF_NOT_EXISTS_CHAINLINK_PRICES =>
      match CHAINLINK_PRICES db with
      | Some _ => Ok (db, None)
      | None => Ok ({| CHAINLINK_PRICES := Some [];
                       stablecoin_peg_health := stablecoin_peg_health db;
                       stablecoin_peg_zscore := stablecoin_peg_zscore db |},
                    None)
      end
  | CREATE_OR_REPLACE_VIEW_stablecoin_peg_health =>
      match CHAINLINK_PRICES db with
      | None => Raise (missing "CHAINLINK_PRICES")
      | Some _ => Ok ({| CHAINLINK_PRICES := CHAINLINK_PRICES db;
                         stablecoin_peg_health := true;
                         stablecoin_peg_zscore := stablecoin_peg_zscore db |},
                      None)
      end
  | CREATE_OR_REPLACE_TABLE_stablecoin_peg_zscore =>
      match stablecoin_peg_health db, CHAINLINK_PRICES db with
      | true, Some rows =>
          match Sql.zscore_query AVG STDDEV rows with
          | inl Sql.Division_by_zero =>
              Raise (Exn ProgrammingError "Division by zero")
          | inr z => Ok ({| CHAINLINK_PRICES := CHAINLINK_PRICES db;
                            stablecoin_peg_health := true;
                            stablecoin_peg_zscore := Some z |}, None)
          end
      | _, _ => Raise (missing "stablecoin_peg_health")
      end
  | SELECT_COUNT_FROM_CHAINLINK_PRICES =>
      match CHAINLINK_PRICES db with
      | None => Raise (missing "CHAINLINK_PRICES")
      | Some rows => Ok (db, Some (Z.of_nat (List.length rows)))
      end
  | SELECT_COUNT_DISTINCT_TOKEN_FROM_CHAINLINK_PRICES =>
      match CHAINLINK_PRICES db with
      | None => Raise (missing "CHAINLINK_PRICES")
      | Some rows =>
          Ok (db, Some (Z.of_nat (List.length
                 (distinct (map Sql.CHAINLINK_PRICES.TOKEN rows)))))
      end
  end.
End Execute.

(** ** write_pandas

    [write_pandas] quotes the names of the frame's columns as they are
    spelt ([quote_identifiers=True] is its default), and the table was
    created with the unquoted names TIMESTAMP, TOKEN, PRICE and
    DEVIATION_FROM_1, which the warehouse keeps in upper case.  A column
    of the frame is matched to the column of the table of exactly that
    name; a name the table does not have is an invalid identifier. *)
Definition loaded_columns : list string :=
  ["TIMESTAMP"; "TOKEN"; "PRICE"; "DEVIATION_FROM_1"]%string.

Definition known_column (c : string) : bool :=
  existsb (String.eqb c) loaded_columns.

Definition to_row (cols : list string) (loaded_at : Z) (cells : list value)
  : option Sql.CHAINLINK_PRICES.row :=
  let d := combine cols cells in
  match get d "TIMESTAMP", get d "TOKEN", get d "PRICE",
        get d "DEVIATION_FROM_1" with
  | Some (VInt ts), Some (VStr tok), Some (VFloat p), Some (VFloat dv) =>
      Some {| Sql.CHAINLINK_PRICES.TIMESTAMP := ts;
              Sql.CHAINLINK_PRICES.TOKEN := tok;
              Sql.CHAINLINK_PRICES.PRICE := p;
              Sql.CHAINLINK_PRICES.DEVIATION_FROM_1 := dv;
              Sql.CHAINLINK_PRICES.LOADED_AT := loaded_at |}
  | _, _, _, _ => None
  end.

Fixpoint to_rows (cols : list string) (loaded_at : Z)
    (cells : list (list value)) : option (list Sql.CHAINLINK_PRICES.row) :=
  match cells with
  | [] => Some []
  | r :: cells' =>
      match to_row cols loaded_at r, to_rows cols loaded_at cells' with
      | Some x, Some xs => Some (x :: xs)
      | _, _ => None
      end
  end.

(** [write_pandas(conn, df, table_name='CHAINLINK_PRICES',
    auto_create_table=False, overwrite=False)] once the warehouse has
    accepted the load: the rows of the frame are added to the table. *)
Definition append_frame (db : t) (df : DataFrame) (loaded_at : Z)
  : result t :=
  match CHAINLINK_PRICES db with
  | None => Raise (missing "CHAINLINK_PRICES")
  | Some old =>
      match (if forallb known_column (columns df)
             then to_rows (columns df) loaded_at (rows df)
             else None) with
      | None => Raise (Exn ProgrammingError "invalid identifier")
      | Some new =>
          Ok {| CHAINLINK_PRICES := Some (old ++ new);
                stablecoin_peg_health := stablecoin_peg_health db;
                stablecoin_peg_zscore := stablecoin_peg_zscore db |}
      end
  end.

End Warehouse.

(* ================================================================= *)
(** * Runs: events, the world and the monad of the Python code *)

Module Run.
Import Py.

Inductive level := INFO | WARNING | ERROR.

(** What [latestRoundData()] decodes to (uint80, int256, uint256, uint256,
    uint80). *)
Record round_data := {
  roundId : N;
  answer : Z;
  startedAt : N;
  updatedAt : N;
  answeredInRound : N
}.

(** One entry per call that leaves the process, with the answer it got.
    A [Log] carries the message as it is written in the source and the
    values formatted into it. *)
Inductive event :=
| Log (lvl : level) (message : string) (args : list value)
| StreamlitSecret (name : string) (r : result (option string))
| Getenv (name : string) (r : option string)
| IsConnected (rpc_url : string) (r : result bool)
| BlockNumber (rpc_url : string) (r : result Z)
| ToChecksumAddress (address : string) (r : result string)
| CallDecimals (address : string) (r : result N)
| CallLatestRoundData (address : string) (r : result round_data)
| UtcNow (r : Z)
| SnowflakeConnect (r : result unit)
| Execute (s : Warehouse.statement) (r : result (option Z))
| WritePandas (df : DataFrame) (table_name : string)
              (auto_create_table overwrite : bool) (r : result bool)
| CursorClose
| ConnClose
| ReadSql (query : string) (params : list value) (r : result DataFrame)
| StError (message : string) (args : list value)
| StInfo (message : string)
| Sleep (seconds : Z).

(** The oracles.  Each sees the trace so far, so an answer may change
    from one call to the next. *)
Record world := {
  streamlit_secret : list event -> string -> result (option string);
  getenv : list event -> string -> option string;
  is_connected : list event -> string -> result bool;
  block_number : list event -> string -> result Z;
  to_checksum_address : list event -> string -> result string;
  decimals : list event -> string -> result N;
  latestRoundData : list event -> string -> result round_data;
  utcnow : list event -> Z;
  snowflake_connect : list event -> result unit;
  (** a failure of the connection or of the server while a statement or
      a load runs; [None] lets the statement through *)
  execute_fault : list event -> Warehouse.statement -> option exn;
  (** the flag [write_pandas] returns, or the exception it raises, for a
      frame whose columns the table has *)
  write_pandas_outcome : list event -> DataFrame -> result bool;
  CURRENT_TIMESTAMP : list event -> Z;
  (** what the platform makes of a wait of a length [time.sleep] accepts:
      an exception (OSError for a deadline its clock cannot hold), or
      [None] when the wait goes through *)
  sleep_fault : list event -> Z -> option exn;
  read_sql_answer : list event -> string -> list value -> result DataFrame;
  AVG : list float -> option float;
  STDDEV : list float -> option float
}.

Record state := {
  trace : list event;
  db : Warehouse.t
}.

Definition M (A : Type) : Type := state -> state * result A.

Definition ret {A} (a : A) : M A := fun st => (st, Ok a).

Definition raise {A} (e : exn) : M A := fun st => (st, Raise e).

Definition bind {A B} (m : M A) (k : A -> M B) : M B :=
  fun st => match m st with
            | (st', Ok a) => k a st'
            | (st', Raise e) => (st', Raise e)
            end.

Declare Scope run_scope.
Delimit Scope run_scope with run.
Notation "x <- m ;; k" := (bind m (fun x => k))
  (at level 61, m at next level, right associativity) : run_scope.
Notation "m ;; k" := (bind m (fun _ => k))
  (at level 61, right associativity) : run_scope.
#[local] Open Scope run_scope.

(** [try: body except Exception as e: handler e] *)
Definition try_except {A} (body : M A) (handler : exn -> M A) : M A :=
  fun st => match body st with
            | (st', Ok a) => (st', Ok a)
            | (st', Raise e) => handler e st'
            end.

(** [try: body finally: final] *)
Definition try_finally {A} (body : M A) (final : M unit) : M A :=
  fun st => match body st with
            | (st', r) =>
                match final st' with
                | (st'', Ok _) => (st'', r)
                | (st'', Raise e) => (st'', Raise e)
                end
            end.

Definition emit (e : event) : M unit :=
  fun st => ({| trace := trace st ++ [e]; db := db st |}, Ok tt).

(** A call whose answer is a value. *)
Definition ask {A} (oracle : list event -> A) (ev : A -> event) : M A :=
  fun st => let a := oracle (trace st) in
            ({| trace := trace st ++ [ev a]; db := db st |}, Ok a).

(** A call that may raise. *)
Definition call {A} (oracle : list event -> result A)
    (ev : result A -> event) : M A :=
  fun st => let r := oracle (trace st) in
            ({| trace := trace st ++ [ev r]; db := db st |}, r).

Definition log (lvl : level) (message : string) (args : list value)
  : M unit := emit (Log lvl message args).

Definition get_db : M Warehouse.t := fun st => (st, Ok (db st)).

Definition set_db (d : Warehouse.t) : M unit :=
  fun st => ({| trace := trace st; db := d |}, Ok tt).

Definition str (e : exn) : value := VStr (exn_msg e).

End Run.

(* ================================================================= *)
(** * scripts/fetch_chainlink_price.py *)

Module Fetch.
Import Py Run.
#[local] Open Scope run_scope.
#[local] Open Scope string_scope.

(** The dict literal, in the order it is written. *)
Definition CHAINLINK_FEEDS : list (string * string) :=
  [ ("USDC", "0x8fFfFfd4AfB6115b954Bd326cbe7B4BA576818f6");
    ("USDT", "0x3E7d1eAB13ad0104d2750B8863b489D65364e32D") ].

Definition TOKEN_SYMBOLS : list string := [ "USDC"; "USDT" ].

Fixpoint feed_lookup (feeds : list (string * string)) (k : string)
  : option string :=
  match feeds with
  | [] => None
  | (k', a) :: feeds' => if k' =? k then Some a else feed_lookup feeds' k
  end.

(** Python truth of an optional string: [None] and [''] are false. *)
Definition truthy (s : option string) : bool :=
  match s with
  | None | Some EmptyString => false
  | Some _ => true
  end.

Section WithWorld.
Variable w : world.

(** The connected [Web3] object is known by the URL it was built from. *)
Definition get_web3_connection : M string :=
  rpc_url <- try_except
               (call (fun h => streamlit_secret w h "ALCHEMY_RPC_URL")
                     (StreamlitSecret "ALCHEMY_RPC_URL"))
               (fun _ => ret None) ;;
  rpc_url <- (if truthy rpc_url then ret rpc_url
              else ask (fun h => getenv w h "ALCHEMY_RPC_URL")
                       (Getenv "ALCHEMY_RPC_URL")) ;;
  match rpc_url with
  | None | Some EmptyString =>
      raise (Exn ValueError
        "ALCHEMY_RPC_URL not set in environment variables or Streamlit secrets")
  | Some url =>
      try_except
        (log INFO "Connecting to Alchemy RPC endpoint..." [] ;;
         connected <- call (fun h => is_connected w h url) (IsConnected url) ;;
         if negb connected
         then raise (Exn ConnectionError "Failed to connect to RPC endpoint")
         else
           block_number <- call (fun h => block_number w h url)
                                (BlockNumber url) ;;
           log INFO
             "Successfully connected to Ethereum mainnet (block: {block_number})"
             [VInt block_number] ;;
           ret url)
        (fun e =>
           log ERROR "Error connecting to RPC: {str(e)}" [str e] ;;
           raise (Exn ConnectionError
                      ("Error connecting to RPC: " ++ exn_msg e)))
  end.

Definition lift {A} (r : result A) : M A :=
  match r with Ok a => ret a | Raise e => raise e end.

Definition fetch_token_price (w3 token_symbol feed_address : string)
  : M (option dict) :=
  try_except
    (log INFO "Fetching {token_symbol} price from Chainlink feed: {feed_address}"
         [VStr token_symbol; VStr feed_address] ;;
     address <- call (fun h => to_checksum_address w h feed_address)
                     (ToChecksumAddress feed_address) ;;
     decimals <- call (fun h => decimals w h address) (CallDecimals address) ;;
     round_data <- call (fun h => latestRoundData w h address)
                        (CallLatestRoundData address) ;;
     let answer := answer round_data in
     x <- lift (float_of_int answer) ;;
     price_float <- lift (truediv_float_int x (10 ^ Z.of_N decimals)) ;;
     if (price_float <=? 0)%float then
       log WARNING "Received invalid price ({price_float}) for {token_symbol}"
           [VFloat price_float; VStr token_symbol] ;;
       ret None
     else
       let deviation_from_peg := (price_float - 1.0)%float in
       timestamp <- ask (utcnow w) UtcNow ;;
       log INFO
         "  {token_symbol} price: ${price_float:.6f} (deviation: {deviation_from_peg:.6f}, {deviation_from_peg*100:.4f}%)"
         [VStr token_symbol; VFloat price_float; VFloat deviation_from_peg;
          VFloat (deviation_from_peg * 100)%float] ;;
       ret (Some [ ("timestamp", VInt timestamp);
                   ("token_symbol", VStr token_symbol);
                   ("price", VFloat price_float);
                   ("deviation_from_peg", VFloat deviation_from_peg) ]))
    (fun e =>
       log ERROR
         "Error fetching {token_symbol} price from Chainlink feed: {str(e)}"
         [VStr token_symbol; str e] ;;
       log ERROR "Full error traceback:" [] ;;
       ret None).

(** The body of [for token_symbol in TOKEN_SYMBOLS]. *)
Fixpoint fetch_loop (w3 : string) (tokens : list string)
    (all_data : list dict) : M (list dict) :=
  match tokens with
  | [] => ret all_data
  | token_symbol :: rest =>
      match feed_lookup CHAINLINK_FEEDS token_symbol with
      | None =>
          log WARNING
            "No feed address configured for {token_symbol}, skipping..."
            [VStr token_symbol] ;;
          fetch_loop w3 rest all_data
      | Some feed_address =>
          all_data <-
            try_except
              (price_data <- fetch_token_price w3 token_symbol feed_address ;;
               match price_data with
               | Some d =>
                   log INFO "Successfully fetched {token_symbol} price data"
                       [VStr token_symbol] ;;
                   ret (all_data ++ [d])%list
               | None =>
                   log WARNING "Failed to fetch price data for {token_symbol}"
                       [VStr token_symbol] ;;
                   ret all_data
               end)
              (fun e =>
                 log ERROR "Unexpected error processing {token_symbol}: {str(e)}"
                     [VStr token_symbol; str e] ;;
                 log ERROR "Full error traceback:" [] ;;
                 ret all_data) ;;
          fetch_loop w3 rest all_data
      end
  end.

Definition is_ValueError_or_ConnectionError (e : exn) : bool :=
  match exn_cls e with
  | ValueError | ConnectionError => true
  | _ => false
  end.

Definition fetch_all_chainlink_prices : M DataFrame :=
  log INFO "Starting Chainlink price fetch for all tokens..." [] ;;
  w3 <- try_except get_web3_connection
          (fun e =>
             if is_ValueError_or_ConnectionError e then
               log ERROR "Failed to establish Web3 connection: {str(e)}"
                   [str e] ;;
               raise e
             else raise e) ;;
  all_data <- fetch_loop w3 TOKEN_SYMBOLS [] ;;
  match all_data with
  | [] =>
      let error_msg := "Failed to fetch price data for any token" in
      log ERROR error_msg [] ;;
      raise (Exn RuntimeError error_msg)
  | _ =>
      let df := DataFrame_of_records all_data in
      df <- lift (getitem df ["timestamp"; "token_symbol"; "price";
                              "deviation_from_peg"]) ;;
      df <- lift (sort_values df "token_symbol") ;;
      let df := reset_index df in
      log INFO "Successfully fetched price data for {len(df)} token(s)"
          [VInt (len df)] ;;
      ret df
  end.

End WithWorld.
End Fetch.

(* ================================================================= *)
(** * scripts/utils: the loaders, and the Dagster op *)

Module Load.
Import Py Run.
#[local] Open Scope run_scope.
#[local] Open Scope string_scope.

Section WithWorld.
Variable w : world.

(** [connect(user=..., ...)] *)
Definition connect : M unit := call (snowflake_connect w) SnowflakeConnect.

(** [cursor.execute(statement)] *)
Definition execute (s : Warehouse.statement) : M (option Z) :=
  fun st =>
    let answer :=
      match execute_fault w (trace st) s with
      | Some e => Raise e
      | None => Warehouse.execute (AVG w) (STDDEV w) (db st) s
      end in
    match answer with
    | Raise e =>
        ({| trace := trace st ++ [Execute s (Raise e)]; db := db st |},
         Raise e)
    | Ok (db', cell) =>
        ({| trace := trace st ++ [Execute s (Ok cell)]; db := db' |}, Ok cell)
    end.

(** [write_pandas(conn, df, table_name='CHAINLINK_PRICES', ...,
    auto_create_table=False, overwrite=False)]; the result is
    [(success, nrows)]. *)
Definition write_pandas (df : DataFrame) : M (bool * Z) :=
  fun st =>
    let ev := WritePandas df "CHAINLINK_PRICES" false false in
    let answer :=
      match write_pandas_outcome w (trace st) df with
      | Raise e => Raise e
      | Ok false => Ok (db st, false)
      | Ok true =>
          match Warehouse.append_frame (db st) df
                  (CURRENT_TIMESTAMP w (trace st)) with
          | Raise e => Raise e
          | Ok db' => Ok (db', true)
          end
      end in
    match answer with
    | Raise e =>
        ({| trace := trace st ++ [ev (Raise e)]; db := db st |}, Raise e)
    | Ok (db', success) =>
        ({| trace := trace st ++ [ev (Ok success)]; db := db' |},
         Ok (success, if success then len df else 0))
    end.

(** ** setup_snowflake_tables.py *)
Definition setup_snowflake_schema : M unit :=
  connect ;;
  try_finally
    (execute Warehouse.CREATE_TABLE_IF_NOT_EXISTS_CHAINLINK_PRICES ;;
     execute Warehouse.CREATE_OR_REPLACE_VIEW_stablecoin_peg_health ;;
     execute Warehouse.CREATE_OR_REPLACE_TABLE_stablecoin_peg_zscore ;;
     ret tt)
    (emit CursorClose ;; emit ConnClose).

(** ** load_real_data.py *)

(** The renaming and reshaping between the fetch and the write. *)
Definition normalize (df : DataFrame) : result DataFrame :=
  let df := rename df [ ("token_symbol", "TOKEN");
                        ("deviation_from_peg", "DEVIATION_FROM_1") ] in
  match getitem df ["timestamp"; "TOKEN"; "price"; "DEVIATION_FROM_1"] with
  | Raise e => Raise e
  | Ok df => set_columns df ["TIMESTAMP"; "TOKEN"; "PRICE"; "DEVIATION_FROM_1"]
  end.

Definition load_real_chainlink_data : M unit :=
  df <- Fetch.fetch_all_chainlink_prices w ;;
  if empty df then ret tt
  else
    df <- Fetch.lift (normalize df) ;;
    connect ;;
    try_finally
      (success_nrows <- write_pandas df ;;
       if fst success_nrows then
         execute Warehouse.CREATE_OR_REPLACE_VIEW_stablecoin_peg_health ;;
         execute Warehouse.CREATE_OR_REPLACE_TABLE_stablecoin_peg_zscore ;;
         emit CursorClose ;;
         execute Warehouse.SELECT_COUNT_FROM_CHAINLINK_PRICES ;;
         execute Warehouse.SELECT_COUNT_DISTINCT_TOKEN_FROM_CHAINLINK_PRICES ;;
         emit CursorClose
       else ret tt)
      (emit ConnClose).

(** ** fetch_data_continuously.py *)

(** [time.sleep(secs)] for an [int]: a negative length is refused, and so
    is a length whose nanoseconds do not fit the signed 64-bit clock of
    the interpreter; a length that passes both tests is handed to the
    platform.  Nothing is waited for when an exception is raised. *)
Definition max_sleep : Z := 9223372036.

Definition sleep (secs : Z) : M unit :=
  if (secs <? 0)%Z
  then raise (Exn ValueError "sleep length must be non-negative")
  else if (max_sleep <? secs)%Z
       then raise (Exn OverflowError
                       "timestamp too large to convert to C _PyTime_t")
       else fun st =>
              match sleep_fault w (trace st) secs with
              | Some e => (st, Raise e)
              | None => emit (Sleep secs) st
              end.

(** [while True] never ends by itself; [fuel] bounds the number of turns
    of the loop that are run.  An exception that leaves the handler of a
    turn leaves the loop and the function: the outer [try] only catches
    KeyboardInterrupt. *)
Fixpoint fetch_continuously (fuel : nat) (interval_seconds : Z) : M unit :=
  match fuel with
  | O => ret tt
  | S fuel' =>
      try_except
        (load_real_chainlink_data ;; sleep interval_seconds)
        (fun _ => sleep interval_seconds) ;;
      fetch_continuously fuel' interval_seconds
  end.

(** ** chainlink_price_op.py *)

Definition mul100 (v : value) : result value :=
  match v with
  | VFloat f => Ok (VFloat (f * 100)%float)
  | VInt z => Ok (VInt (z * 100))
  | _ => Raise (Exn (Exception "TypeError") "unsupported operand")
  end.

(** [for _, row in df.iterrows(): context.log.info(...)] *)
Fixpoint log_rows (cols : list string) (rs : list (list value)) : M unit :=
  match rs with
  | [] => ret tt
  | r :: rs' =>
      let d := combine cols r in
      match get d "token", get d "price", get d "deviation_from_1" with
      | Some t, Some p, Some dv =>
          pct <- Fetch.lift (mul100 dv) ;;
          log INFO
            "{row['token']}: ${row['price']:.6f} (deviation: {row['deviation_from_1']*100:.4f}%)"
            [t; p; pct] ;;
          log_rows cols rs'
      | _, _, _ => raise (Exn KeyError "row")
      end
  end.

Definition fetch_chainlink_price_op : M dict :=
  log INFO "Starting Chainlink price fetch..." [] ;;
  try_except
    (df <- Fetch.fetch_all_chainlink_prices w ;;
     if empty df then
       log WARNING "No price data fetched" [] ;;
       ret [ ("rows", VInt 0); ("status", VStr "empty") ]
     else
       log INFO "Fetched price data for {len(df)} tokens" [VInt (len df)] ;;
       let df := rename df [ ("token_symbol", "token");
                             ("deviation_from_peg", "deviation_from_1") ] in
       let df := if existsb (String.eqb "datetime") (columns df)
                 then drop_column df "datetime" else df in
       connect ;;
       try_finally
         (execute Warehouse.CREATE_TABLE_IF_NOT_EXISTS_CHAINLINK_PRICES ;;
          success_nrows <- write_pandas df ;;
          if fst success_nrows then
            log INFO "Successfully loaded {nrows} price records to Snowflake"
                [VInt (snd success_nrows)] ;;
            log_rows (columns df) (rows df) ;;
            Fetch.lift (getitem df ["token"; "price"; "deviation_from_1"]) ;;
            ret [ ("rows", VInt (snd success_nrows));
                  ("status", VStr "success");
                  ("chunks", VInt 1) ]
          else
            raise (Exn (Exception "Exception")
                       "Failed to write pandas dataframe to Snowflake"))
         (emit ConnClose))
    (fun e =>
       log ERROR "Error fetching Chainlink prices: {str(e)}" [str e] ;;
       raise e).

End WithWorld.
End Load.

(* ================================================================= *)
(** * streamlit_app/app.py: the two loaders

    The loaders carry [@st.cache_data]: what is modelled is a run of
    their body, which is what happens when their own cache has no answer
    for the token. *)

Module Dashboard.
Import Py Run.
#[local] Open Scope run_scope.
#[local] Open Scope string_scope.

(** The text between the triple quotes, line breaks and spaces included. *)
Definition peg_health_select : string :=
"
        SELECT 
            TIMESTAMP,
            TOKEN,
            PRICE,
            DEVIATION_FROM_PEG,
            DEVIATION_FROM_PEG_PCT,
            PEG_STATUS
        FROM stablecoin_peg_health
        ".

Definition zscore_select : string :=
"
        SELECT 
            TIMESTAMP,
            TOKEN,
            PRICE,
            DEVIATION_FROM_PEG,
            ROLLING_MEAN_24H,
            ROLLING_STDDEV_24H,
            ZSCORE,
            ZSCORE_STATUS
        FROM stablecoin_peg_zscore
        ".

(** [query += f" WHERE TOKEN = '{token}'"] when [token] is true. *)
Definition where_token (token : option string) : string :=
  match token with
  | None | Some EmptyString => ""
  | Some t => " WHERE TOKEN = '" ++ t ++ "'"
  end.

Definition peg_health_query (token : option string) : string :=
  peg_health_select ++ where_token token
  ++ " ORDER BY TIMESTAMP DESC LIMIT 1000".

Definition zscore_query (token : option string) : string :=
  zscore_select ++ where_token token
  ++ " ORDER BY TIMESTAMP DESC LIMIT 5000".

Definition lower_ascii (c : ascii) : ascii :=
  let n := nat_of_ascii c in
  if ((65 <=? n) && (n <=? 90))%nat then ascii_of_nat (n + 32) else c.

Fixpoint lower (s : string) : string :=
  match s with
  | EmptyString => EmptyString
  | String c s' => String (lower_ascii c) (lower s')
  end.

(** [pd.to_datetime(cells, unit='s')] *)
Fixpoint to_datetime (cells : list value) : result (list value) :=
  match cells with
  | [] => Ok []
  | v :: cells' =>
      match v, to_datetime cells' with
      | (VInt _ | VFloat _), Ok l => Ok (VDatetime v :: l)
      | _, Raise e => Raise e
      | _, _ => Raise (Exn ValueError "non convertible value")
      end
  end.

(** [df[name] = cells]: a new last column, or the column of that name
    replaced. *)
Definition setitem (df : DataFrame) (name : string) (cells : list value)
  : DataFrame :=
  match position name (columns df) with
  | None =>
      {| columns := (columns df ++ [name])%list;
         index := index df;
         rows := map (fun rc => (fst rc ++ [snd rc])%list)
                     (combine (rows df) cells) |}
  | Some i =>
      {| columns := columns df;
         index := index df;
         rows := map (fun rc => (firstn i (fst rc) ++ [snd rc]
                                 ++ skipn (S i) (fst rc))%list)
                     (combine (rows df) cells) |}
  end.

(** [df.columns = df.columns.str.lower()] and
    [df['datetime'] = pd.to_datetime(df['timestamp'], unit='s')] *)
Definition add_datetime (df : DataFrame) : result DataFrame :=
  let df := {| columns := map lower (columns df);
               index := index df;
               rows := rows df |} in
  match column df "timestamp" with
  | None => Raise (Exn KeyError "timestamp")
  | Some cells =>
      match to_datetime cells with
      | Raise e => Raise e
      | Ok ds => Ok (setitem df "datetime" ds)
      end
  end.

Definition required_vars : list string :=
  [ "SNOWFLAKE_USER"; "SNOWFLAKE_PASSWORD"; "SNOWFLAKE_ACCOUNT";
    "SNOWFLAKE_WAREHOUSE"; "SNOWFLAKE_DATABASE"; "SNOWFLAKE_SCHEMA";
    "SNOWFLAKE_ROLE" ].

Section WithWorld.
Variable w : world.

Fixpoint getenv_all (names : list string)
  : M (list (string * option string)) :=
  match names with
  | [] => ret []
  | n :: names' =>
      v <- ask (fun h => getenv w h n) (Getenv n) ;;
      rest <- getenv_all names' ;;
      ret ((n, v) :: rest)
  end.

Definition is_None {A} (o : option A) : bool :=
  match o with None => true | Some _ => false end.

(** The body of [get_snowflake_connection], as it runs when the cache
    of [@st.cache_resource] holds nothing. *)
Definition get_snowflake_connection_uncached : M (option unit) :=
  vars <- getenv_all required_vars ;;
  let missing_vars := map fst (filter (fun nv => is_None (snd nv)) vars) in
  match missing_vars with
  | _ :: _ =>
      emit (StError
              "Missing required environment variables: {', '.join(missing_vars)}"
              (map VStr missing_vars)) ;;
      emit (StInfo
              "Please create a `.env` file in the project root with your Snowflake credentials.") ;;
      ret None
  | [] =>
      try_except
        (call (snowflake_connect w) SnowflakeConnect ;; ret (Some tt))
        (fun e =>
           emit (StError "Failed to connect to Snowflake: {str(e)}" [str e]) ;;
           ret None)
  end.

(** [@st.cache_resource]: the value the body returned at its first call
    in the process, [None] included, is kept, and a later call returns it
    without running the body.  [cached] is what the cache holds when the
    call is made: nothing, or that value. *)
Definition get_snowflake_connection (cached : option (option unit))
  : M (option unit) :=
  match cached with
  | Some conn => ret conn
  | None => get_snowflake_connection_uncached
  end.

(** [pd.read_sql(query, conn)]: no [params] argument is given. *)
Definition read_sql (query : string) : M DataFrame :=
  call (fun h => read_sql_answer w h query []) (ReadSql query []).

Definition load_peg_health_data (cached : option (option unit))
    (token : option string) : M DataFrame :=
  conn <- get_snowflake_connection cached ;;
  match conn with
  | None => ret empty_frame
  | Some _ =>
      try_except
        (df <- read_sql (peg_health_query token) ;;
         if negb (empty df) then
           df <- Fetch.lift (add_datetime df) ;;
           Fetch.lift (sort_values df "datetime")
         else ret df)
        (fun e =>
           emit (StError "Error loading peg health data: {str(e)}" [str e]) ;;
           ret empty_frame)
  end.

Definition load_zscore_data (cached : option (option unit))
    (token : option string) : M DataFrame :=
  conn <- get_snowflake_connection cached ;;
  match conn with
  | None => ret empty_frame
  | Some _ =>
      try_except
        (df <- read_sql (zscore_query token) ;;
         if negb (empty df) then Fetch.lift (add_datetime df) else ret df)
        (fun e =>
           emit (StError "Error loading z-score data: {str(e)}" [str e]) ;;
           ret empty_frame)
  end.

End WithWorld.
End Dashboard.

(* ================================================================= *)
(** * The properties under study *)

Module Props.
#[local] Open Scope float_scope.

Section PegHealth.
Import Sql.stablecoin_peg_health.

(** The three conditions of the classification, on the absolute deviation
    of a row from the peg. *)
Definition within_healthy (r : row) : Prop :=
  (abs (PRICE r - 1.0) <=? 0.001) = true.

Definition within_warning (r : row) : Prop :=
  (0.001 <? abs (PRICE r - 1.0)) = true
  /\ (abs (PRICE r - 1.0) <=? 0.005) = true.

Definition classified_by_thresholds (r : row) : Prop :=
  DEVIATION_FROM_PEG r = PRICE r - 1.0
  /\ (PEG_STATUS r = "healthy"%string <-> within_healthy r)
  /\ (PEG_STATUS r = "warning"%string <-> within_warning r)
  /\ (PEG_STATUS r = "critical"%string
      <-> ~ within_healthy r /\ ~ within_warning r).

End PegHealth.

Section Zscore.
Import Sql Sql.stablecoin_peg_zscore.
Variables AVG STDDEV : list float -> option float.

(** The rows of the view that lie in the 24-hour window of [z]: same
    TOKEN, TIMESTAMP within [[TIMESTAMP z - 86400, TIMESTAMP z]]. *)
Definition in_window_24h (z : row) (r : stablecoin_peg_health.row) : bool :=
  (stablecoin_peg_health.TOKEN r =? TOKEN z)%string
  && (TIMESTAMP z - 86400 <=? stablecoin_peg_health.TIMESTAMP r)%Z
  && (stablecoin_peg_health.TIMESTAMP r <=? TIMESTAMP z)%Z.

(** [ZSCORE = (DEVIATION_FROM_PEG - ROLLING_MEAN_24H) / ROLLING_STDDEV_24H]
    on the rows whose rolling standard deviation is positive. *)
Definition zscore_formula (z : row) : Prop :=
  forall s, ROLLING_STDDEV_24H z = Some s -> (0 <? s) = true ->
    ZSCORE z = option_map (fun m => (DEVIATION_FROM_PEG z - m) / s)
                          (ROLLING_MEAN_24H z).

(** The rolling columns of [z] are the aggregates of DEVIATION_FROM_PEG
    over the rows of its window, the row of [z] among them. *)
Definition rolling_over_24h_window
    (t : list CHAINLINK_PRICES.row) (z : row) : Prop :=
  exists frame : list stablecoin_peg_health.row,
    Permutation frame
      (filter (in_window_24h z) (stablecoin_peg_health.query t))
    /\ In (DEVIATION_FROM_PEG z)
          (map stablecoin_peg_health.DEVIATION_FROM_PEG frame)
    /\ ROLLING_MEAN_24H z
        = AVG (map stablecoin_peg_health.DEVIATION_FROM_PEG frame)
    /\ ROLLING_STDDEV_24H z
        = STDDEV (map stablecoin_peg_health.DEVIATION_FROM_PEG frame)
    /\ zscore_formula z.

Definition stddev_zero_or_null (z : row) : Prop :=
  match ROLLING_STDDEV_24H z with
  | None => True
  | Some s => (s =? 0) = true
  end.

Definition stddev_positive (z : row) : Prop :=
  exists s, ROLLING_STDDEV_24H z = Some s /\ (0 <? s) = true.

(** [|ZSCORE| > b] and [|ZSCORE| <= b] as the warehouse decides them. *)
Definition abs_zscore_gt (z : row) (b : float) : Prop :=
  when (sql_gt (sql_abs (ZSCORE z)) (Some b)) = true.

Definition abs_zscore_le (z : row) (b : float) : Prop :=
  when (sql_le (sql_abs (ZSCORE z)) (Some b)) = true.

Definition guarded_status (z : row) : Prop :=
  (stddev_zero_or_null z ->
     ZSCORE z = Some 0 /\ ZSCORE_STATUS z = "normal"%string)
  /\ (stddev_positive z ->
        (ZSCORE_STATUS z = "outlier"%string <-> abs_zscore_gt z 2)
        /\ (ZSCORE_STATUS z = "unusual"%string
            <-> abs_zscore_gt z 1 /\ abs_zscore_le z 2)).

End Zscore.

Section FetchLayer.
Import Py.
#[local] Open Scope string_scope.

(** A price record as [fetch_token_price] builds it: exactly the four
    keys, a positive price, and the deviation [price - 1.0]. *)
Definition price_record (token_symbol : string) (d : dict) : Prop :=
  exists (timestamp : Z) (price : float),
    d = [ ("timestamp", VInt timestamp);
          ("token_symbol", VStr token_symbol);
          ("price", VFloat price);
          ("deviation_from_peg", VFloat (price - 1.0)%float) ]
    /\ (0 <? price)%float = true.

(** [deviation_from_peg > -1] *)
Definition deviation_above_minus_one (d : dict) : Prop :=
  exists dv, get d "deviation_from_peg" = Some (VFloat dv)
             /\ (-1 <? dv)%float = true.

End FetchLayer.

(** ** Reading a trace *)
Section Traces.
Import Py Run.
#[local] Open Scope string_scope.

(** One entry per call of [fetch_token_price]: the token and the feed
    address it was called with, read off the line logged on entry. *)
Definition fetch_attempt (e : event) : list (string * string) :=
  match e with
  | Log INFO m [VStr t; VStr a] =>
      if m =? "Fetching {token_symbol} price from Chainlink feed: {feed_address}"
      then [(t, a)] else []
  | _ => []
  end.

Definition fetch_attempts (tr : list event) : list (string * string) :=
  flat_map fetch_attempt tr.

(** The tokens for which the loop recorded that no price came back. *)
Definition failure_warning (e : event) : list string :=
  match e with
  | Log WARNING m [VStr t] =>
      if m =? "Failed to fetch price data for {token_symbol}"
      then [t] else []
  | _ => []
  end.

Definition failures (tr : list event) : list string :=
  flat_map failure_warning tr.

(** The addresses handed to [Web3.to_checksum_address], the addresses it
    answered, and the addresses contracts were read at. *)
Definition checksum_request (e : event) : list string :=
  match e with ToChecksumAddress a _ => [a] | _ => [] end.

Definition checksum_answer (e : event) : list string :=
  match e with ToChecksumAddress _ (Ok a) => [a] | _ => [] end.

Definition contract_read (e : event) : list string :=
  match e with
  | CallDecimals a _ | CallLatestRoundData a _ => [a]
  | _ => []
  end.

Definition checksum_requests tr := flat_map checksum_request tr.
Definition checksum_answers tr := flat_map checksum_answer tr.
Definition contract_reads tr := flat_map contract_read tr.

Definition is_sleep (e : event) : bool :=
  match e with Sleep _ => true | _ => false end.

(** The step of the pipeline an event belongs to. *)
Inductive step := fetch_step | store_step | derive_step | report_step.

Definition step_rank (s : step) : nat :=
  match s with
  | fetch_step => 0 | store_step => 1 | derive_step => 2 | report_step => 3
  end.

Definition step_of (e : event) : step :=
  match e with
  | SnowflakeConnect _ | WritePandas _ _ _ _ _ => store_step
  | Execute Warehouse.CREATE_OR_REPLACE_VIEW_stablecoin_peg_health _
  | Execute Warehouse.CREATE_OR_REPLACE_TABLE_stablecoin_peg_zscore _ =>
      derive_step
  | Execute _ _ | CursorClose | ConnClose | ReadSql _ _ _
  | StError _ _ | StInfo _ | Sleep _ => report_step
  | _ => fetch_step
  end.

Definition is_fetch_event (e : event) : bool :=
  match step_of e with fetch_step => true | _ => false end.

(** What one call of [fetch_token_price] leaves in the trace. *)
Definition token_run (token_symbol feed_address : string)
    (ev : list event) : Prop :=
  fetch_attempts ev = [(token_symbol, feed_address)]
  /\ checksum_requests ev = [feed_address]
  /\ incl (contract_reads ev) (checksum_answers ev)
  /\ (List.length (contract_reads ev) <= 2)%nat
  /\ failures ev = []
  /\ forallb is_fetch_event ev = true.

(** What one turn of the loop of [fetch_all_chainlink_prices] leaves in
    the trace; [r] is what [fetch_token_price] returned. *)
Definition loop_turn (token_symbol feed_address : string)
    (ev : list event) (r : option dict) : Prop :=
  fetch_attempts ev = [(token_symbol, feed_address)]
  /\ checksum_requests ev = [feed_address]
  /\ incl (contract_reads ev) (checksum_answers ev)
  /\ (List.length (contract_reads ev) <= 2)%nat
  /\ failures ev = match r with None => [token_symbol] | Some _ => [] end
  /\ forallb is_fetch_event ev = true.

Definition option_list {A} (o : option A) : list A :=
  match o with Some a => [a] | None => [] end.

(** The tokens of a turn that gave no record. *)
Definition failed (token_symbol : string) (r : option dict) : list string :=
  match r with None => [token_symbol] | Some _ => [] end.

(** The frame built from the records that came back. *)
Definition frame_of_records (records : list dict) : result DataFrame :=
  match getitem (DataFrame_of_records records)
          ["timestamp"; "token_symbol"; "price"; "deviation_from_peg"] with
  | Raise e => Raise e
  | Ok df =>
      match sort_values df "token_symbol" with
      | Raise e => Raise e
      | Ok df => Ok (reset_index df)
      end
  end.

(** A row of the frame [fetch_all_chainlink_prices] returns. *)
Definition frame_row (r : list value) : Prop :=
  exists (timestamp : Z) (token_symbol : string) (price : float),
    r = [ VInt timestamp; VStr token_symbol; VFloat price;
          VFloat (price - 1.0)%float ]
    /\ In token_symbol Fetch.TOKEN_SYMBOLS
    /\ (0 <? price)%float = true.

(** The frame [fetch_all_chainlink_prices] returns: not empty, the four
    columns in order, ascending and without repetition in token_symbol,
    labelled 0, 1, ... *)
Definition fetched_frame (df : DataFrame) : Prop :=
  columns df = ["timestamp"; "token_symbol"; "price"; "deviation_from_peg"]
  /\ rows df <> []
  /\ empty df = false
  /\ index df = range (List.length (rows df))
  /\ (exists tokens : list string,
        column df "token_symbol" = Some (map VStr tokens)
        /\ StronglySorted (fun a b => (a <=? b) = true) tokens
        /\ NoDup tokens
        /\ incl tokens Fetch.TOKEN_SYMBOLS)
  /\ Forall frame_row (rows df)
  /\ (List.length (rows df) <= 2)%nat.

Definition no_data : exn :=
  Exn RuntimeError "Failed to fetch price data for any token".

(** The state in which [fetch_all_chainlink_prices] asks for the
    connection: one line has been logged. *)
Definition after_start (st : state) : state :=
  {| trace := (trace st
               ++ [Log INFO "Starting Chainlink price fetch for all tokens..."
                       []])%list;
     db := db st |}.

(** How a run of [fetch_all_chainlink_prices] that added the events [ev]
    ended with [res]: either the connection raised, or both tokens had
    their turn, [r1] and [r2] being what came back for USDC and USDT. *)
Inductive fetch_outcome (w : world) (st : state) (ev : list event)
  : result DataFrame -> Prop :=
| no_connection e :
    snd (Fetch.get_web3_connection w (after_start st)) = Raise e ->
    fetch_attempts ev = [] ->
    checksum_requests ev = [] ->
    contract_reads ev = [] ->
    fetch_outcome w st ev (Raise e)
| both_turns w3 r1 r2 :
    snd (Fetch.get_web3_connection w (after_start st)) = Ok w3 ->
    fetch_attempts ev = Fetch.CHAINLINK_FEEDS ->
    checksum_requests ev = map snd Fetch.CHAINLINK_FEEDS ->
    incl (contract_reads ev) (checksum_answers ev) ->
    (List.length (contract_reads ev) <= 4)%nat ->
    failures ev = (failed "USDC" r1 ++ failed "USDT" r2)%list ->
    (forall d, r1 = Some d -> price_record "USDC" d) ->
    (forall d, r2 = Some d -> price_record "USDT" d) ->
    fetch_outcome w st ev
      match (option_list r1 ++ option_list r2)%list with
      | [] => Raise no_data
      | records => frame_of_records records
      end.

(** ** What the claims say of a run of [fetch_all_chainlink_prices] *)

(** Two fixed feeds, at most one row for each.  Unless the connection
    could not be made, in which case the run raises what
    [get_web3_connection] raised and no feed is touched, both tokens are
    visited, USDC then USDT, each with its fixed address and no other;
    every contract read is at an address these two gave. *)
Definition reads_two_fixed_feeds (w : world) (st : state)
    (ev : list event) (res : result DataFrame) : Prop :=
  Fetch.CHAINLINK_FEEDS
  = [ ("USDC", "0x8fFfFfd4AfB6115b954Bd326cbe7B4BA576818f6");
      ("USDT", "0x3E7d1eAB13ad0104d2750B8863b489D65364e32D") ]
  /\ match snd (Fetch.get_web3_connection w (after_start st)) with
     | Raise e =>
         res = Raise e
         /\ fetch_attempts ev = []
         /\ checksum_requests ev = []
         /\ contract_reads ev = []
     | Ok _ =>
         fetch_attempts ev = Fetch.CHAINLINK_FEEDS
         /\ checksum_requests ev = map snd Fetch.CHAINLINK_FEEDS
         /\ incl (contract_reads ev) (checksum_answers ev)
         /\ (List.length (contract_reads ev) <= 4)%nat
     end
  /\ forall df, res = Ok df ->
       (1 <= List.length (rows df) <= 2)%nat
       /\ exists tokens : list string,
            column df "token_symbol" = Some (map VStr tokens)
            /\ NoDup tokens
            /\ incl tokens Fetch.TOKEN_SYMBOLS.

(** One attempt per token, no wait, every failure written down and
    skipped. *)
Definition one_attempt_per_token (ev : list event) (res : result DataFrame)
  : Prop :=
  fetch_attempts ev = Fetch.CHAINLINK_FEEDS
  /\ (List.length (contract_reads ev) <= 4)%nat
  /\ existsb is_sleep ev = false
  /\ incl (failures ev) Fetch.TOKEN_SYMBOLS
  /\ match res with
     | Ok df => (List.length (rows df) + List.length (failures ev) = 2)%nat
     | Raise e => e = no_data /\ failures ev = Fetch.TOKEN_SYMBOLS
     end.

(** It raises, or it returns a frame that is not empty. *)
Definition raises_or_fetched (w : world) (st : state)
    (ev : list event) (res : result DataFrame) : Prop :=
  match res with
  | Raise e =>
      snd (Fetch.get_web3_connection w (after_start st)) = Raise e
      \/ (e = no_data /\ failures ev = Fetch.TOKEN_SYMBOLS)
  | Ok df => fetched_frame df
  end.

(** The state in which the op calls [fetch_all_chainlink_prices]: its
    first line has been logged. *)
Definition op_started (st : state) : state :=
  {| trace := (trace st
               ++ [Log INFO "Starting Chainlink price fetch..." []])%list;
     db := db st |}.

(** The op after its fetch.  An exception of the fetch is logged and
    raised again.  A frame is never taken for an empty one: its rows are
    counted in the log and the op goes on to the connection. *)
Definition op_goes_on (w : world) (st : state) (ev : list event)
    (r : result dict) : Prop :=
  exists ev_fetch res,
    Fetch.fetch_all_chainlink_prices w (op_started st)
    = ({| trace := (trace (op_started st) ++ ev_fetch)%list; db := db st |},
       res)
    /\ match res with
       | Raise e =>
           r = Raise e
           /\ ev = (Log INFO "Starting Chainlink price fetch..." []
                    :: ev_fetch
                    ++ [Log ERROR "Error fetching Chainlink prices: {str(e)}"
                            [str e]])%list
       | Ok df =>
           exists c tail,
             ev = (Log INFO "Starting Chainlink price fetch..." []
                   :: ev_fetch
                   ++ Log INFO "Fetched price data for {len(df)} tokens"
                          [VInt (len df)]
                   :: SnowflakeConnect c :: tail)%list
       end.

(** ** What the claims say of a run of a loader *)

Definition written (df : DataFrame) (r : result bool) : event :=
  WritePandas df "CHAINLINK_PRICES" false false r.

Definition steps_in_order (ev : list event) : Prop :=
  StronglySorted (fun a b => (step_rank a <= step_rank b)%nat)
                 (map step_of ev).

Definition after_store (e : event) : bool :=
  match step_of e with
  | derive_step | report_step => true
  | _ => false
  end.

(** What [load_real_chainlink_data] does once it holds the frame [df] to
    write, from the warehouse [d] to the warehouse [d']. *)
Inductive load_tail (df : DataFrame) (d : Warehouse.t)
  : list event -> Warehouse.t -> Prop :=
| not_connected e :
    load_tail df d [SnowflakeConnect (Raise e)] d
| not_written r :
    r <> Ok true ->
    load_tail df d [SnowflakeConnect (Ok tt); written df r; ConnClose] d
| written_then rest d' loaded_at old new :
    Warehouse.CHAINLINK_PRICES d = Some old ->
    Warehouse.to_rows (columns df) loaded_at (rows df) = Some new ->
    Warehouse.CHAINLINK_PRICES d' = Some (old ++ new)%list ->
    steps_in_order rest ->
    forallb after_store rest = true ->
    load_tail df d
      (SnowflakeConnect (Ok tt) :: written df (Ok true) :: rest) d'.

(** A run of [load_real_chainlink_data]: the fetch, then the frame
    reshaped, then [load_tail]. *)
Definition load_run (w : world) (st : state) (ev : list event)
    (d' : Warehouse.t) : Prop :=
  exists ev_fetch res,
    Fetch.fetch_all_chainlink_prices w st
    = ({| trace := (trace st ++ ev_fetch)%list; db := db st |}, res)
    /\ forallb is_fetch_event ev_fetch = true
    /\ match res with
       | Raise _ => ev = ev_fetch /\ d' = db st
       | Ok fetched =>
           exists df tail,
             Load.normalize fetched = Ok df
             /\ columns df = ["TIMESTAMP"; "TOKEN"; "PRICE";
                              "DEVIATION_FROM_1"]
             /\ rows df = rows fetched
             /\ ev = (ev_fetch ++ tail)%list
             /\ load_tail df (db st) tail d'
       end.

(** The two statements of the derivation. *)
Definition recreate_view (r : result (option Z)) : event :=
  Execute Warehouse.CREATE_OR_REPLACE_VIEW_stablecoin_peg_health r.

Definition recreate_table (r : result (option Z)) : event :=
  Execute Warehouse.CREATE_OR_REPLACE_TABLE_stablecoin_peg_zscore r.

(** What follows the fetch in a run that holds the frame [df] to write,
    and how the run ends: the connection, then the write of [df], then,
    after a write that reported success and only then, the view and
    after it the z-score table, each one sent unless the step before it
    raised; what comes after the two is the report and the closing. *)
Inductive store_then_derive (df : DataFrame)
  : list event -> result unit -> Prop :=
| connect_raised e :
    store_then_derive df [SnowflakeConnect (Raise e)] (Raise e)
| write_raised e :
    store_then_derive df
      [SnowflakeConnect (Ok tt); written df (Raise e); ConnClose] (Raise e)
| write_not_accepted :
    store_then_derive df
      [SnowflakeConnect (Ok tt); written df (Ok false); ConnClose] (Ok tt)
| view_raised e :
    store_then_derive df
      [SnowflakeConnect (Ok tt); written df (Ok true);
       recreate_view (Raise e); ConnClose] (Raise e)
| table_raised c e :
    store_then_derive df
      [SnowflakeConnect (Ok tt); written df (Ok true);
       recreate_view (Ok c); recreate_table (Raise e); ConnClose] (Raise e)
| derived c c' report r :
    Forall (fun e => step_of e = report_step) report ->
    store_then_derive df
      (SnowflakeConnect (Ok tt) :: written df (Ok true)
       :: recreate_view (Ok c) :: recreate_table (Ok c') :: report) r.

(** The steps a run performs: the fetch; when it raised, nothing more;
    else the frame renamed and reshaped, and [store_then_derive] on
    it. *)
Definition steps_performed (w : world) (st : state) (ev : list event)
    (r : result unit) : Prop :=
  exists ev_fetch res,
    Fetch.fetch_all_chainlink_prices w st
    = ({| trace := (trace st ++ ev_fetch)%list; db := db st |}, res)
    /\ forallb is_fetch_event ev_fetch = true
    /\ match res with
       | Raise e => ev = ev_fetch /\ r = Raise e
       | Ok fetched =>
           exists df tail,
             Load.normalize fetched = Ok df
             /\ columns df = ["TIMESTAMP"; "TOKEN"; "PRICE";
                              "DEVIATION_FROM_1"]
             /\ rows df = rows fetched
             /\ ev = (ev_fetch ++ tail)%list
             /\ store_then_derive df tail r
       end.

(** Fetch, then normalize, then store, then derive: the steps are
    performed, in that order, and there is no derivation unless the
    write reported success. *)
Definition fetch_normalize_store_derive (w : world) (st : state)
    (ev : list event) (r : result unit) : Prop :=
  steps_performed w st ev r
  /\ steps_in_order ev
  /\ (forall df tn ac ow r, In (WritePandas df tn ac ow r) ev ->
        tn = "CHAINLINK_PRICES" /\ ac = false /\ ow = false
        /\ exists fetched,
             snd (Fetch.fetch_all_chainlink_prices w st) = Ok fetched
             /\ Load.normalize fetched = Ok df
             /\ columns df = ["TIMESTAMP"; "TOKEN"; "PRICE";
                              "DEVIATION_FROM_1"]
             /\ rows df = rows fetched)
  /\ (forall e, In e ev -> step_of e = derive_step ->
        exists df, In (written df (Ok true)) ev)
  /\ (forall df tn ac ow r, In (WritePandas df tn ac ow r) ev ->
        r <> Ok true ->
        forall e, In e ev -> step_of e <> derive_step).

(** The load adds rows and touches no row that is there. *)
Definition appends_only (d : Warehouse.t) (ev : list event)
    (d' : Warehouse.t) : Prop :=
  match Warehouse.CHAINLINK_PRICES d with
  | None => Warehouse.CHAINLINK_PRICES d' = None
  | Some old =>
      exists added,
        Warehouse.CHAINLINK_PRICES d' = Some (old ++ added)%list
        /\ ((forall df, ~ In (written df (Ok true)) ev) -> added = [])
        /\ (forall df, In (written df (Ok true)) ev ->
              List.length added = List.length (rows df)
              /\ exists loaded_at,
                   Warehouse.to_rows (columns df) loaded_at (rows df)
                   = Some added)
  end.

(** No two rows of the table share (TIMESTAMP, TOKEN). *)
Definition no_duplicate_keys (d : Warehouse.t) : Prop :=
  match Warehouse.CHAINLINK_PRICES d with
  | None => True
  | Some rows => NoDup (map Sql.CHAINLINK_PRICES.key rows)
  end.

End Traces.

(** ** The dashboard's queries *)
Section Queries.
Import Py Run.
#[local] Open Scope string_scope.

Definition is_ReadSql (e : event) : bool :=
  match e with ReadSql _ _ _ => true | _ => false end.

(** The statement text holds the token as it is. *)
Definition embedded (token query : string) : Prop :=
  exists before after, query = before ++ token ++ after.

(** The token goes to the warehouse as a bound parameter and is not part
    of the statement text. *)
Definition bound_not_embedded (token : string) (e : event) : Prop :=
  match e with
  | ReadSql query params _ =>
      In (VStr token) params /\ ~ embedded token query
  | _ => True
  end.

(** The statement text carries the token between quotes and nothing is
    bound. *)
Definition embedded_not_bound (token : option string) (select tail : string)
    (e : event) : Prop :=
  match e with
  | ReadSql query params _ =>
      params = []
      /\ match token with
         | None | Some "" => query = select ++ tail
         | Some t => query = select ++ " WHERE TOKEN = '" ++ t ++ "'" ++ tail
         end
  | _ => True
  end.

End Queries.

End Props.

(* ================================================================= *)
(** * Sample runs *)

Module Sample.
Import Py Run.
#[local] Open Scope string_scope.

(** One way a warehouse may compute its aggregates. *)
Definition total (l : list float) : float :=
  fold_left PrimFloat.add l 0%float.

Definition count (l : list float) : float :=
  PrimFloat.of_uint63 (Uint63.of_Z (Z.of_nat (List.length l))).

Definition mean (l : list float) : option float :=
  match l with
  | [] => None
  | _ => Some (total l / count l)%float
  end.

Definition stddev (l : list float) : option float :=
  match l with
  | [] | [_] => None
  | _ =>
      let m := (total l / count l)%float in
      let squares := map (fun x => ((x - m) * (x - m))%float) l in
      Some (sqrt (total squares / (count l - 1)))%float
  end.

Definition USDC_feed := "0x8fFfFfd4AfB6115b954Bd326cbe7B4BA576818f6".
Definition USDT_feed := "0x3E7d1eAB13ad0104d2750B8863b489D65364e32D".

Definition round (a : Z) : round_data :=
  {| roundId := 7; answer := a; startedAt := 1699999000;
     updatedAt := 1699999000; answeredInRound := 7 |}.

(** A node whose feeds have [d] decimals and answer [usdc] and [usdt];
    the clock stands still and the warehouse accepts everything. *)
Definition node (d : N) (usdc usdt : result Z) : world :=
  {| streamlit_secret := fun _ _ =>
       Raise (Exn (Exception "ModuleNotFoundError")
                  "No module named 'streamlit'");
     getenv := fun _ _ => Some "value";
     is_connected := fun _ _ => Ok true;
     block_number := fun _ _ => Ok 21000000;
     to_checksum_address := fun _ a => Ok a;
     decimals := fun _ _ => Ok d;
     latestRoundData := fun _ a =>
       match (if a =? USDC_feed then usdc else usdt) with
       | Ok z => Ok (round z)
       | Raise e => Raise e
       end;
     utcnow := fun _ => 1700000000;
     snowflake_connect := fun _ => Ok tt;
     execute_fault := fun _ _ => None;
     write_pandas_outcome := fun _ _ => Ok true;
     CURRENT_TIMESTAMP := fun _ => 1700000001;
     sleep_fault := fun _ _ => None;
     read_sql_answer := fun _ _ _ => Ok empty_frame;
     AVG := mean;
     STDDEV := stddev |}.

Definition reverted : exn :=
  Exn (Exception "ContractLogicError") "execution reverted".

Definition calm : world := node 8 (Ok 99990000) (Ok 100020000).
Definition tiny : world := node 18 (Ok 1) (Ok 1).
Definition usdt_down : world := node 8 (Ok 99990000) (Raise reverted).

Definition start : state := {| trace := []; db := Warehouse.initial |}.

(** The schema is there and the table is empty. *)
Definition ready : state :=
  {| trace := [];
     db := {| Warehouse.CHAINLINK_PRICES := Some [];
              Warehouse.stablecoin_peg_health := true;
              Warehouse.stablecoin_peg_zscore := Some [] |} |}.

Definition loaded_once : state :=
  fst (Load.load_real_chainlink_data calm ready).

Definition loaded_twice : state :=
  fst (Load.load_real_chainlink_data calm loaded_once).

Definition tiny_record : dict :=
  [ ("timestamp", VInt 1700000000);
    ("token_symbol", VStr "USDC");
    ("price", VFloat (1 / 1e18)%float);
    ("deviation_from_peg", VFloat (-1)%float) ].

(** Three samples of USDC, the last more than a day after the first, and
    one of USDT. *)
Definition price (ts : Z) (token : string) (p : float)
  : Sql.CHAINLINK_PRICES.row :=
  {| Sql.CHAINLINK_PRICES.TIMESTAMP := ts;
     Sql.CHAINLINK_PRICES.TOKEN := token;
     Sql.CHAINLINK_PRICES.PRICE := p;
     Sql.CHAINLINK_PRICES.DEVIATION_FROM_1 := (p - 1.0)%float;
     Sql.CHAINLINK_PRICES.LOADED_AT := ts + 1 |}.

Definition prices : list Sql.CHAINLINK_PRICES.row :=
  [ price 1700000000 "USDC" 0.9999%float;
    price 1700000000 "USDT" 1.0002%float;
    price 1700050000 "USDC" 1.0031%float;
    price 1700090000 "USDC" 0.9940%float ].

Definition zscores : list Sql.stablecoin_peg_zscore.row :=
  match Sql.zscore_query mean stddev prices with
  | inr rows => rows
  | inl _ => []
  end.

(** No URL anywhere. *)
Definition no_url : world :=
  {| streamlit_secret := streamlit_secret calm;
     getenv := fun _ _ => None;
     is_connected := is_connected calm;
     block_number := block_number calm;
     to_checksum_address := to_checksum_address calm;
     decimals := decimals calm;
     latestRoundData := latestRoundData calm;
     utcnow := utcnow calm;
     snowflake_connect := snowflake_connect calm;
     execute_fault := execute_fault calm;
     write_pandas_outcome := write_pandas_outcome calm;
     CURRENT_TIMESTAMP := CURRENT_TIMESTAMP calm;
     sleep_fault := sleep_fault calm;
     read_sql_answer := read_sql_answer calm;
     AVG := mean;
     STDDEV := stddev |}.

(** The URL is a Streamlit secret; the node says it is not connected. *)
Definition secret_url_node_down : world :=
  {| streamlit_secret := fun _ _ => Ok (Some "https://secret.example");
     getenv := getenv calm;
     is_connected := fun _ _ => Ok false;
     block_number := block_number calm;
     to_checksum_address := to_checksum_address calm;
     decimals := decimals calm;
     latestRoundData := latestRoundData calm;
     utcnow := utcnow calm;
     snowflake_connect := snowflake_connect calm;
     execute_fault := execute_fault calm;
     write_pandas_outcome := write_pandas_outcome calm;
     CURRENT_TIMESTAMP := CURRENT_TIMESTAMP calm;
     sleep_fault := sleep_fault calm;
     read_sql_answer := read_sql_answer calm;
     AVG := mean;
     STDDEV := stddev |}.

(** The frame that the load of the calm node hands to [write_pandas]. *)
Definition stored : DataFrame :=
  match snd (Fetch.fetch_all_chainlink_prices calm ready) with
  | Ok fetched =>
      match Load.normalize fetched with
      | Ok df => df
      | Raise _ => empty_frame
      end
  | Raise _ => empty_frame
  end.

(** The calm node in front of a warehouse that refuses every load. *)
Definition refusing : world :=
  {| streamlit_secret := streamlit_secret calm;
     getenv := getenv calm;
     is_connected := is_connected calm;
     block_number := block_number calm;
     to_checksum_address := to_checksum_address calm;
     decimals := decimals calm;
     latestRoundData := latestRoundData calm;
     utcnow := utcnow calm;
     snowflake_connect := snowflake_connect calm;
     execute_fault := execute_fault calm;
     write_pandas_outcome := fun _ _ => Ok false;
     CURRENT_TIMESTAMP := CURRENT_TIMESTAMP calm;
     sleep_fault := sleep_fault calm;
     read_sql_answer := read_sql_answer calm;
     AVG := mean;
     STDDEV := stddev |}.

(** The feed of USDC answers a negative number, that of USDT zero. *)
Definition below_zero : world := node 8 (Ok (-99990000)) (Ok 0).

End Sample.

(* ================================================================= *)
(** * Further behaviour of the code *)

Module Behaviour.
Import Py Run.
#[local] Open Scope string_scope.

(** ** get_web3_connection *)

Definition rpc_url_not_set : exn :=
  Exn ValueError
    "ALCHEMY_RPC_URL not set in environment variables or Streamlit secrets".

(** The two ways [get_web3_connection] fails: no URL, or a
    ConnectionError that wraps the message of what went wrong and was
    logged. *)
Definition connection_failure (e : exn) (ev : list event) : Prop :=
  e = rpc_url_not_set
  \/ exists inner,
       e = Exn ConnectionError ("Error connecting to RPC: " ++ inner)
       /\ In (Log ERROR "Error connecting to RPC: {str(e)}" [VStr inner]) ev.

Definition connection_outcome (ev : list event) (r : result string) : Prop :=
  match r with
  | Raise e => connection_failure e ev
  | Ok url =>
      url <> ""
      /\ In (IsConnected url (Ok true)) ev
      /\ exists n, In (BlockNumber url (Ok n)) ev
  end.

Definition touches_network (e : event) : bool :=
  match e with
  | IsConnected _ _ | BlockNumber _ _ | ToChecksumAddress _ _
  | CallDecimals _ _ | CallLatestRoundData _ _ => true
  | _ => false
  end.

Definition is_Getenv (e : event) : bool :=
  match e with Getenv _ _ => true | _ => false end.

(** The URL an event connects to, when it does. *)
Definition connects_to (e : event) : list string :=
  match e with
  | IsConnected u _ | BlockNumber u _ => [u]
  | _ => []
  end.

(** ** fetch_token_price *)

Definition is_Log (e : event) : bool :=
  match e with Log _ _ _ => true | _ => false end.

(** The events of a run that are not log lines. *)
Definition calls (ev : list event) : list event :=
  filter (fun e => negb (is_Log e)) ev.

(** The calls of one [fetch_token_price] and what it returns. *)
Inductive token_calls (token_symbol feed_address : string)
  : list event -> option dict -> Prop :=
| checksum_failed e :
    token_calls token_symbol feed_address
      [ToChecksumAddress feed_address (Raise e)] None
| decimals_failed a e :
    token_calls token_symbol feed_address
      [ToChecksumAddress feed_address (Ok a); CallDecimals a (Raise e)] None
| round_failed a d e :
    token_calls token_symbol feed_address
      [ToChecksumAddress feed_address (Ok a); CallDecimals a (Ok d);
       CallLatestRoundData a (Raise e)] None
| price_rejected a d rd :
    token_calls token_symbol feed_address
      [ToChecksumAddress feed_address (Ok a); CallDecimals a (Ok d);
       CallLatestRoundData a (Ok rd)] None
| price_accepted a d rd ts p :
    token_calls token_symbol feed_address
      [ToChecksumAddress feed_address (Ok a); CallDecimals a (Ok d);
       CallLatestRoundData a (Ok rd); UtcNow ts]
      (Some [ ("timestamp", VInt ts);
              ("token_symbol", VStr token_symbol);
              ("price", VFloat p);
              ("deviation_from_peg", VFloat (p - 1.0)%float) ]).

(** ** The loaders *)

Definition is_Execute (e : event) : bool :=
  match e with Execute _ _ => true | _ => false end.

Definition executed_ok (e : event) : bool :=
  match e with Execute _ (Ok _) => true | _ => false end.

Definition statements (ev : list event) : list Warehouse.statement :=
  flat_map (fun e => match e with Execute s _ => [s] | _ => [] end) ev.

Definition setup_statements : list Warehouse.statement :=
  [ Warehouse.CREATE_TABLE_IF_NOT_EXISTS_CHAINLINK_PRICES;
    Warehouse.CREATE_OR_REPLACE_VIEW_stablecoin_peg_health;
    Warehouse.CREATE_OR_REPLACE_TABLE_stablecoin_peg_zscore ].

Definition existing_rows (d : Warehouse.t) : list Sql.CHAINLINK_PRICES.row :=
  match Warehouse.CHAINLINK_PRICES d with
  | Some rows => rows
  | None => []
  end.

(** The schema is there, the price rows are [rows] and the z-score table
    is the one derived from them. *)
Definition schema_over (w : world) (rows : list Sql.CHAINLINK_PRICES.row)
    (d : Warehouse.t) : Prop :=
  Warehouse.CHAINLINK_PRICES d = Some rows
  /\ Warehouse.stablecoin_peg_health d = true
  /\ exists z, Sql.zscore_query (AVG w) (STDDEV w) rows = inr z
               /\ Warehouse.stablecoin_peg_zscore d = Some z.

(** How a run of [setup_snowflake_schema] ends. *)
Definition setup_outcome (w : world) (st : state) (ev : list event)
    (r : result unit) : Prop :=
  match snowflake_connect w (trace st) with
  | Raise e => ev = [SnowflakeConnect (Raise e)] /\ r = Raise e
  | Ok _ =>
      exists body,
        ev = (SnowflakeConnect (Ok tt) :: body ++ [CursorClose; ConnClose])%list
        /\ forallb is_Execute body = true
        /\ (exists rest, setup_statements = (statements body ++ rest)%list)
        /\ match r with
           | Ok _ =>
               statements body = setup_statements
               /\ forallb executed_ok body = true
           | Raise e =>
               exists before s,
                 body = (before ++ [Execute s (Raise e)])%list
                 /\ forallb executed_ok before = true
           end
  end.

Definition is_opened (e : event) : bool :=
  match e with SnowflakeConnect (Ok _) => true | _ => false end.

Definition is_ConnClose (e : event) : bool :=
  match e with ConnClose => true | _ => false end.

(** How many connections to the warehouse a run opened and closed. *)
Definition opened (ev : list event) : nat :=
  List.length (filter is_opened ev).

Definition closed (ev : list event) : nat :=
  List.length (filter is_ConnClose ev).

Definition is_derive (e : event) : bool :=
  match Props.step_of e with Props.derive_step => true | _ => false end.

Definition write_refused : exn :=
  Exn (Exception "Exception") "Failed to write pandas dataframe to Snowflake".

(** A row of CHAINLINK_PRICES that holds a price as it was fetched. *)
Definition stored_price (r : Sql.CHAINLINK_PRICES.row) : Prop :=
  In (Sql.CHAINLINK_PRICES.TOKEN r) Fetch.TOKEN_SYMBOLS
  /\ (0 <? Sql.CHAINLINK_PRICES.PRICE r)%float = true
  /\ Sql.CHAINLINK_PRICES.DEVIATION_FROM_1 r
     = (Sql.CHAINLINK_PRICES.PRICE r - 1.0)%float.

(** The frame of the op as it is given to [write_pandas]. *)
Definition op_frame (fetched : DataFrame) : DataFrame :=
  rename fetched [ ("token_symbol", "token");
                   ("deviation_from_peg", "deviation_from_1") ].

(** ** fetch_continuously *)


(** ** The dashboard *)

(** The events that reach the warehouse. *)
Definition reaches_warehouse (e : event) : bool :=
  match e with
  | SnowflakeConnect _ | Execute _ _ | WritePandas _ _ _ _ _
  | ReadSql _ _ _ => true
  | _ => false
  end.

Definition missing_variables (missing : list string) : event :=
  StError "Missing required environment variables: {', '.join(missing_vars)}"
          (map VStr missing).

(** What the cache of the connection can hold in the world [w]: nothing,
    or a value the body returned at an earlier call. *)
Definition cache_of (w : world) (cached : option (option unit)) : Prop :=
  match cached with
  | None => True
  | Some conn =>
      exists st0,
        snd (Dashboard.get_snowflake_connection_uncached w st0) = Ok conn
  end.

(** ** The derived table *)

Definition price_key (r : Sql.CHAINLINK_PRICES.row) : Z * string * float :=
  (Sql.CHAINLINK_PRICES.TIMESTAMP r, Sql.CHAINLINK_PRICES.TOKEN r,
   Sql.CHAINLINK_PRICES.PRICE r).

Definition zscore_key (r : Sql.stablecoin_peg_zscore.row)
  : Z * string * float :=
  (Sql.stablecoin_peg_zscore.TIMESTAMP r, Sql.stablecoin_peg_zscore.TOKEN r,
   Sql.stablecoin_peg_zscore.PRICE r).

(** Ascending in TOKEN and, inside a token, from the latest TIMESTAMP to
    the earliest. *)
Definition token_then_latest (z : list Sql.stablecoin_peg_zscore.row)
  : Prop :=
  Sorted (fun a b => Sql.stablecoin_peg_zscore.order a b = true) z.

End Behaviour.

(* ================================================================= *)
(** * Facts about binary64 arithmetic

    Rounding never produces NaN, and on numbers that are not NaN the
    comparisons form a total order. *)

Lemma shr_1_nonneg mrs : 0 <= shr_m mrs -> 0 <= shr_m (shr_1 mrs).
Proof.
  destruct mrs as [m r s]; simpl.
  destruct m as [|p|p]; simpl; try lia; destruct p; simpl; lia.
Qed.

Lemma iter_pos_shr_1_nonneg p : forall mrs,
  0 <= shr_m mrs -> 0 <= shr_m (iter_pos shr_1 p mrs).
Proof.
  induction p as [p IH|p IH|]; intros mrs H; simpl.
  - apply IH, IH, shr_1_nonneg, H.
  - apply IH, IH, H.
  - apply shr_1_nonneg, H.
Qed.

Lemma shr_nonneg mrs e n : 0 <= shr_m mrs -> 0 <= shr_m (fst (shr mrs e n)).
Proof.
  intros H. destruct n; simpl; auto using iter_pos_shr_1_nonneg.
Qed.

Lemma shr_fexp_nonneg m e l :
  0 <= m -> 0 <= shr_m (fst (shr_fexp prec emax m e l)).
Proof.
  intros H. unfold shr_fexp. apply shr_nonneg.
  destruct l as [|[ | | ]]; simpl; exact H.
Qed.

Lemma round_nearest_even_nonneg m l : 0 <= m -> 0 <= round_nearest_even m l.
Proof.
  intros H. destruct l as [|[ | | ]]; simpl; try lia.
  destruct (Z.even m); lia.
Qed.

Lemma binary_round_aux_not_nan s m e l :
  0 <= m -> IEEE.is_nan_sf (binary_round_aux prec emax s m e l) = false.
Proof.
  intros H. unfold binary_round_aux.
  pose proof (shr_fexp_nonneg m e l H) as H1.
  destruct (shr_fexp prec emax m e l) as [mrs' e'] eqn:E1. simpl in H1.
  pose proof (shr_fexp_nonneg
                (round_nearest_even (shr_m mrs') (loc_of_shr_record mrs')) e'
                loc_Exact (round_nearest_even_nonneg _ _ H1)) as H2.
  destruct (shr_fexp prec emax _ e' loc_Exact) as [mrs'' e''] eqn:E2.
  simpl in H2.
  destruct (shr_m mrs'') as [|q|q]; try reflexivity.
  - destruct (e'' <=? emax - prec); reflexivity.
  - lia.
Qed.

Lemma binary_round_not_nan s m e :
  IEEE.is_nan_sf (binary_round prec emax s m e) = false.
Proof.
  unfold binary_round.
  destruct (shl_align m e _) as [mz ez].
  apply binary_round_aux_not_nan. lia.
Qed.

Lemma binary_normalize_not_nan m e sz :
  IEEE.is_nan_sf (binary_normalize prec emax m e sz) = false.
Proof.
  destruct m; simpl; auto using binary_round_not_nan.
Qed.

Lemma SFldexp_not_nan x e :
  IEEE.is_nan_sf x = false -> IEEE.is_nan_sf (SFldexp prec emax x e) = false.
Proof.
  destruct x; simpl; auto using binary_round_not_nan.
Qed.

Lemma SFopp_not_nan x : IEEE.is_nan_sf x = false -> IEEE.is_nan_sf (SFopp x) = false.
Proof. destruct x; simpl; auto. Qed.

Lemma SF2Prim_not_nan x :
  IEEE.is_nan_sf x = false -> IEEE.is_nan_sf (Prim2SF (SF2Prim x)) = false.
Proof.
  destruct x as [[|]|[|]| |s m e]; intros H; try reflexivity; try discriminate.
  unfold SF2Prim.
  assert (N : IEEE.is_nan_sf
            (Prim2SF (Z.ldexp (of_uint63 (Uint63.of_Z (Zpos m))) e)) = false).
  { rewrite Z_ldexp_spec, of_uint63_spec.
    apply SFldexp_not_nan, binary_normalize_not_nan. }
  destruct s; [rewrite opp_spec; apply SFopp_not_nan|]; exact N.
Qed.

Lemma SFdiv_not_nan x y :
  IEEE.is_nan_sf x = false -> IEEE.is_inf_sf x = false ->
  IEEE.is_nan_sf y = false -> IEEE.is_zero_sf y = false ->
  IEEE.is_nan_sf (SFdiv prec emax x y) = false.
Proof.
  destruct x as [sx|sx| |sx mx ex], y as [sy|sy| |sy my ey];
    simpl; intros; try reflexivity; try discriminate.
  unfold SFdiv_core_binary.
  set (m' := match _ with Z0 => Zpos mx | Zpos _ => _ | Zneg _ => 0 end).
  assert (Hm : 0 <= m').
  { subst m'. destruct (_ - _ - _) eqn:E; try lia.
    apply Z.shiftl_nonneg. lia. }
  pose proof (Z_div_mod m' (Zpos my) eq_refl) as D.
  destruct (Z.div_eucl m' (Zpos my)) as [q r].
  apply binary_round_aux_not_nan. nia.
Qed.

(** Comparison. *)
Lemma Prim2SF_is_nan f : IEEE.is_nan_sf (Prim2SF f) = is_nan f.
Proof.
  unfold Prim2SF.
  destruct (is_nan f); [reflexivity|].
  destruct (is_zero f); [reflexivity|].
  destruct (is_infinity f); [reflexivity|].
  destruct (Z.frexp f) as [r ex].
  destruct (shr_fexp _ _ _ _ _) as [sh e'].
  destruct (shr_m sh); reflexivity.
Qed.

Lemma SFcompare_antisym x y :
  SFcompare y x = option_map CompOpp (SFcompare x y).
Proof.
  destruct x as [sx|sx| |sx mx ex], y as [sy|sy| |sy my ey]; simpl;
    try reflexivity;
    try (destruct sx; reflexivity); try (destruct sy; reflexivity);
    try (destruct sx, sy; reflexivity).
  f_equal.
  assert (P : Pos.compare_cont Eq my mx = CompOpp (Pos.compare_cont Eq mx my))
    by (rewrite Pos.compare_cont_antisym; reflexivity).
  rewrite (Z.compare_antisym ex ey), P.
  destruct sx, sy; simpl; try reflexivity;
    destruct (ex ?= ey); simpl; try reflexivity;
    destruct (Pos.compare_cont Eq mx my); reflexivity.
Qed.


Lemma SFcompare_defined x y :
  IEEE.is_nan_sf x = false -> IEEE.is_nan_sf y = false ->
  exists c, SFcompare x y = Some c.
Proof.
  destruct x as [sx|sx| |sx mx ex], y as [sy|sy| |sy my ey]; simpl;
    intros; try discriminate; eauto.
Qed.

Lemma SFcompare_nan x y :
  SFcompare x y <> None ->
  IEEE.is_nan_sf x = false /\ IEEE.is_nan_sf y = false.
Proof.
  destruct x as [sx|sx| |sx mx ex], y as [sy|sy| |sy my ey]; simpl;
    intros H; try (split; reflexivity); exfalso; apply H; reflexivity.
Qed.

Lemma leb_true_not_nan (x y : float) :
  (x <=? y)%float = true -> is_nan x = false /\ is_nan y = false.
Proof.
  rewrite leb_spec, <- !Prim2SF_is_nan. unfold SFleb. intros H.
  apply SFcompare_nan. destruct (SFcompare _ _); discriminate.
Qed.

Lemma ltb_true_not_nan (x y : float) :
  (x <? y)%float = true -> is_nan x = false /\ is_nan y = false.
Proof.
  rewrite ltb_spec, <- !Prim2SF_is_nan. unfold SFltb. intros H.
  apply SFcompare_nan. destruct (SFcompare _ _); discriminate.
Qed.

Lemma ltb_negb_leb (x y : float) :
  is_nan x = false -> is_nan y = false ->
  (x <? y)%float = negb (y <=? x)%float.
Proof.
  rewrite <- !Prim2SF_is_nan, ltb_spec, leb_spec. intros Hx Hy.
  unfold SFltb, SFleb. rewrite (SFcompare_antisym (Prim2SF x) (Prim2SF y)).
  destruct (SFcompare_defined _ _ Hx Hy) as [c ->].
  destruct c; reflexivity.
Qed.

Lemma ltb_true_eqb_false (x y : float) :
  (x <? y)%float = true -> (y =? x)%float = false.
Proof.
  rewrite ltb_spec, eqb_spec. unfold SFltb, SFeqb.
  rewrite (SFcompare_antisym (Prim2SF x) (Prim2SF y)).
  destruct (SFcompare (Prim2SF x) (Prim2SF y)) as [[ | | ]|];
    simpl; intros; try discriminate; reflexivity.
Qed.

Lemma Prim2SF_is_inf f :
  is_nan f = false -> is_infinity f = false ->
  IEEE.is_inf_sf (Prim2SF f) = false.
Proof.
  unfold Prim2SF. intros -> Hi.
  destruct (is_zero f); [reflexivity|]. rewrite Hi.
  destruct (Z.frexp f) as [r ex].
  destruct (shr_fexp _ _ _ _ _) as [sh e'].
  destruct (shr_m sh); reflexivity.
Qed.

Lemma Prim2SF_is_zero f :
  (f =? 0)%float = false -> IEEE.is_zero_sf (Prim2SF f) = false.
Proof.
  rewrite eqb_spec. change (Prim2SF 0) with (S754_zero false).
  destruct (Prim2SF f) as [s| | |]; try reflexivity.
  discriminate.
Qed.

(** [float(z)] is a finite number. *)
Lemma float_of_int_finite z f :
  Py.float_of_int z = Py.Ok f ->
  is_nan f = false /\ is_infinity f = false.
Proof.
  unfold Py.float_of_int.
  destruct (is_infinity (SF2Prim _)) eqn:E; intros H; inversion H; subst.
  split; [|exact E].
  rewrite <- Prim2SF_is_nan.
  apply SF2Prim_not_nan, binary_normalize_not_nan.
Qed.

(** A quotient [x / n] that Python returns is not NaN when [x] is finite. *)
Lemma truediv_float_int_not_nan x n q :
  is_nan x = false -> is_infinity x = false ->
  Py.truediv_float_int x n = Py.Ok q -> is_nan q = false.
Proof.
  intros Hn Hi. unfold Py.truediv_float_int.
  destruct (Py.float_of_int n) as [y|e] eqn:E; [|discriminate].
  destruct (y =? 0)%float eqn:Z0; intros H; inversion H; subst.
  destruct (float_of_int_finite _ _ E) as [Yn Yi].
  rewrite <- Prim2SF_is_nan, div_spec.
  apply SFdiv_not_nan.
  - rewrite Prim2SF_is_nan; exact Hn.
  - apply Prim2SF_is_inf; assumption.
  - rewrite Prim2SF_is_nan; exact Yn.
  - apply Prim2SF_is_zero; exact Z0.
Qed.

(* ================================================================= *)
(** * Sorting keeps the rows *)

Lemma insert_sorted_perm {A} (leb : A -> A -> bool) x l :
  Permutation (insert_sorted leb x l) (x :: l).
Proof.
  induction l as [|y l IH]; simpl; [reflexivity|].
  destruct (leb x y); [reflexivity|].
  rewrite IH. apply perm_swap.
Qed.

Lemma order_by_perm {A} (leb : A -> A -> bool) l :
  Permutation (order_by leb l) l.
Proof.
  induction l as [|x l IH]; simpl; [reflexivity|].
  rewrite insert_sorted_perm. now constructor.
Qed.

Lemma in_order_by {A} (leb : A -> A -> bool) l x :
  In x (order_by leb l) <-> In x l.
Proof.
  split; apply Permutation_in;
    [apply order_by_perm | apply Permutation_sym, order_by_perm].
Qed.

(* ================================================================= *)
(** * The view stablecoin_peg_health *)

Section PegHealth.
Import Sql.stablecoin_peg_health Props.
#[local] Open Scope float_scope.

Lemma select_classified (c : Sql.CHAINLINK_PRICES.row) :
  classified_by_thresholds (select c).
Proof.
  unfold classified_by_thresholds, within_healthy, within_warning, select.
  simpl.
  set (a := abs (Sql.CHAINLINK_PRICES.PRICE c - 1)).
  split; [reflexivity|].
  assert (gt_le : forall b, (b <? a) = true -> (a <=? b) = false).
  { intros b L. destruct (ltb_true_not_nan _ _ L) as [N1 N2].
    rewrite (ltb_negb_leb _ _ N1 N2) in L.
    now destruct (a <=? b). }
  assert (le_gt : forall b, is_nan b = false ->
            (a <=? 0.005) = true -> (a <=? b) = false -> (b <? a) = true).
  { intros b Nb L F. destruct (leb_true_not_nan _ _ L) as [Na _].
    rewrite (ltb_negb_leb _ _ Nb Na), F. reflexivity. }
  destruct (a <=? 0.001) eqn:H1; [|destruct (a <=? 0.005) eqn:H2].
  - split; [split; reflexivity|]. split; split; try discriminate.
    + intros [L _]. apply gt_le in L. congruence.
    + intros [C _]. now elim C.
  - pose proof (le_gt 0.001 eq_refl eq_refl H1) as L.
    split; [split; discriminate|]. split; split; try discriminate.
    + intros _. now split.
    + reflexivity.
    + intros [_ C]. elim C. now split.
  - split; [split; discriminate|]. split; split; try discriminate.
    + intros [_ C]. discriminate.
    + intros _. split; [discriminate|]. intros [_ C]. discriminate.
    + reflexivity.
Qed.

(** C2: every row of the view [stablecoin_peg_health] is classified by
    fixed thresholds on [|PRICE - 1.0|]: it is 'healthy' exactly when the
    absolute deviation is at most 0.001, 'warning' exactly when it is
    above 0.001 and at most 0.005, 'critical' in every other case, and its
    DEVIATION_FROM_PEG is [PRICE - 1.0]. *)
Theorem peg_health_fixed_thresholds
    (t : list Sql.CHAINLINK_PRICES.row) (r : row) :
  In r (query t) -> classified_by_thresholds r.
Proof.
  unfold query. rewrite in_order_by, in_map_iff.
  intros [c [<- _]]. apply select_classified.
Qed.

End PegHealth.

(* ================================================================= *)
(** * The table stablecoin_peg_zscore *)

Lemma Permutation_filter {A} (f : A -> bool) l l' :
  Permutation l l' -> Permutation (filter f l) (filter f l').
Proof.
  induction 1 as [|x l l' _ IH|x y l|l l' l'' _ IH1 _ IH2]; simpl.
  - constructor.
  - destruct (f x); [constructor|]; exact IH.
  - destruct (f x), (f y); try reflexivity. apply perm_swap.
  - now transitivity (filter f l').
Qed.

Lemma filter_filter {A} (f g : A -> bool) l :
  filter f (filter g l) = filter (fun x => g x && f x) l.
Proof.
  induction l as [|x l IH]; simpl; [reflexivity|].
  destruct (g x); simpl; [destruct (f x)|]; now rewrite IH.
Qed.

Lemma select_all_inr {A B} (f : A -> Sql.sql_error + B) l bs :
  Sql.select_all f l = inr bs ->
  forall b, In b bs -> exists a, In a l /\ f a = inr b.
Proof.
  revert bs. induction l as [|a l IH]; simpl; intros bs H b Hb.
  - inversion H; subst. destruct Hb.
  - destruct (f a) as [e|b0] eqn:Fa; [discriminate|].
    destruct (Sql.select_all f l) as [e|bs0]; [discriminate|].
    inversion H; subst. destruct Hb as [<-|Hb].
    + exists a. auto.
    + destruct (IH bs0 eq_refl b Hb) as [a' [I E]]. exists a'. auto.
Qed.

Lemma select_all_total {A B} (f : A -> Sql.sql_error + B) l :
  (forall a, exists b, f a = inr b) -> exists bs, Sql.select_all f l = inr bs.
Proof.
  intros T. induction l as [|a l [bs IH]]; simpl; [eauto|].
  destruct (T a) as [b ->]. rewrite IH. eauto.
Qed.

Section ZscoreFacts.
Import Sql Props.
#[local] Open Scope float_scope.
Variables AVG STDDEV : list float -> option float.

(** A division by a number that is not zero goes through. *)
Lemma sql_div_nonzero a s :
  (s =? 0) = false ->
  sql_div a (Some s) = inr (option_map (fun x => x / s) a).
Proof. intros H. destruct a; simpl; [rewrite H|]; reflexivity. Qed.

Lemma NULLIF_zero_guards a o :
  exists q, sql_div a (NULLIF o (Some 0)) = inr q
    /\ match o with
       | None => q = None
       | Some s => if s =? 0 then q = None
                   else q = option_map (fun x => x / s) a
       end.
Proof.
  destruct o as [s|]; simpl.
  - destruct (s =? 0) eqn:E.
    + exists None. destruct a; auto.
    + rewrite sql_div_nonzero by exact E. eauto.
  - exists None. destruct a; auto.
Qed.

Lemma ZSCORE_of_total r : exists z, ZSCORE_of r = inr z.
Proof.
  unfold ZSCORE_of, deviation_over.
  destruct (rolling_stats.ROLLING_STDDEV_24H r) as [s|]; simpl; [|eauto].
  destruct (0 <? s) eqn:E; [|eauto].
  rewrite sql_div_nonzero by (apply ltb_true_eqb_false, E). eauto.
Qed.

Lemma ZSCORE_STATUS_of_total r : exists st, ZSCORE_STATUS_of r = inr st.
Proof.
  unfold ZSCORE_STATUS_of, deviation_over.
  destruct (NULLIF_zero_guards
              (sql_sub (Some (rolling_stats.DEVIATION_FROM_PEG r))
                       (rolling_stats.ROLLING_MEAN_24H r))
              (rolling_stats.ROLLING_STDDEV_24H r)) as [q [-> _]].
  destruct (when _); [eauto|]. destruct (when _); eauto.
Qed.

Lemma zscore_select_total r : exists z, zscore_select r = inr z.
Proof.
  unfold zscore_select.
  destruct (ZSCORE_of_total r) as [z ->].
  destruct (ZSCORE_STATUS_of_total r) as [st ->]. eauto.
Qed.

Lemma zscore_query_total t : exists rows, zscore_query AVG STDDEV t = inr rows.
Proof.
  unfold zscore_query.
  destruct (select_all_total zscore_select
              (map (rolling_stats_select AVG STDDEV
                      (stablecoin_peg_health.query t))
                   (stablecoin_peg_health.query t))
              zscore_select_total) as [rows ->].
  eauto.
Qed.

(** What [zscore_select] copies and what it computes. *)
Lemma zscore_select_inr r z :
  zscore_select r = inr z ->
  stablecoin_peg_zscore.TIMESTAMP z = rolling_stats.TIMESTAMP r
  /\ stablecoin_peg_zscore.TOKEN z = rolling_stats.TOKEN r
  /\ stablecoin_peg_zscore.DEVIATION_FROM_PEG z
     = rolling_stats.DEVIATION_FROM_PEG r
  /\ stablecoin_peg_zscore.ROLLING_MEAN_24H z
     = rolling_stats.ROLLING_MEAN_24H r
  /\ stablecoin_peg_zscore.ROLLING_STDDEV_24H z
     = rolling_stats.ROLLING_STDDEV_24H r
  /\ ZSCORE_of r = inr (stablecoin_peg_zscore.ZSCORE z)
  /\ ZSCORE_STATUS_of r = inr (stablecoin_peg_zscore.ZSCORE_STATUS z).
Proof.
  unfold zscore_select.
  destruct (ZSCORE_of r) as [e|zs]; [discriminate|].
  destruct (ZSCORE_STATUS_of r) as [e|st]; [discriminate|].
  intros H. inversion H; subst; simpl. repeat split; reflexivity.
Qed.

Lemma ZSCORE_of_positive r s :
  rolling_stats.ROLLING_STDDEV_24H r = Some s -> (0 <? s) = true ->
  ZSCORE_of r
  = inr (option_map (fun m => (rolling_stats.DEVIATION_FROM_PEG r - m) / s)
                    (rolling_stats.ROLLING_MEAN_24H r)).
Proof.
  intros E P. unfold ZSCORE_of, deviation_over. rewrite E. simpl. rewrite P.
  rewrite sql_div_nonzero by (apply ltb_true_eqb_false, P).
  destruct (rolling_stats.ROLLING_MEAN_24H r); reflexivity.
Qed.

Lemma ZSCORE_of_unguarded r :
  match rolling_stats.ROLLING_STDDEV_24H r with
  | None => True
  | Some s => (s =? 0) = true
  end ->
  ZSCORE_of r = inr (Some 0).
Proof.
  unfold ZSCORE_of. destruct (rolling_stats.ROLLING_STDDEV_24H r) as [s|];
    simpl; [|reflexivity].
  intros Z0. destruct (0 <? s) eqn:P; [|reflexivity].
  apply ltb_true_eqb_false in P. congruence.
Qed.

Lemma ZSCORE_STATUS_of_unguarded r :
  match rolling_stats.ROLLING_STDDEV_24H r with
  | None => True
  | Some s => (s =? 0) = true
  end ->
  ZSCORE_STATUS_of r = inr "normal"%string.
Proof.
  unfold ZSCORE_STATUS_of, deviation_over.
  destruct (rolling_stats.ROLLING_STDDEV_24H r) as [s|]; simpl.
  - intros ->. destruct (rolling_stats.ROLLING_MEAN_24H r); reflexivity.
  - intros _. destruct (rolling_stats.ROLLING_MEAN_24H r); reflexivity.
Qed.

(** The status arms on a quotient [q], once the division is through. *)
Lemma status_arms (q : option float) (st : string) :
  (if when (sql_gt (sql_abs q) (Some 2)) then inr "outlier"%string
   else if when (sql_gt (sql_abs q) (Some 1)) then inr "unusual"%string
        else inr "normal"%string) = (inr st : sql_error + string) ->
  (st = "outlier"%string <-> when (sql_gt (sql_abs q) (Some 2)) = true)
  /\ (st = "unusual"%string
      <-> when (sql_gt (sql_abs q) (Some 1)) = true
          /\ when (sql_le (sql_abs q) (Some 2)) = true).
Proof.
  assert (W : forall b : bool, when (Some b) = b) by (intros []; reflexivity).
  destruct q as [v|]; unfold sql_abs, sql_gt, sql_le, option_map.
  - rewrite !W. set (a := abs v).
    destruct (2 <? a) eqn:G2.
    + intros H; inversion H; subst. split; split; try discriminate; auto.
      intros [_ L]. destruct (ltb_true_not_nan _ _ G2) as [N2 Na].
      rewrite (ltb_negb_leb _ _ N2 Na), L in G2. discriminate.
    + destruct (1 <? a) eqn:G1; intros H; inversion H; subst.
      * destruct (ltb_true_not_nan _ _ G1) as [_ Na].
        rewrite (ltb_negb_leb 2 a eq_refl Na) in G2.
        split; split; try discriminate; auto.
        intros _. split; [reflexivity|]. now destruct (a <=? 2).
      * split; split; try discriminate. intros [C _]. discriminate.
  - simpl. intros H; inversion H; subst.
    split; split; try discriminate. intros [C _]. discriminate.
Qed.

Lemma ZSCORE_STATUS_of_positive r s st :
  rolling_stats.ROLLING_STDDEV_24H r = Some s -> (0 <? s) = true ->
  ZSCORE_STATUS_of r = inr st ->
  forall q,
    q = option_map (fun m => (rolling_stats.DEVIATION_FROM_PEG r - m) / s)
                   (rolling_stats.ROLLING_MEAN_24H r) ->
    (st = "outlier"%string <-> when (sql_gt (sql_abs q) (Some 2)) = true)
    /\ (st = "unusual"%string
        <-> when (sql_gt (sql_abs q) (Some 1)) = true
            /\ when (sql_le (sql_abs q) (Some 2)) = true).
Proof.
  intros E P. unfold ZSCORE_STATUS_of, deviation_over, NULLIF. rewrite E.
  rewrite (ltb_true_eqb_false _ _ P).
  rewrite sql_div_nonzero by (apply ltb_true_eqb_false, P).
  intros H q ->. apply status_arms.
  destruct (rolling_stats.ROLLING_MEAN_24H r); exact H.
Qed.

Lemma zscore_select_guarded r z :
  zscore_select r = inr z -> guarded_status z.
Proof.
  intros H.
  destruct (zscore_select_inr _ _ H) as (_ & _ & Hd & Hm & Hs & Hz & Hst).
  split.
  - unfold stddev_zero_or_null. rewrite Hs. intros U.
    rewrite (ZSCORE_of_unguarded r U) in Hz.
    rewrite (ZSCORE_STATUS_of_unguarded r U) in Hst.
    inversion Hz. inversion Hst. auto.
  - intros [s [Es P]]. rewrite Hs in Es.
    rewrite (ZSCORE_of_positive r s Es P) in Hz. inversion Hz as [Hz'].
    unfold abs_zscore_gt, abs_zscore_le. rewrite <- Hz'.
    exact (ZSCORE_STATUS_of_positive r s _ Es P Hst _ eq_refl).
Qed.

End ZscoreFacts.

(** C10: the statement that builds [stablecoin_peg_zscore] never divides
    by zero, whatever the table holds; in every row it builds, a rolling
    standard deviation that is NULL or 0 gives ZSCORE 0 and status
    'normal', and a positive one gives status 'outlier' exactly when
    [|ZSCORE| > 2] and 'unusual' exactly when [1 < |ZSCORE| <= 2]. *)
Theorem zscore_division_guarded
    (AVG STDDEV : list float -> option float)
    (t : list Sql.CHAINLINK_PRICES.row) :
  exists rows,
    Sql.zscore_query AVG STDDEV t = inr rows
    /\ forall z, In z rows -> Props.guarded_status z.
Proof.
  destruct (zscore_query_total AVG STDDEV t) as [rows E].
  exists rows. split; [exact E|]. intros z Hz.
  unfold Sql.zscore_query in E.
  destruct (Sql.select_all _ _) as [e|rows'] eqn:S; [discriminate|].
  inversion E; subst. apply in_order_by in Hz.
  destruct (select_all_inr _ _ _ S z Hz) as [r [_ Hr]].
  exact (zscore_select_guarded r z Hr).
Qed.

Section RollingWindow.
Import Sql Props.
#[local] Open Scope float_scope.
Variables AVG STDDEV : list float -> option float.

(** The frame the engine builds (partition, order, range) holds the rows
    of the fixed window, each as often as the view has it. *)
Lemma window_frame_perm r peg_data z :
  stablecoin_peg_zscore.TOKEN z = stablecoin_peg_health.TOKEN r ->
  stablecoin_peg_zscore.TIMESTAMP z = stablecoin_peg_health.TIMESTAMP r ->
  Permutation (window_frame r peg_data)
              (filter (in_window_24h z) peg_data).
Proof.
  intros Ht Hs.
  unfold window_frame, range_between_preceding_and_current_row,
    order_by_TIMESTAMP, partition_by_TOKEN.
  etransitivity; [apply Permutation_filter, order_by_perm|].
  rewrite filter_filter.
  erewrite filter_ext; [reflexivity|].
  intros a. unfold in_window_24h. rewrite Ht, Hs.
  now rewrite andb_assoc.
Qed.

Lemma current_row_in_frame r peg_data :
  In r peg_data -> In r (window_frame r peg_data).
Proof.
  intros H.
  unfold window_frame, range_between_preceding_and_current_row,
    order_by_TIMESTAMP, partition_by_TOKEN.
  apply filter_In. split.
  - apply in_order_by, filter_In. split; [exact H|apply String.eqb_refl].
  - apply andb_true_iff. split; apply Z.leb_le; lia.
Qed.

Lemma zscore_select_rolling t r z :
  In r (stablecoin_peg_health.query t) ->
  zscore_select
    (rolling_stats_select AVG STDDEV (stablecoin_peg_health.query t) r)
  = inr z ->
  rolling_over_24h_window AVG STDDEV t z.
Proof.
  intros Hr H.
  destruct (zscore_select_inr _ _ H) as (Hts & Htok & Hd & Hm & Hs & Hz & _).
  simpl in Hts, Htok, Hd, Hm, Hs.
  exists (window_frame r (stablecoin_peg_health.query t)).
  split; [apply window_frame_perm; assumption|].
  split; [rewrite Hd; apply in_map, current_row_in_frame, Hr|].
  split; [exact Hm|]. split; [exact Hs|].
  intros s Es P. rewrite Hs in Es.
  pose proof (ZSCORE_of_positive
                (rolling_stats_select AVG STDDEV
                   (stablecoin_peg_health.query t) r) s Es P) as F.
  simpl in F.
  rewrite F in Hz. inversion Hz as [Hz']. rewrite Hm, Hd. reflexivity.
Qed.

End RollingWindow.

(** C1: in every row of the table [stablecoin_peg_zscore],
    ROLLING_MEAN_24H and ROLLING_STDDEV_24H are the warehouse's mean and
    standard deviation of DEVIATION_FROM_PEG over exactly the rows of
    [stablecoin_peg_health] with the same TOKEN and a TIMESTAMP in
    [[TIMESTAMP - 86400, TIMESTAMP]], the row itself among them; and where
    ROLLING_STDDEV_24H > 0, ZSCORE is
    [(DEVIATION_FROM_PEG - ROLLING_MEAN_24H) / ROLLING_STDDEV_24H]. *)
Theorem zscore_rolling_24h_window
    (AVG STDDEV : list float -> option float)
    (t : list Sql.CHAINLINK_PRICES.row)
    (rows : list Sql.stablecoin_peg_zscore.row)
    (z : Sql.stablecoin_peg_zscore.row) :
  Sql.zscore_query AVG STDDEV t = inr rows ->
  In z rows ->
  Props.rolling_over_24h_window AVG STDDEV t z.
Proof.
  unfold Sql.zscore_query. intros E Hz.
  destruct (Sql.select_all _ _) as [e|rows'] eqn:S; [discriminate|].
  inversion E; subst. apply in_order_by in Hz.
  destruct (select_all_inr _ _ _ S z Hz) as [rs [Hrs Hsel]].
  apply in_map_iff in Hrs. destruct Hrs as [r [<- Hr]].
  exact (zscore_select_rolling AVG STDDEV t r z Hr Hsel).
Qed.

(* ================================================================= *)
(** * fetch_token_price *)

#[local] Arguments Py.float_of_int : simpl never.
#[local] Arguments Py.truediv_float_int : simpl never.

(** One step of a run: split on the answer of the next call. *)
Ltac run_step :=
  match goal with
  | |- context [match ?x with Py.Ok _ => _ | Py.Raise _ => _ end] =>
      destruct x eqn:?; simpl
  | |- context [if ?b then _ else _] => destruct b eqn:?; simpl
  end.

Ltac run_unfold :=
  unfold Run.try_except, Run.try_finally, Run.bind, Run.log, Run.emit,
    Run.call, Run.ask, Run.ret, Run.raise, Fetch.lift; simpl.

(** A price that passed the guard [price_float <= 0] is positive. *)
Lemma guarded_price_positive a n x p :
  Py.float_of_int a = Py.Ok x ->
  Py.truediv_float_int x n = Py.Ok p ->
  (p <=? 0)%float = false -> (0 <? p)%float = true.
Proof.
  intros Hx Hp G.
  destruct (float_of_int_finite _ _ Hx) as [Xn Xi].
  pose proof (truediv_float_int_not_nan _ _ _ Xn Xi Hp) as Pn.
  rewrite (ltb_negb_leb 0 p eq_refl Pn), G. reflexivity.
Qed.

(** C9, as far as it holds: [fetch_token_price] never raises; it returns
    [None] or a record with exactly the keys timestamp, token_symbol,
    price and deviation_from_peg, where [price > 0] and
    [deviation_from_peg] is the binary64 difference [price - 1.0]. *)
Theorem fetch_token_price_never_raises
    (w : Run.world) (w3 token_symbol feed_address : string) (st : Run.state) :
  exists st' r,
    Fetch.fetch_token_price w w3 token_symbol feed_address st
    = (st', Py.Ok r)
    /\ match r with
       | None => True
       | Some d => Props.price_record token_symbol d
       end.
Proof.
  unfold Fetch.fetch_token_price. run_unfold.
  repeat run_step;
    try (do 2 eexists; split; [reflexivity|exact I]).
  do 2 eexists. split; [reflexivity|].
  do 2 eexists. split; [reflexivity|].
  eapply guarded_price_positive; eassumption.
Qed.

Ltac run_done :=
  rewrite <- ?app_assoc; simpl; reflexivity.

Lemma fetch_token_price_run
    (w : Run.world) (w3 token_symbol feed_address : string) (st : Run.state) :
  exists ev r,
    Fetch.fetch_token_price w w3 token_symbol feed_address st
    = ({| Run.trace := Run.trace st ++ ev; Run.db := Run.db st |}, Py.Ok r)
    /\ Props.token_run token_symbol feed_address ev
    /\ match r with
       | None => True
       | Some d => Props.price_record token_symbol d
       end.
Proof.
  unfold Fetch.fetch_token_price. run_unfold.
  repeat run_step;
    (do 2 eexists; split; [run_done|]);
    (split;
     [ unfold Props.token_run; simpl;
       repeat split; try reflexivity; try lia;
       intros ? ?; simpl in *; tauto
     | ]);
    try exact I.
  do 2 eexists. split; [reflexivity|].
  eapply guarded_price_positive; eassumption.
Qed.

#[local] Arguments Fetch.fetch_token_price : simpl never.

Lemma flat_map_snoc {A B} (f : A -> list B) l x :
  flat_map f (l ++ [x]) = flat_map f l ++ f x.
Proof. rewrite flat_map_app. simpl. now rewrite app_nil_r. Qed.

Lemma forallb_snoc {A} (f : A -> bool) l x :
  forallb f (l ++ [x]) = forallb f l && f x.
Proof. rewrite forallb_app. simpl. now rewrite andb_true_r. Qed.

(** One turn of the loop for a token that has a feed. *)
Lemma fetch_loop_turn
    (w : Run.world) (w3 token_symbol feed_address : string)
    (rest : list string) (all_data : list Py.dict) (st : Run.state) :
  Fetch.feed_lookup Fetch.CHAINLINK_FEEDS token_symbol = Some feed_address ->
  exists ev r,
    Fetch.fetch_loop w w3 (token_symbol :: rest) all_data st
    = Fetch.fetch_loop w w3 rest (all_data ++ Props.option_list r)
        {| Run.trace := Run.trace st ++ ev; Run.db := Run.db st |}
    /\ Props.loop_turn token_symbol feed_address ev r
    /\ match r with
       | None => True
       | Some d => Props.price_record token_symbol d
       end.
Proof.
  intros F. cbn [Fetch.fetch_loop]. rewrite F.
  destruct (fetch_token_price_run w w3 token_symbol feed_address st)
    as (ev & r & E & (A & C & I & L & Fl & Ev) & P).
  unfold Run.bind at 1. unfold Run.try_except. unfold Run.bind at 1.
  rewrite E.
  destruct r as [d|]; run_unfold.
  - exists (ev ++ [Run.Log Run.INFO
                     "Successfully fetched {token_symbol} price data"
                     [Py.VStr token_symbol]]), (Some d).
    split; [now rewrite app_assoc|]. split; [|exact P].
    unfold Props.loop_turn, Props.fetch_attempts, Props.checksum_requests,
      Props.contract_reads, Props.checksum_answers, Props.failures in *.
    rewrite !flat_map_snoc, forallb_snoc, A, C, Fl, Ev. simpl.
    rewrite !app_nil_r. repeat split; auto.
  - exists (ev ++ [Run.Log Run.WARNING
                     "Failed to fetch price data for {token_symbol}"
                     [Py.VStr token_symbol]]), None.
    split; [now rewrite app_assoc, app_nil_r|]. split; [|exact P].
    unfold Props.loop_turn, Props.fetch_attempts, Props.checksum_requests,
      Props.contract_reads, Props.checksum_answers, Props.failures in *.
    rewrite !flat_map_snoc, forallb_snoc, A, C, Fl, Ev. simpl.
    rewrite !app_nil_r. repeat split; auto.
Qed.

(* ================================================================= *)
(** * get_web3_connection and fetch_all_chainlink_prices *)

(** The events of the connection are fetch events, read no contract, and
    the only exceptions that leave are ValueError and ConnectionError. *)
Lemma get_web3_connection_run (w : Run.world) (st : Run.state) :
  exists ev r,
    Fetch.get_web3_connection w st
    = ({| Run.trace := Run.trace st ++ ev; Run.db := Run.db st |}, r)
    /\ forallb Props.is_fetch_event ev = true
    /\ Props.fetch_attempts ev = []
    /\ Props.checksum_requests ev = []
    /\ Props.checksum_answers ev = []
    /\ Props.contract_reads ev = []
    /\ Props.failures ev = []
    /\ forall e, r = Py.Raise e ->
         Fetch.is_ValueError_or_ConnectionError e = true.
Proof.
  unfold Fetch.get_web3_connection. run_unfold.
  destruct (Run.streamlit_secret w (Run.trace st) "ALCHEMY_RPC_URL")
    as [[[|c s]|]|e0]; simpl;
    try destruct (Run.getenv w _ "ALCHEMY_RPC_URL") as [[|c' s']|]; simpl;
    repeat run_step;
    (do 2 eexists; split; [run_done|]);
    repeat split; try reflexivity;
    intros e' He'; inversion He'; reflexivity.
Qed.

Lemma fetch_loop_run (w : Run.world) (w3 : string) (st : Run.state) :
  exists ev1 ev2 r1 r2,
    Fetch.fetch_loop w w3 Fetch.TOKEN_SYMBOLS [] st
    = ({| Run.trace := Run.trace st ++ ev1 ++ ev2; Run.db := Run.db st |},
       Py.Ok (Props.option_list r1 ++ Props.option_list r2))
    /\ Props.loop_turn "USDC" "0x8fFfFfd4AfB6115b954Bd326cbe7B4BA576818f6"
         ev1 r1
    /\ Props.loop_turn "USDT" "0x3E7d1eAB13ad0104d2750B8863b489D65364e32D"
         ev2 r2
    /\ (forall d, r1 = Some d -> Props.price_record "USDC" d)
    /\ (forall d, r2 = Some d -> Props.price_record "USDT" d).
Proof.
  unfold Fetch.TOKEN_SYMBOLS.
  destruct (fetch_loop_turn w w3 "USDC" _ ["USDT"%string] [] st eq_refl)
    as (ev1 & r1 & E1 & T1 & P1).
  rewrite E1.
  destruct (fetch_loop_turn w w3 "USDT" _ [] ([] ++ Props.option_list r1)
              {| Run.trace := Run.trace st ++ ev1; Run.db := Run.db st |}
              eq_refl)
    as (ev2 & r2 & E2 & T2 & P2).
  rewrite E2. simpl.
  exists ev1, ev2, r1, r2. rewrite app_assoc.
  split; [reflexivity|]. split; [exact T1|]. split; [exact T2|]. split.
  - intros d ->. exact P1.
  - intros d ->. exact P2.
Qed.

Lemma fetch_all_result (records : list Py.dict) :
  records <> [] ->
  forall (st : Run.state),
    (let df := Py.DataFrame_of_records records in
     Run.bind
       (Fetch.lift (Py.getitem df ["timestamp"; "token_symbol"; "price";
                                   "deviation_from_peg"]%string))
       (fun df =>
          Run.bind (Fetch.lift (Py.sort_values df "token_symbol"))
            (fun df =>
               let df := Py.reset_index df in
               Run.bind
                 (Run.log Run.INFO
                    "Successfully fetched price data for {len(df)} token(s)"
                    [Py.VInt (Py.len df)])
                 (fun _ => Run.ret df)))) st
    = match Props.frame_of_records records with
      | Py.Raise e => (st, Py.Raise e)
      | Py.Ok df =>
          ({| Run.trace :=
                Run.trace st
                ++ [Run.Log Run.INFO
                      "Successfully fetched price data for {len(df)} token(s)"
                      [Py.VInt (Py.len df)]];
              Run.db := Run.db st |}, Py.Ok df)
      end.
Proof.
  intros _ st. unfold Props.frame_of_records. cbv zeta.
  destruct (Py.getitem _ _) as [df|e]; [|reflexivity].
  unfold Run.bind at 1. simpl.
  destruct (Py.sort_values df "token_symbol") as [df'|e]; reflexivity.
Qed.

#[local] Arguments Fetch.get_web3_connection : simpl never.
#[local] Arguments Fetch.fetch_loop : simpl never.
#[local] Arguments Props.frame_of_records : simpl never.

Ltac trace_facts :=
  unfold Props.fetch_attempts, Props.checksum_requests,
    Props.checksum_answers, Props.contract_reads, Props.failures in *;
  rewrite ?flat_map_app, ?forallb_app, ?length_app.

(** Every run of [fetch_all_chainlink_prices]: the events it adds are
    fetch events, the warehouse is left alone, and the run ends in one of
    the two ways of [fetch_outcome]. *)
Lemma fetch_all_run (w : Run.world) (st : Run.state) :
  exists ev res,
    Fetch.fetch_all_chainlink_prices w st
    = ({| Run.trace := Run.trace st ++ ev; Run.db := Run.db st |}, res)
    /\ forallb Props.is_fetch_event ev = true
    /\ Props.fetch_outcome w st ev res.
Proof.
  unfold Fetch.fetch_all_chainlink_prices.
  unfold Run.bind at 1. unfold Run.log at 1, Run.emit at 1.
  fold (Props.after_start st).
  destruct (get_web3_connection_run w (Props.after_start st))
    as (ev0 & r0 & E0 & F0 & A0 & C0 & N0 & R0 & W0 & X0).
  unfold Run.bind at 1, Run.try_except at 1. rewrite E0.
  destruct r0 as [w3|e].
  - set (st1 := {| Run.trace := Run.trace (Props.after_start st) ++ ev0;
                   Run.db := Run.db (Props.after_start st) |}).
    destruct (fetch_loop_run w w3 st1)
      as (ev1 & ev2 & r1 & r2 & EL & T1 & T2 & P1 & P2).
    unfold Run.bind at 1. rewrite EL.
    destruct T1 as (A1 & C1 & I1 & L1 & Fl1 & Ev1).
    destruct T2 as (A2 & C2 & I2 & L2 & Fl2 & Ev2).
    assert (I12 : incl (Props.contract_reads ev1 ++ Props.contract_reads ev2)
                       (Props.checksum_answers ev1
                        ++ Props.checksum_answers ev2))
      by (apply incl_app; [apply incl_appl|apply incl_appr]; assumption).
    destruct (Props.option_list r1 ++ Props.option_list r2) as [|d ds] eqn:Recs.
    + eexists. exists (Py.Raise Props.no_data). split.
      { run_unfold. subst st1. simpl. rewrite <- !app_assoc. reflexivity. }
      split.
      { simpl. rewrite !forallb_app, F0, Ev1, Ev2. reflexivity. }
      assert (O := Props.both_turns w st
                     ((Run.Log Run.INFO
                         "Starting Chainlink price fetch for all tokens..." []
                       :: ev0) ++ ev1 ++ ev2
                      ++ [Run.Log Run.ERROR
                            "Failed to fetch price data for any token" []])
                     w3 r1 r2).
      rewrite Recs in O. simpl. simpl in O. apply O; trace_facts; simpl;
        rewrite ?A0, ?C0, ?N0, ?R0, ?W0, ?A1, ?A2, ?C1, ?C2, ?Fl1, ?Fl2,
          ?app_nil_r; simpl; try reflexivity; try assumption;
        try (rewrite E0; reflexivity).
      * lia.
    + rewrite fetch_all_result by discriminate.
      destruct (Props.frame_of_records (d :: ds)) as [df|e] eqn:Fr.
      * eexists. exists (Py.Ok df). split.
        { subst st1. simpl. rewrite <- !app_assoc. reflexivity. }
        split.
        { simpl. rewrite !forallb_app, F0, Ev1, Ev2. reflexivity. }
        assert (O := Props.both_turns w st
                       ((Run.Log Run.INFO
                           "Starting Chainlink price fetch for all tokens..."
                           [] :: ev0) ++ ev1 ++ ev2
                        ++ [Run.Log Run.INFO
                              "Successfully fetched price data for {len(df)} token(s)"
                              [Py.VInt (Py.len df)]])
                       w3 r1 r2).
        rewrite Recs, Fr in O. simpl. simpl in O. apply O; trace_facts; simpl;
          rewrite ?A0, ?C0, ?N0, ?R0, ?W0, ?A1, ?A2, ?C1, ?C2, ?Fl1, ?Fl2,
            ?app_nil_r; simpl; try reflexivity; try assumption;
          try (rewrite E0; reflexivity).
        lia.
      * eexists. exists (Py.Raise e). split.
        { subst st1. simpl. rewrite <- !app_assoc. reflexivity. }
        split.
        { simpl. rewrite !forallb_app, F0, Ev1, Ev2. reflexivity. }
        assert (O := Props.both_turns w st
                       ((Run.Log Run.INFO
                           "Starting Chainlink price fetch for all tokens..."
                           [] :: ev0) ++ ev1 ++ ev2)
                       w3 r1 r2).
        rewrite Recs, Fr in O. simpl. simpl in O. apply O; trace_facts; simpl;
          rewrite ?A0, ?C0, ?N0, ?R0, ?W0, ?A1, ?A2, ?C1, ?C2, ?Fl1, ?Fl2,
            ?app_nil_r; simpl; try reflexivity; try assumption;
          try (rewrite E0; reflexivity).
        lia.
  - rewrite (X0 e eq_refl). run_unfold.
    eexists. exists (Py.Raise e). split.
    { rewrite <- !app_assoc. reflexivity. }
    split.
    { simpl. rewrite forallb_app, F0. reflexivity. }
    apply Props.no_connection.
    + rewrite E0. reflexivity.
    + trace_facts. simpl. rewrite A0. reflexivity.
    + trace_facts. simpl. rewrite C0. reflexivity.
    + trace_facts. simpl. rewrite R0. reflexivity.
Qed.

(** The frame built from the records of the two turns. *)
Lemma frame_of_records_fetched (r1 r2 : option Py.dict) :
  (forall d, r1 = Some d -> Props.price_record "USDC" d) ->
  (forall d, r2 = Some d -> Props.price_record "USDT" d) ->
  Props.option_list r1 ++ Props.option_list r2 <> [] ->
  exists df,
    Props.frame_of_records (Props.option_list r1 ++ Props.option_list r2)
    = Py.Ok df
    /\ Props.fetched_frame df
    /\ List.length (Py.rows df)
       = (2 - List.length (Props.failed "USDC" r1 ++ Props.failed "USDT" r2))%nat.
Proof.
  intros P1 P2 NE.
  assert (S1 : forall a b : string, StronglySorted
             (fun a b => (a <=? b)%string = true) [a]).
  { intros. repeat constructor. }
  destruct r1 as [d1|], r2 as [d2|]; simpl in *;
    try (destruct (P1 d1 eq_refl) as (ts1 & p1 & -> & G1));
    try (destruct (P2 d2 eq_refl) as (ts2 & p2 & -> & G2));
    try (now elim NE);
    eexists; (split; [vm_compute; reflexivity|]); (split; [|reflexivity]);
    unfold Props.fetched_frame; simpl;
    (split; [reflexivity|]); (split; [discriminate|]);
    (split; [reflexivity|]); (split; [reflexivity|]).
  - split; [|split; [|lia]].
    + exists ["USDC"; "USDT"]%string. split; [reflexivity|].
      split; [repeat constructor|].
      split; [repeat constructor; simpl; intuition discriminate|].
      apply incl_refl.
    + repeat constructor; do 3 eexists;
        (split; [reflexivity|]); simpl; auto.
  - split; [|split; [|lia]].
    + exists ["USDC"]%string. split; [reflexivity|].
      split; [repeat constructor|].
      split; [repeat constructor; simpl; intuition|].
      intros x [<-|[]]; simpl; auto.
    + repeat constructor; do 3 eexists;
        (split; [reflexivity|]); simpl; auto.
  - split; [|split; [|lia]].
    + exists ["USDT"]%string. split; [reflexivity|].
      split; [repeat constructor|].
      split; [repeat constructor; simpl; intuition|].
      intros x [<-|[]]; simpl; auto.
    + repeat constructor; do 3 eexists;
        (split; [reflexivity|]); simpl; auto.
Qed.

Lemma fetch_events_no_sleep ev :
  forallb Props.is_fetch_event ev = true -> existsb Props.is_sleep ev = false.
Proof.
  induction ev as [|e ev IH]; simpl; [reflexivity|].
  intros H. apply andb_true_iff in H. destruct H as [He Hev].
  rewrite (IH Hev). destruct e; try reflexivity. discriminate.
Qed.

(** C5: a run of [fetch_all_chainlink_prices] that got its connection
    calls [fetch_token_price] for USDC and for USDT, in that order and
    for no other token, each with its hardcoded feed address; it asks
    for the checksum of exactly these two addresses and reads contracts
    only at the addresses so obtained; a frame it returns has one or two
    rows, no token twice.  Without a connection it raises and touches no
    feed. *)
Theorem fetch_all_two_fixed_feeds (w : Run.world) (st : Run.state) :
  exists ev res,
    Fetch.fetch_all_chainlink_prices w st
    = ({| Run.trace := Run.trace st ++ ev; Run.db := Run.db st |}, res)
    /\ Props.reads_two_fixed_feeds w st ev res.
Proof.
  destruct (fetch_all_run w st) as (ev & res & E & F & O).
  exists ev, res. split; [exact E|].
  split; [reflexivity|].
  destruct O as [e Hc A C R|w3 r1 r2 Hc A C I L Fl P1 P2]; rewrite Hc.
  - split; [auto|]. intros df H. discriminate.
  - split; [auto|].
    intros df H.
    destruct (Props.option_list r1 ++ Props.option_list r2) eqn:Recs;
      [discriminate|].
    destruct (frame_of_records_fetched r1 r2 P1 P2) as (df' & Fr & G & _);
      [rewrite Recs; discriminate|].
    rewrite Recs, H in Fr. inversion Fr; subst df'.
    destruct G as (_ & NN & _ & _ & (tokens & Ct & _ & Nd & Inc) & _ & Le).
    split.
    + destruct (Py.rows df); [now elim NN|simpl in *; lia].
    + exists tokens. auto.
Qed.

(** C6: once the connection is there, a run of
    [fetch_all_chainlink_prices] calls [fetch_token_price] once for USDC
    and once for USDT, whatever failed; it never waits; a token that gave
    nothing is written down as failed and left out, and the other token
    still has its turn.  There is no second attempt. *)
Theorem fetch_all_one_attempt_no_retry (w : Run.world) (st : Run.state) :
  exists ev res,
    Fetch.fetch_all_chainlink_prices w st
    = ({| Run.trace := Run.trace st ++ ev; Run.db := Run.db st |}, res)
    /\ match snd (Fetch.get_web3_connection w (Props.after_start st)) with
       | Py.Raise e => res = Py.Raise e /\ Props.fetch_attempts ev = []
       | Py.Ok _ => Props.one_attempt_per_token ev res
       end.
Proof.
  destruct (fetch_all_run w st) as (ev & res & E & F & O).
  exists ev, res. split; [exact E|].
  destruct O as [e Hc A C R|w3 r1 r2 Hc A C I L Fl P1 P2]; rewrite Hc.
  - auto.
  - split; [exact A|]. split; [exact L|].
    split; [apply fetch_events_no_sleep, F|].
    split.
    { rewrite Fl. destruct r1, r2; simpl; intros x Hx; simpl in *; tauto. }
    destruct (Props.option_list r1 ++ Props.option_list r2) eqn:Recs.
    + destruct r1, r2; try discriminate. split; [reflexivity|exact Fl].
    + destruct (frame_of_records_fetched r1 r2 P1 P2) as (df & Fr & _ & Len);
        [rewrite Recs; discriminate|].
      rewrite Recs in Fr. rewrite Fr, Fl, Len.
      destruct r1, r2; try discriminate; reflexivity.
Qed.

(** C8: [fetch_all_chainlink_prices] raises what [get_web3_connection]
    raised, or RuntimeError when both fetches failed, or returns a frame
    that is not empty, has the columns timestamp, token_symbol, price,
    deviation_from_peg in that order, ascends in token_symbol and is
    labelled from 0. *)
Lemma fetch_all_raises_or_fetched (w : Run.world) (st : Run.state) :
  exists ev res,
    Fetch.fetch_all_chainlink_prices w st
    = ({| Run.trace := Run.trace st ++ ev; Run.db := Run.db st |}, res)
    /\ forallb Props.is_fetch_event ev = true
    /\ Props.raises_or_fetched w st ev res.
Proof.
  destruct (fetch_all_run w st) as (ev & res & E & F & O).
  exists ev, res. split; [exact E|]. split; [exact F|].
  destruct O as [e Hc A C R|w3 r1 r2 Hc A C I L Fl P1 P2]; simpl.
  - left. exact Hc.
  - destruct (Props.option_list r1 ++ Props.option_list r2) eqn:Recs.
    + right. destruct r1, r2; try discriminate. split; [reflexivity|exact Fl].
    + destruct (frame_of_records_fetched r1 r2 P1 P2) as (df & Fr & G & _);
        [rewrite Recs; discriminate|].
      rewrite Recs in Fr. rewrite Fr. exact G.
Qed.

#[local] Arguments Fetch.fetch_all_chainlink_prices : simpl never.
#[local] Arguments Load.log_rows : simpl never.
#[local] Arguments Py.getitem : simpl never.
#[local] Arguments Warehouse.execute : simpl never.
#[local] Arguments Warehouse.append_frame : simpl never.

(** Symbolic execution of a run: [scrutinee t] is the call on whose
    answer the term [t] waits; [exec_step] splits on it. *)
Ltac scrutinee t :=
  lazymatch t with
  | match ?x with Py.Ok _ => _ | Py.Raise _ => _ end => scrutinee x
  | match ?x with Some _ => _ | None => _ end => scrutinee x
  | match ?x with inl _ => _ | inr _ => _ end => scrutinee x
  | if ?x then _ else _ => scrutinee x
  | let (_, _) := ?x in _ => scrutinee x
  | fst ?x => scrutinee x
  | snd ?x => scrutinee x
  | _ => t
  end.

Ltac exec_step :=
  lazymatch goal with
  | |- ?m = _ -> _ =>
      let x := scrutinee m in
      tryif constr_eq x m then fail else (destruct x eqn:?; simpl)
  end.

(** The op never takes its [df.empty] branch: a value it returns has
    status 'success'. *)
Lemma op_status_success (w : Run.world) (st : Run.state) (out : Py.dict) :
  snd (Load.fetch_chainlink_price_op w st) = Py.Ok out ->
  Py.get out "status" = Some (Py.VStr "success").
Proof.
  unfold Load.fetch_chainlink_price_op.
  unfold Run.bind at 1, Run.log at 1, Run.emit at 1.
  set (st1 := {| Run.trace := _; Run.db := Run.db st |}).
  unfold Run.try_except at 1. unfold Run.bind at 1.
  destruct (fetch_all_raises_or_fetched w st1) as (ev & res & E & _ & R).
  rewrite E. destruct res as [df|e]; [|run_unfold; discriminate].
  destruct R as (C & _ & NE & _). rewrite NE.
  destruct df as [cols idx rws]. simpl in C. subst cols.
  unfold Load.connect, Load.execute, Load.write_pandas. run_unfold.
  repeat exec_step;
    intros H; first [discriminate H | inversion H; reflexivity].
Qed.

(* ================================================================= *)
(** * The loaders *)

Lemma frame_rows_four_cells (rws : list (list Py.value)) :
  Forall Props.frame_row rws ->
  map (fun r => map (fun i => nth i r (Py.VFloat nan)) [0; 1; 2; 3]%nat) rws
  = rws.
Proof.
  induction 1 as [|r rws (ts & tok & p & -> & _) _ IH]; simpl;
    [reflexivity|]. f_equal. exact IH.
Qed.

(** The reshaping goes through on a fetched frame, and only the names of
    the columns change. *)
Lemma normalize_fetched (df : Py.DataFrame) :
  Props.fetched_frame df ->
  exists df',
    Load.normalize df = Py.Ok df'
    /\ Py.columns df' = ["TIMESTAMP"; "TOKEN"; "PRICE"; "DEVIATION_FROM_1"]%string
    /\ Py.rows df' = Py.rows df.
Proof.
  intros (C & _ & _ & _ & _ & R & _).
  destruct df as [cols idx rws]. simpl in *. subst cols.
  eexists. split; [|split].
  - unfold Load.normalize, Py.rename, Py.getitem. simpl. reflexivity.
  - reflexivity.
  - simpl. apply frame_rows_four_cells, R.
Qed.

Lemma execute_keeps_prices AVG STDDEV d s d' c :
  Warehouse.execute AVG STDDEV d s = Py.Ok (d', c) ->
  s <> Warehouse.CREATE_TABLE_IF_NOT_EXISTS_CHAINLINK_PRICES ->
  Warehouse.CHAINLINK_PRICES d' = Warehouse.CHAINLINK_PRICES d.
Proof.
  unfold Warehouse.execute. intros H N.
  destruct s; try (now elim N);
    destruct (Warehouse.CHAINLINK_PRICES d) eqn:E;
    try destruct (Warehouse.stablecoin_peg_health d);
    try destruct (Sql.zscore_query _ _ _) as [[]|];
    inversion H; subst; simpl; congruence.
Qed.

Lemma append_frame_appends d df t d' :
  Warehouse.append_frame d df t = Py.Ok d' ->
  exists old new,
    Warehouse.CHAINLINK_PRICES d = Some old
    /\ Warehouse.to_rows (Py.columns df) t (Py.rows df) = Some new
    /\ Warehouse.CHAINLINK_PRICES d' = Some (old ++ new).
Proof.
  unfold Warehouse.append_frame.
  destruct (Warehouse.CHAINLINK_PRICES d) as [old|]; [|discriminate].
  destruct (forallb _ _); [|discriminate].
  destruct (Warehouse.to_rows _ _ _) as [new|]; [|discriminate].
  intros H. inversion H; subst. simpl. eauto.
Qed.

(** A frame that was added has no column the table does not have. *)
Lemma append_frame_known d df t d' :
  Warehouse.append_frame d df t = Py.Ok d' ->
  forallb Warehouse.known_column (Py.columns df) = true.
Proof.
  unfold Warehouse.append_frame.
  destruct (Warehouse.CHAINLINK_PRICES d) as [old|]; [|discriminate].
  destruct (forallb _ _); [reflexivity|discriminate].
Qed.

#[local] Arguments Load.normalize : simpl never.
#[local] Arguments Warehouse.to_rows : simpl never.

Ltac keep_prices :=
  repeat match goal with
         | H : Warehouse.execute _ _ _ _ = Py.Ok _ |- _ =>
             apply execute_keeps_prices in H; [|discriminate]; simpl in H
         end.

(** Every run of [load_real_chainlink_data]. *)
Lemma load_real_chainlink_data_run (w : Run.world) (st : Run.state) :
  exists ev d' r,
    Load.load_real_chainlink_data w st
    = ({| Run.trace := Run.trace st ++ ev; Run.db := d' |}, r)
    /\ Props.load_run w st ev d'.
Proof.
  destruct (fetch_all_raises_or_fetched w st) as (ev_f & res & E & F & R).
  destruct (Load.load_real_chainlink_data w st) as [st' r] eqn:L.
  revert L. unfold Load.load_real_chainlink_data.
  unfold Run.bind at 1. rewrite E.
  destruct res as [fetched|e].
  - destruct (normalize_fetched fetched R) as (df & N & C & Rw).
    destruct R as (_ & _ & NE & _). rewrite NE, N.
    unfold Load.connect, Load.execute, Load.write_pandas. run_unfold.
    repeat exec_step; intros L; inversion L; subst; clear L;
      repeat match goal with u : unit |- _ => destruct u end;
      (do 3 eexists; split; [rewrite <- ?app_assoc; simpl; reflexivity|]);
      exists ev_f, (Py.Ok fetched); (split; [exact E|]); (split; [exact F|]);
      exists df; eexists; (split; [exact N|]); (split; [exact C|]);
      (split; [exact Rw|]); (split; [reflexivity|]);
      first
        [ apply Props.not_connected
        | apply Props.not_written; discriminate
        | match goal with
          | H : Warehouse.append_frame _ _ _ = Py.Ok _ |- _ =>
              apply append_frame_appends in H;
              destruct H as (old & new & Ho & Hn & Ha)
          end;
          keep_prices;
          eapply Props.written_then;
          [ exact Ho | exact Hn | simpl; congruence
          | unfold Props.steps_in_order; simpl;
            repeat constructor; simpl; lia
          | reflexivity ] ].
  - intros L. inversion L; subst.
    do 3 eexists. split; [reflexivity|].
    exists ev_f, (Py.Raise e). auto.
Qed.

Lemma in_fetch_events ev e :
  forallb Props.is_fetch_event ev = true -> In e ev ->
  Props.step_of e = Props.fetch_step.
Proof.
  intros F I. rewrite forallb_forall in F. specialize (F e I).
  unfold Props.is_fetch_event in F.
  destruct (Props.step_of e); try discriminate; reflexivity.
Qed.

Lemma in_after_store ev e :
  forallb Props.after_store ev = true -> In e ev ->
  (2 <= Props.step_rank (Props.step_of e))%nat.
Proof.
  intros F I. rewrite forallb_forall in F. specialize (F e I).
  unfold Props.after_store in F.
  destruct (Props.step_of e); try discriminate; simpl; lia.
Qed.

Lemma steps_in_order_app ev tail :
  forallb Props.is_fetch_event ev = true ->
  Props.steps_in_order tail -> Props.steps_in_order (ev ++ tail).
Proof.
  unfold Props.steps_in_order.
  induction ev as [|e ev IH]; simpl; intros F T; [exact T|].
  apply andb_true_iff in F. destruct F as [Fe Fev].
  constructor; [auto|].
  apply Forall_forall. intros s _.
  unfold Props.is_fetch_event in Fe.
  destruct (Props.step_of e); try discriminate. simpl. lia.
Qed.

Lemma load_tail_in_order df d tail d' :
  Props.load_tail df d tail d' -> Props.steps_in_order tail.
Proof.
  unfold Props.steps_in_order.
  destruct 1 as [e|r _|rest d' t old new _ _ _ S A]; simpl.
  - repeat constructor.
  - repeat constructor; simpl; lia.
  - assert (G : Forall (fun s => (1 <= Props.step_rank s)%nat)
                       (map Props.step_of rest)).
    { apply Forall_forall. intros s Hs. apply in_map_iff in Hs.
      destruct Hs as [e [<- He]].
      pose proof (in_after_store _ _ A He). lia. }
    repeat constructor; assumption.
Qed.

(** The only write of a tail is the one of its frame. *)
Lemma load_tail_writes df d tail d' df' tn ac ow r :
  Props.load_tail df d tail d' ->
  In (Run.WritePandas df' tn ac ow r) tail ->
  df' = df /\ tn = "CHAINLINK_PRICES"%string /\ ac = false /\ ow = false
  /\ (r = Py.Ok true ->
      exists rest, tail = Run.SnowflakeConnect (Py.Ok tt)
                          :: Props.written df (Py.Ok true) :: rest).
Proof.
  destruct 1 as [e|r0 N|rest d' t old new _ _ _ S A]; simpl.
  - intros [H|[]]. discriminate.
  - unfold Props.written. intros [H|[H|[H|[]]]]; try discriminate.
    inversion H; subst. repeat split; try reflexivity.
    intros ->. now elim N.
  - unfold Props.written. intros [H|[H|H]]; try discriminate.
    + inversion H; subst. repeat split; try reflexivity. eauto.
    + pose proof (in_after_store _ _ A H) as G. simpl in G. lia.
Qed.

(** A derivation in a tail comes after a write that succeeded. *)
Lemma load_tail_derives df d tail d' e :
  Props.load_tail df d tail d' ->
  In e tail -> Props.step_of e = Props.derive_step ->
  In (Props.written df (Py.Ok true)) tail.
Proof.
  destruct 1 as [e0|r0 N|rest d' t old new _ _ _ S A]; simpl.
  - intros [<-|[]]. discriminate.
  - intros [<-|[<-|[<-|[]]]]; discriminate.
  - auto.
Qed.

(** Every run of [load_real_chainlink_data] performs the fetch and, on a
    frame, the connection, the write and the derivation, as far as no
    step raises. *)
Lemma load_real_steps_performed (w : Run.world) (st : Run.state) :
  exists ev d' r,
    Load.load_real_chainlink_data w st
    = ({| Run.trace := Run.trace st ++ ev; Run.db := d' |}, r)
    /\ Props.steps_performed w st ev r.
Proof.
  destruct (fetch_all_raises_or_fetched w st) as (ev_f & res & E & F & R).
  destruct (Load.load_real_chainlink_data w st) as [st' r] eqn:L.
  revert L. unfold Load.load_real_chainlink_data.
  unfold Run.bind at 1. rewrite E.
  destruct res as [fetched|e].
  - destruct (normalize_fetched fetched R) as (df & N & C & Rw).
    destruct R as (_ & _ & NE & _). rewrite NE, N.
    unfold Load.connect, Load.execute, Load.write_pandas. run_unfold.
    repeat exec_step; intros L; inversion L; subst; clear L;
      repeat match goal with u : unit |- _ => destruct u end;
      (do 3 eexists; split; [rewrite <- ?app_assoc; simpl; reflexivity|]);
      exists ev_f, (Py.Ok fetched); (split; [exact E|]); (split; [exact F|]);
      exists df; eexists; (split; [exact N|]); (split; [exact C|]);
      (split; [exact Rw|]); (split; [reflexivity|]);
      first [ now constructor
            | apply Props.derived; repeat constructor ].
  - intros L. inversion L; subst.
    do 3 eexists. split; [reflexivity|].
    exists ev_f, (Py.Raise e). auto.
Qed.

(** C7: every run of [load_real_chainlink_data] performs its steps in the
    order fetch, normalize, store, derive.  It runs the fetch first; on
    a frame it renames the columns to TIMESTAMP, TOKEN, PRICE,
    DEVIATION_FROM_1, connects and writes that frame to CHAINLINK_PRICES;
    after a write that reported success it recreates the view and then
    the z-score table, each unless the step before raised; and it
    recreates neither when the write did not report success. *)
Theorem load_fetch_normalize_store_derive (w : Run.world) (st : Run.state) :
  exists ev d' r,
    Load.load_real_chainlink_data w st
    = ({| Run.trace := Run.trace st ++ ev; Run.db := d' |}, r)
    /\ Props.fetch_normalize_store_derive w st ev r.
Proof.
  destruct (load_real_chainlink_data_run w st)
    as (ev & d' & r & E & ev_f & res & Ef & F & H).
  exists ev, d', r. split; [exact E|].
  split.
  { destruct (load_real_steps_performed w st) as (ev2 & d2 & r2 & E2 & P).
    rewrite E in E2. inversion E2 as [[T D R]].
    apply app_inv_head in T. subst ev2. exact P. }
  destruct res as [fetched|e].
  - destruct H as (df & tail & N & C & Rw & -> & T).
    split; [apply steps_in_order_app; [exact F|]; eapply load_tail_in_order, T|].
    split; [|split].
    + intros df' tn ac ow r' I. apply in_app_or in I. destruct I as [I|I].
      { apply (in_fetch_events _ _ F) in I. discriminate. }
      destruct (load_tail_writes _ _ _ _ _ _ _ _ _ T I) as (-> & -> & -> & -> & _).
      repeat split. exists fetched. rewrite Ef. auto.
    + intros e I D. apply in_app_or in I. destruct I as [I|I].
      { apply (in_fetch_events _ _ F) in I. congruence. }
      exists df. apply in_or_app. right.
      exact (load_tail_derives _ _ _ _ _ T I D).
    + intros df' tn ac ow r' I NS e Ie D.
      apply in_app_or in I. destruct I as [I|I].
      { apply (in_fetch_events _ _ F) in I. discriminate. }
      apply in_app_or in Ie. destruct Ie as [Ie|Ie].
      { apply (in_fetch_events _ _ F) in Ie. congruence. }
      pose proof (load_tail_derives _ _ _ _ _ T Ie D) as W.
      destruct T as [e0|r0 N0|rest d'' t old new _ _ _ S A]; simpl in *.
      * destruct W as [W|[]]. discriminate.
      * destruct W as [W|[W|[W|[]]]]; try discriminate.
        inversion W. congruence.
      * destruct I as [I|[I|I]]; try discriminate.
        { inversion I. congruence. }
        pose proof (in_after_store _ _ A I) as G. simpl in G. lia.
  - destruct H as [-> ->].
    split; [rewrite <- (app_nil_r ev_f); apply steps_in_order_app;
            [exact F|constructor]|].
    split; [|split].
    + intros df' tn ac ow r' I.
      apply (in_fetch_events _ _ F) in I. discriminate.
    + intros e' I D. apply (in_fetch_events _ _ F) in I. congruence.
    + intros df' tn ac ow r' I.
      apply (in_fetch_events _ _ F) in I. discriminate.
Qed.

(** C3, as the code has it: [load_real_chainlink_data] only adds rows
    to CHAINLINK_PRICES.  The rows that were there stay, in place, and
    when the write succeeds every row of the written frame is added after
    them, whether or not its (TIMESTAMP, TOKEN) is there already. *)
Theorem load_appends_rows (w : Run.world) (st : Run.state) :
  exists ev d' r,
    Load.load_real_chainlink_data w st
    = ({| Run.trace := Run.trace st ++ ev; Run.db := d' |}, r)
    /\ Props.appends_only (Run.db st) ev d'.
Proof.
  destruct (load_real_chainlink_data_run w st)
    as (ev & d' & r & E & ev_f & res & Ef & F & H).
  exists ev, d', r. split; [exact E|].
  assert (NW : forall df, ~ In (Props.written df (Py.Ok true)) ev_f).
  { intros df I. apply (in_fetch_events _ _ F) in I. discriminate. }
  unfold Props.appends_only.
  destruct res as [fetched|e].
  - destruct H as (df & tail & N & C & Rw & -> & T).
    destruct T as [e0|r0 N0|rest d'' t old new Ho Hn Ha S A].
    + destruct (Warehouse.CHAINLINK_PRICES (Run.db st)) as [old|];
        [|reflexivity].
      exists []. rewrite app_nil_r. split; [reflexivity|].
      split; [reflexivity|].
      intros df' I. apply in_app_or in I. destruct I as [I|[I|[]]].
      * now elim (NW df').
      * discriminate.
    + destruct (Warehouse.CHAINLINK_PRICES (Run.db st)) as [old|];
        [|reflexivity].
      exists []. rewrite app_nil_r. split; [reflexivity|].
      split; [reflexivity|].
      intros df' I. apply in_app_or in I.
      destruct I as [I|[I|[I|[I|[]]]]]; try discriminate.
      * now elim (NW df').
      * inversion I; subst. now elim N0.
    + rewrite Ho. exists new. split; [exact Ha|]. split.
      * intros NI. elim (NI df). apply in_or_app. right. simpl. auto.
      * intros df' I. apply in_app_or in I. destruct I as [I|[I|[I|I]]].
        { now elim (NW df'). }
        { discriminate. }
        { inversion I; subst df'. split; [|eauto].
          clear - Hn. revert new Hn.
          unfold Warehouse.to_rows.
          induction (Py.rows df) as [|x xs IH]; simpl; intros new Hn.
          - inversion Hn. reflexivity.
          - destruct (Warehouse.to_row _ _ x); [|discriminate].
            fold (Warehouse.to_rows (Py.columns df) t xs) in *.
            destruct (Warehouse.to_rows (Py.columns df) t xs) as [ys|];
              [|discriminate].
            inversion Hn. simpl. f_equal. apply IH. reflexivity. }
        { pose proof (in_after_store _ _ A I) as G. simpl in G. lia. }
  - destruct H as [-> ->].
    destruct (Warehouse.CHAINLINK_PRICES (Run.db st)) as [old|];
      [|reflexivity].
    exists []. rewrite app_nil_r. split; [reflexivity|].
    split; [reflexivity|]. intros df I. now elim (NW df).
Qed.

(* ================================================================= *)
(** * The dashboard's loaders *)

#[local] Arguments Dashboard.add_datetime : simpl never.
#[local] Arguments Py.sort_values : simpl never.
#[local] Arguments Dashboard.peg_health_query : simpl never.
#[local] Arguments Dashboard.zscore_query : simpl never.

Lemma getenv_all_run (w : Run.world) names : forall st,
  exists ev vars,
    Dashboard.getenv_all w names st
    = ({| Run.trace := Run.trace st ++ ev; Run.db := Run.db st |}, Py.Ok vars)
    /\ existsb Props.is_ReadSql ev = false.
Proof.
  induction names as [|n names IH]; intros st; simpl.
  - exists [], []. run_unfold. rewrite app_nil_r. destruct st; auto.
  - unfold Run.bind at 1, Run.ask.
    set (st1 := {| Run.trace := _; Run.db := Run.db st |}).
    destruct (IH st1) as (ev & vars & E & N).
    unfold Run.bind at 1. rewrite E. run_unfold.
    eexists. eexists. split; [rewrite <- app_assoc; reflexivity|].
    simpl. exact N.
Qed.

#[local] Arguments Dashboard.getenv_all : simpl never.

(** Connecting issues no query. *)
Lemma get_snowflake_connection_run (w : Run.world)
    (cached : option (option unit)) (st : Run.state) :
  exists ev conn,
    Dashboard.get_snowflake_connection w cached st
    = ({| Run.trace := Run.trace st ++ ev; Run.db := Run.db st |}, Py.Ok conn)
    /\ existsb Props.is_ReadSql ev = false.
Proof.
  unfold Dashboard.get_snowflake_connection.
  destruct cached as [conn|].
  { exists [], conn. run_unfold. rewrite app_nil_r. destruct st; auto. }
  unfold Dashboard.get_snowflake_connection_uncached.
  destruct (getenv_all_run w Dashboard.required_vars st)
    as (ev & vars & E & N).
  unfold Run.bind at 1. rewrite E.
  destruct (map fst (filter _ vars)) as [|m ms]; run_unfold.
  - destruct (Run.snowflake_connect w _) as [[]|e]; simpl;
      (do 2 eexists; split; [rewrite <- ?app_assoc; simpl; reflexivity|]);
      rewrite existsb_app, N; reflexivity.
  - do 2 eexists. split; [rewrite <- ?app_assoc; simpl; reflexivity|].
    rewrite existsb_app, N. reflexivity.
Qed.

#[local] Arguments Dashboard.get_snowflake_connection : simpl never.

(** Every query a loader issues is the text built by its query function,
    with nothing bound. *)
Lemma loader_queries (w : Run.world) (cached : option (option unit))
    (st : Run.state) (query : string)
    (post : Py.DataFrame -> Run.M Py.DataFrame) (message : string) :
  (forall df st1, exists r, post df st1 = (st1, r)) ->
  exists ev df,
    Run.bind (Dashboard.get_snowflake_connection w cached)
      (fun conn =>
         match conn with
         | None => Run.ret Py.empty_frame
         | Some _ =>
             Run.try_except
               (Run.bind (Dashboard.read_sql w query) post)
               (fun e =>
                  Run.bind (Run.emit (Run.StError message [Run.str e]))
                           (fun _ => Run.ret Py.empty_frame))
         end) st
    = ({| Run.trace := Run.trace st ++ ev; Run.db := Run.db st |}, Py.Ok df)
    /\ forall q params r, In (Run.ReadSql q params r) ev ->
         q = query /\ params = [].
Proof.
  intros Post.
  destruct (get_snowflake_connection_run w cached st)
    as (ev & conn & E & N).
  assert (NR : forall q params r, ~ In (Run.ReadSql q params r) ev).
  { intros q params r I.
    assert (X : existsb Props.is_ReadSql ev = true)
      by (apply existsb_exists; eexists; split; [exact I|reflexivity]).
    congruence. }
  unfold Run.bind at 1. rewrite E.
  destruct conn as [[]|].
  - unfold Run.try_except, Run.bind at 1, Dashboard.read_sql, Run.call.
    simpl.
    destruct (Run.read_sql_answer w (Run.trace st ++ ev) query [])
      as [df|e] eqn:A.
    + destruct (Post df {| Run.trace := (Run.trace st ++ ev)
                             ++ [Run.ReadSql query [] (Py.Ok df)];
                           Run.db := Run.db st |}) as [r ->].
      destruct r as [df'|e]; run_unfold;
        (do 2 eexists; split; [rewrite <- ?app_assoc; simpl; reflexivity|]);
        intros q params r I; apply in_app_or in I;
        (destruct I as [I|I]; [now elim (NR q params r)|]);
        simpl in I;
        repeat (destruct I as [I|I];
                [try discriminate; inversion I; auto|]);
        destruct I.
    + run_unfold.
      do 2 eexists. split; [rewrite <- ?app_assoc; simpl; reflexivity|].
      intros q params r I; apply in_app_or in I.
      destruct I as [I|I]; [now elim (NR q params r)|].
      simpl in I.
      repeat (destruct I as [I|I];
              [try discriminate; inversion I; auto|]).
      destruct I.
  - run_unfold. exists ev, Py.empty_frame. split; [reflexivity|].
    intros q params r I. now elim (NR q params r).
Qed.

Lemma string_app_assoc (a b c : string) :
  ((a ++ b) ++ c)%string = (a ++ b ++ c)%string.
Proof. induction a as [|x a IH]; simpl; [reflexivity|now rewrite IH]. Qed.

Lemma where_token_embeds (token : option string) (select tail q : string) :
  q = (select ++ Dashboard.where_token token ++ tail)%string ->
  match token with
  | None | Some ""%string => q = (select ++ tail)%string
  | Some t =>
      q = (select ++ " WHERE TOKEN = '" ++ t ++ "'" ++ tail)%string
  end.
Proof.
  intros ->. destruct token as [[|c t]|]; try reflexivity.
  unfold Dashboard.where_token.
  now rewrite !string_app_assoc.
Qed.

(** C4, as the code has it: every statement the two loaders send has the
    token written into its text, between single quotes after
    [WHERE TOKEN =], and no parameter is bound; without a token there is
    no WHERE clause.  This holds whatever the cache of the connection
    holds. *)
Theorem dashboard_queries_embed_token
    (w : Run.world) (cached : option (option unit)) (st : Run.state)
    (token : option string) :
  (exists ev df,
     Dashboard.load_peg_health_data w cached token st
     = ({| Run.trace := Run.trace st ++ ev; Run.db := Run.db st |}, Py.Ok df)
     /\ Forall (Props.embedded_not_bound token Dashboard.peg_health_select
                  " ORDER BY TIMESTAMP DESC LIMIT 1000") ev)
  /\ (exists ev df,
        Dashboard.load_zscore_data w cached token st
        = ({| Run.trace := Run.trace st ++ ev; Run.db := Run.db st |},
           Py.Ok df)
        /\ Forall (Props.embedded_not_bound token Dashboard.zscore_select
                     " ORDER BY TIMESTAMP DESC LIMIT 5000") ev).
Proof.
  split.
  - set (post := fun df =>
                   if negb (Py.empty df)
                   then Run.bind (Fetch.lift (Dashboard.add_datetime df))
                          (fun df => Fetch.lift (Py.sort_values df "datetime"))
                   else Run.ret df).
    assert (P : forall df st1, exists r, post df st1 = (st1, r)).
    { intros df st1. subst post. simpl.
      destruct (negb (Py.empty df)); run_unfold; [|eauto].
      destruct (Dashboard.add_datetime df) as [df'|e]; run_unfold; [|eauto].
      destruct (Py.sort_values df' "datetime"); run_unfold; eauto. }
    destruct (loader_queries w cached st (Dashboard.peg_health_query token)
                post
                "Error loading peg health data: {str(e)}" P)
      as (ev & df & E & Q).
    exists ev, df. split; [exact E|].
    apply Forall_forall. intros e He.
    destruct e; unfold Props.embedded_not_bound; trivial.
    destruct (Q _ _ _ He) as [-> ->]. split; [reflexivity|].
    exact (where_token_embeds token Dashboard.peg_health_select
             " ORDER BY TIMESTAMP DESC LIMIT 1000" _ eq_refl).
  - set (post := fun df =>
                   if negb (Py.empty df)
                   then Fetch.lift (Dashboard.add_datetime df)
                   else Run.ret df).
    assert (P : forall df st1, exists r, post df st1 = (st1, r)).
    { intros df st1. subst post. simpl.
      destruct (negb (Py.empty df)); run_unfold; [|eauto].
      destruct (Dashboard.add_datetime df) as [df'|e]; run_unfold; eauto. }
    destruct (loader_queries w cached st (Dashboard.zscore_query token)
                post
                "Error loading z-score data: {str(e)}" P)
      as (ev & df & E & Q).
    exists ev, df. split; [exact E|].
    apply Forall_forall. intros e He.
    destruct e; unfold Props.embedded_not_bound; trivial.
    destruct (Q _ _ _ He) as [-> ->]. split; [reflexivity|].
    exact (where_token_embeds token Dashboard.zscore_select
             " ORDER BY TIMESTAMP DESC LIMIT 5000" _ eq_refl).
Qed.

(* ================================================================= *)
(** * Concrete runs *)

(** C1 at the sample table: the row of USDC at 1700090000 has two rows
    in its window, the one at 1700000000 being more than a day older. *)
Lemma zscore_rolling_24h_window_witness :
  Props.rolling_over_24h_window Sample.mean Sample.stddev Sample.prices
    (nth 0 Sample.zscores
       {| Sql.stablecoin_peg_zscore.TIMESTAMP := 0;
          Sql.stablecoin_peg_zscore.TOKEN := "";
          Sql.stablecoin_peg_zscore.PRICE := 0;
          Sql.stablecoin_peg_zscore.DEVIATION_FROM_PEG := 0;
          Sql.stablecoin_peg_zscore.ROLLING_MEAN_24H := None;
          Sql.stablecoin_peg_zscore.ROLLING_STDDEV_24H := None;
          Sql.stablecoin_peg_zscore.ZSCORE := None;
          Sql.stablecoin_peg_zscore.ZSCORE_STATUS := "" |}).
Proof.
  apply (zscore_rolling_24h_window Sample.mean Sample.stddev Sample.prices
           Sample.zscores).
  - vm_compute. reflexivity.
  - vm_compute. left. reflexivity.
Defined.

(** C2 at a price of 0.9999: the row is in the view. *)
Lemma peg_health_fixed_thresholds_witness :
  Props.classified_by_thresholds
    (Sql.stablecoin_peg_health.select
       (Sample.price 1700000000 "USDC" 0.9999)).
Proof.
  apply (peg_health_fixed_thresholds
           [Sample.price 1700000000 "USDC" 0.9999]).
  simpl. left. reflexivity.
Defined.

(** C9 fails as stated: a feed with 18 decimals that answers 1 gives the
    price 1e-18, which is positive, and [1e-18 - 1.0] is exactly -1.0 in
    binary64, so the deviation is not above -1. *)
Lemma fetch_token_price_deviation_minus_one :
  snd (Fetch.fetch_token_price Sample.tiny "rpc" "USDC" Sample.USDC_feed
         Sample.start)
  = Py.Ok (Some Sample.tiny_record)
  /\ ~ Props.deviation_above_minus_one Sample.tiny_record.
Proof.
  split; [vm_compute; reflexivity|].
  intros (dv & G & L). vm_compute in G. inversion G; subst dv.
  vm_compute in L. discriminate.
Qed.

(** C3 fails as stated: after one load the keys are distinct; after a
    second load of the same data every row is there twice. *)
Lemma load_twice_duplicates_rows :
  Props.no_duplicate_keys (Run.db Sample.loaded_once)
  /\ (exists rows,
        Warehouse.CHAINLINK_PRICES (Run.db Sample.loaded_once) = Some rows
        /\ Warehouse.CHAINLINK_PRICES (Run.db Sample.loaded_twice)
           = Some (rows ++ rows))
  /\ ~ Props.no_duplicate_keys (Run.db Sample.loaded_twice).
Proof.
  split; [|split].
  - vm_compute. repeat constructor; simpl; intuition discriminate.
  - eexists. split; vm_compute; reflexivity.
  - vm_compute. intros H. inversion H as [|x l N _]; subst.
    apply N. simpl. auto.
Qed.

(** C4 fails as stated: with the token USDC the loader sends a statement
    with USDC in its text and binds nothing. *)
Lemma dashboard_query_not_parameterized :
  ~ Forall (Props.bound_not_embedded "USDC")
      (Run.trace (fst (Dashboard.load_peg_health_data Sample.calm None
                         (Some "USDC"%string) Sample.start))).
Proof.
  intros F. rewrite Forall_forall in F.
  specialize (F (Run.ReadSql
                   (Dashboard.peg_health_query (Some "USDC"%string)) []
                   (Py.Ok Py.empty_frame))).
  simpl in F. destruct F as [[] _].
  vm_compute. do 8 right. left. reflexivity.
Qed.

(* ================================================================= *)
(** * Further behaviour: get_web3_connection *)

(** [x] is in the list, at a place found by comparing. *)
Ltac in_list := simpl; first [left; reflexivity | right; in_list].

(** X1: when [get_web3_connection] raises, the exception is the
    ValueError for a missing URL or a ConnectionError whose message is
    "Error connecting to RPC: " followed by the message of the failure,
    which was logged; when it returns, the node answered that it is
    connected and gave a block number. *)
Theorem get_web3_connection_outcome (w : Run.world) (st : Run.state) :
  exists ev r,
    Fetch.get_web3_connection w st
    = ({| Run.trace := Run.trace st ++ ev; Run.db := Run.db st |}, r)
    /\ Behaviour.connection_outcome ev r.
Proof.
  unfold Fetch.get_web3_connection. run_unfold.
  destruct (Run.streamlit_secret w (Run.trace st) "ALCHEMY_RPC_URL")
    as [[[|c s]|]|e0]; simpl;
    try destruct (Run.getenv w _ "ALCHEMY_RPC_URL") as [[|c' s']|]; simpl;
    repeat run_step;
    (do 2 eexists; split; [run_done|]);
    repeat match goal with
           | H : negb ?b = _ |- _ => destruct b; try discriminate H; clear H
           end;
    unfold Behaviour.connection_outcome, Behaviour.connection_failure;
    first
      [ left; reflexivity
      | right; eexists; split; [reflexivity|]; in_list
      | split; [discriminate|]; split; [|eexists]; in_list ].
Qed.

(** X2: with no URL in the Streamlit secrets and none in the environment
    (absent or empty), [get_web3_connection] raises the ValueError after
    asking exactly these two places: nothing is logged and the network is
    not touched. *)
Theorem get_web3_connection_without_url (w : Run.world) (st : Run.state) :
  (forall url, Run.streamlit_secret w (Run.trace st) "ALCHEMY_RPC_URL"
               = Py.Ok (Some url) -> url = ""%string) ->
  (forall h, Fetch.truthy (Run.getenv w h "ALCHEMY_RPC_URL") = false) ->
  Fetch.get_web3_connection w st
  = ({| Run.trace :=
          Run.trace st
          ++ [ Run.StreamlitSecret "ALCHEMY_RPC_URL"
                 (Run.streamlit_secret w (Run.trace st) "ALCHEMY_RPC_URL");
               Run.Getenv "ALCHEMY_RPC_URL"
                 (Run.getenv w
                    (Run.trace st
                     ++ [Run.StreamlitSecret "ALCHEMY_RPC_URL"
                           (Run.streamlit_secret w (Run.trace st)
                              "ALCHEMY_RPC_URL")])
                    "ALCHEMY_RPC_URL") ];
        Run.db := Run.db st |},
     Py.Raise Behaviour.rpc_url_not_set).
Proof.
  intros S G. unfold Fetch.get_web3_connection. run_unfold.
  destruct (Run.streamlit_secret w (Run.trace st) "ALCHEMY_RPC_URL")
    as [[[|c s]|]|e0] eqn:E; simpl;
    try (specialize (S _ eq_refl); discriminate);
    match goal with
    | |- context [Run.getenv w ?h "ALCHEMY_RPC_URL"] =>
        specialize (G h);
        destruct (Run.getenv w h "ALCHEMY_RPC_URL") as [[|c' s']|];
        try discriminate G
    end; simpl; rewrite <- ?app_assoc; reflexivity.
Qed.

Lemma get_web3_connection_without_url_witness :
  snd (Fetch.get_web3_connection Sample.no_url Sample.start)
  = Py.Raise Behaviour.rpc_url_not_set.
Proof.
  rewrite (get_web3_connection_without_url Sample.no_url Sample.start).
  - reflexivity.
  - intros url H. vm_compute in H. discriminate.
  - intros h. reflexivity.
Defined.

(** X3: a URL found in the Streamlit secrets is the one used: the
    environment is not asked, every call to the node goes to that URL,
    and it is the connection returned. *)
Theorem get_web3_connection_prefers_secret
    (w : Run.world) (st : Run.state) (url : string) :
  Run.streamlit_secret w (Run.trace st) "ALCHEMY_RPC_URL"
  = Py.Ok (Some url) ->
  url <> ""%string ->
  exists ev r,
    Fetch.get_web3_connection w st
    = ({| Run.trace := Run.trace st ++ ev; Run.db := Run.db st |}, r)
    /\ existsb Behaviour.is_Getenv ev = false
    /\ incl (flat_map Behaviour.connects_to ev) [url]
    /\ (forall u, r = Py.Ok u -> u = url).
Proof.
  intros S N. unfold Fetch.get_web3_connection. run_unfold. rewrite S.
  destruct url as [|c s]; [now elim N|]. simpl.
  repeat run_step;
    (do 2 eexists; split; [run_done|]);
    (split; [reflexivity|]);
    (split; [simpl; intros x Hx; simpl in *; tauto|]);
    intros u Hu; inversion Hu; reflexivity.
Qed.

Lemma get_web3_connection_prefers_secret_witness :
  exists ev r,
    Fetch.get_web3_connection Sample.secret_url_node_down Sample.start
    = ({| Run.trace := Run.trace Sample.start ++ ev;
          Run.db := Run.db Sample.start |}, r)
    /\ existsb Behaviour.is_Getenv ev = false
    /\ incl (flat_map Behaviour.connects_to ev) ["https://secret.example"%string]
    /\ (forall u, r = Py.Ok u -> u = "https://secret.example"%string).
Proof.
  apply (get_web3_connection_prefers_secret Sample.secret_url_node_down
           Sample.start "https://secret.example").
  - reflexivity.
  - discriminate.
Defined.

(** X4: when the node answers that it is not connected, the block number
    is not asked for, and the ConnectionError raised inside the [try] is
    caught by the [except] of the same function, logged as an error and
    raised again with the prefix added. *)
Theorem get_web3_connection_node_down
    (w : Run.world) (st : Run.state) (url : string) (ev : list Run.event)
    (r : Py.result string) :
  Fetch.get_web3_connection w st
  = ({| Run.trace := Run.trace st ++ ev; Run.db := Run.db st |}, r) ->
  In (Run.IsConnected url (Py.Ok false)) ev ->
  r = Py.Raise
        (Py.Exn Py.ConnectionError
           "Error connecting to RPC: Failed to connect to RPC endpoint")
  /\ In (Run.Log Run.ERROR "Error connecting to RPC: {str(e)}"
           [Py.VStr "Failed to connect to RPC endpoint"]) ev
  /\ flat_map Behaviour.connects_to ev = [url].
Proof.
  unfold Fetch.get_web3_connection. run_unfold.
  destruct (Run.streamlit_secret w (Run.trace st) "ALCHEMY_RPC_URL")
    as [[[|c s]|]|e0]; simpl;
    try destruct (Run.getenv w _ "ALCHEMY_RPC_URL") as [[|c' s']|]; simpl;
    repeat run_step;
    repeat match goal with
           | H : negb ?b = _ |- _ => destruct b; try discriminate H; clear H
           end;
    rewrite <- ?app_assoc; simpl;
    intros E I; inversion E as [[Ev Er]];
    apply app_inv_head in Ev; subst ev; simpl in I;
    decompose [or] I; try discriminate; try contradiction;
    match goal with
    | H : Run.IsConnected _ _ = Run.IsConnected _ _ |- _ =>
        inversion H; subst
    end;
    (split; [reflexivity|]); (split; [in_list|reflexivity]).
Qed.

Lemma get_web3_connection_node_down_witness :
  snd (Fetch.get_web3_connection Sample.secret_url_node_down Sample.start)
  = Py.Raise
      (Py.Exn Py.ConnectionError
         "Error connecting to RPC: Failed to connect to RPC endpoint").
Proof.
  refine (proj1 (get_web3_connection_node_down Sample.secret_url_node_down
                   Sample.start "https://secret.example" _ _ _ _)).
  - vm_compute. reflexivity.
  - vm_compute. do 2 right. left. reflexivity.
Defined.

(* ================================================================= *)
(** * Further behaviour: fetch_token_price *)

(** X5: one call of [fetch_token_price] asks for the checksummed
    address, then the decimals, then the latest round, each once and at
    the address the checksum gave, and stops at the first call that
    fails; it reads the clock only for a price it accepts, and the
    timestamp of the record is that reading. *)
Theorem fetch_token_price_calls
    (w : Run.world) (w3 token_symbol feed_address : string) (st : Run.state) :
  exists ev r,
    Fetch.fetch_token_price w w3 token_symbol feed_address st
    = ({| Run.trace := Run.trace st ++ ev; Run.db := Run.db st |}, Py.Ok r)
    /\ Behaviour.token_calls token_symbol feed_address
         (Behaviour.calls ev) r.
Proof.
  unfold Fetch.fetch_token_price. run_unfold.
  repeat run_step;
    (do 2 eexists; split; [run_done|]);
    unfold Behaviour.calls; simpl; constructor.
Qed.

(* ================================================================= *)
(** * Further behaviour: setup_snowflake_schema *)

(** The goal [m = (st', r) -> ...] of a symbolic execution. *)
Ltac exec_all := repeat exec_step; intros L; inversion L; subst; clear L.

(** X6: [setup_snowflake_schema] sends the three statements in the order
    table, view, z-score table and stops at the first that fails; once
    connected it closes the cursor and the connection at the end whatever
    happened; when the connection itself fails nothing is closed and the
    exception leaves. *)
Theorem setup_snowflake_schema_closes (w : Run.world) (st : Run.state) :
  exists ev d' r,
    Load.setup_snowflake_schema w st
    = ({| Run.trace := Run.trace st ++ ev; Run.db := d' |}, r)
    /\ Behaviour.setup_outcome w st ev r.
Proof.
  destruct (Load.setup_snowflake_schema w st) as [st' r] eqn:L.
  revert L.
  unfold Load.setup_snowflake_schema, Load.connect, Load.execute,
    Behaviour.setup_outcome.
  run_unfold.
  exec_all;
    repeat match goal with u : unit |- _ => destruct u end;
    (do 3 eexists; split; [rewrite <- ?app_assoc; simpl; reflexivity|]);
    try (split; reflexivity);
    match goal with
    | |- exists body, Run.SnowflakeConnect _ :: ?l = _ /\ _ =>
        exists (removelast (removelast l))
    end;
    simpl; (split; [reflexivity|]); (split; [reflexivity|]);
    (split; [eexists; reflexivity|]);
    first
      [ split; reflexivity
      | exists []; eexists; split; reflexivity
      | eexists [_]; eexists; split; reflexivity
      | eexists [_; _]; eexists; split; reflexivity ].
Qed.

Lemma execute_create_table A S d :
  exists d1,
    Warehouse.execute A S d
      Warehouse.CREATE_TABLE_IF_NOT_EXISTS_CHAINLINK_PRICES
    = Py.Ok (d1, None)
    /\ Warehouse.CHAINLINK_PRICES d1 = Some (Behaviour.existing_rows d).
Proof.
  unfold Warehouse.execute, Behaviour.existing_rows.
  destruct (Warehouse.CHAINLINK_PRICES d) eqn:T; eexists; split;
    try reflexivity; simpl; auto.
Qed.

Lemma execute_create_view A S d rows :
  Warehouse.CHAINLINK_PRICES d = Some rows ->
  exists d2,
    Warehouse.execute A S d
      Warehouse.CREATE_OR_REPLACE_VIEW_stablecoin_peg_health
    = Py.Ok (d2, None)
    /\ Warehouse.CHAINLINK_PRICES d2 = Some rows
    /\ Warehouse.stablecoin_peg_health d2 = true.
Proof.
  intros T. unfold Warehouse.execute. rewrite T.
  eexists. split; [reflexivity|]. simpl. auto.
Qed.

Lemma execute_create_zscore A S d rows :
  Warehouse.CHAINLINK_PRICES d = Some rows ->
  Warehouse.stablecoin_peg_health d = true ->
  exists d3 z,
    Warehouse.execute A S d
      Warehouse.CREATE_OR_REPLACE_TABLE_stablecoin_peg_zscore
    = Py.Ok (d3, None)
    /\ Warehouse.CHAINLINK_PRICES d3 = Some rows
    /\ Warehouse.stablecoin_peg_health d3 = true
    /\ Sql.zscore_query A S rows = inr z
    /\ Warehouse.stablecoin_peg_zscore d3 = Some z.
Proof.
  intros T V. unfold Warehouse.execute. rewrite T, V.
  destruct (zscore_query_total A S rows) as [z Z]. rewrite Z.
  do 2 eexists. split; [reflexivity|]. simpl. auto.
Qed.

(** X7: when the connection is accepted and no statement meets a fault,
    [setup_snowflake_schema] returns with the schema in place: the price
    rows that were there are kept (none when the table was new), the view
    exists and the z-score table holds what the derivation gives on these
    rows. *)
Theorem setup_snowflake_schema_builds (w : Run.world) (st : Run.state) :
  (forall h, Run.snowflake_connect w h = Py.Ok tt) ->
  (forall h s, Run.execute_fault w h s = None) ->
  exists ev d',
    Load.setup_snowflake_schema w st
    = ({| Run.trace := Run.trace st ++ ev; Run.db := d' |}, Py.Ok tt)
    /\ Behaviour.schema_over w (Behaviour.existing_rows (Run.db st)) d'.
Proof.
  intros C F.
  unfold Load.setup_snowflake_schema, Load.connect, Load.execute.
  run_unfold. rewrite C. simpl. rewrite F.
  destruct (execute_create_table (Run.AVG w) (Run.STDDEV w) (Run.db st))
    as (d1 & -> & T1).
  simpl. rewrite F.
  destruct (execute_create_view (Run.AVG w) (Run.STDDEV w) d1 _ T1)
    as (d2 & -> & T2 & V2).
  simpl. rewrite F.
  destruct (execute_create_zscore (Run.AVG w) (Run.STDDEV w) d2 _ T2 V2)
    as (d3 & z & -> & T3 & V3 & Z & Z3).
  simpl.
  do 2 eexists. split; [rewrite <- ?app_assoc; simpl; reflexivity|].
  unfold Behaviour.schema_over. eauto.
Qed.

Lemma setup_snowflake_schema_builds_witness :
  exists ev d',
    Load.setup_snowflake_schema Sample.calm Sample.start
    = ({| Run.trace := Run.trace Sample.start ++ ev; Run.db := d' |},
       Py.Ok tt)
    /\ Behaviour.schema_over Sample.calm
         (Behaviour.existing_rows (Run.db Sample.start)) d'.
Proof.
  apply (setup_snowflake_schema_builds Sample.calm Sample.start);
    reflexivity.
Defined.

(* ================================================================= *)
(** * Further behaviour: the loaders *)

(** What a statement that went through did to the warehouse. *)
Lemma execute_ok A S d s d' c :
  Warehouse.execute A S d s = Py.Ok (d', c) ->
  match s with
  | Warehouse.CREATE_TABLE_IF_NOT_EXISTS_CHAINLINK_PRICES =>
      Warehouse.CHAINLINK_PRICES d' = Some (Behaviour.existing_rows d)
      /\ Warehouse.stablecoin_peg_health d' = Warehouse.stablecoin_peg_health d
      /\ Warehouse.stablecoin_peg_zscore d' = Warehouse.stablecoin_peg_zscore d
  | Warehouse.CREATE_OR_REPLACE_VIEW_stablecoin_peg_health =>
      Warehouse.CHAINLINK_PRICES d' = Warehouse.CHAINLINK_PRICES d
      /\ Warehouse.stablecoin_peg_health d' = true
      /\ Warehouse.stablecoin_peg_zscore d' = Warehouse.stablecoin_peg_zscore d
  | Warehouse.CREATE_OR_REPLACE_TABLE_stablecoin_peg_zscore =>
      exists rows z,
        Warehouse.CHAINLINK_PRICES d = Some rows
        /\ Sql.zscore_query A S rows = inr z
        /\ Warehouse.CHAINLINK_PRICES d' = Some rows
        /\ Warehouse.stablecoin_peg_health d' = true
        /\ Warehouse.stablecoin_peg_zscore d' = Some z
  | _ => d' = d
  end.
Proof.
  unfold Warehouse.execute, Behaviour.existing_rows.
  destruct s; destruct (Warehouse.CHAINLINK_PRICES d) eqn:T;
    try destruct (Warehouse.stablecoin_peg_health d) eqn:V;
    try destruct (Sql.zscore_query _ _ _) as [[]|z] eqn:Z;
    intros H; inversion H; subst; simpl; eauto 10.
Qed.

Lemma append_frame_keeps d df t d' :
  Warehouse.append_frame d df t = Py.Ok d' ->
  Warehouse.stablecoin_peg_health d' = Warehouse.stablecoin_peg_health d
  /\ Warehouse.stablecoin_peg_zscore d' = Warehouse.stablecoin_peg_zscore d.
Proof.
  unfold Warehouse.append_frame.
  destruct (Warehouse.CHAINLINK_PRICES d); [|discriminate].
  destruct (forallb _ _); [|discriminate].
  destruct (Warehouse.to_rows _ _ _); [|discriminate].
  intros H. inversion H; subst. simpl. auto.
Qed.

Lemma fetch_events_filter (p : Run.event -> bool) ev :
  (forall e, Props.is_fetch_event e = true -> p e = false) ->
  forallb Props.is_fetch_event ev = true -> filter p ev = [].
Proof.
  intros P. induction ev as [|e ev IH]; simpl; [reflexivity|].
  intros F. apply andb_true_iff in F. destruct F as [Fe Fev].
  rewrite (P e Fe). auto.
Qed.

Lemma fetch_event_not_opened e :
  Props.is_fetch_event e = true -> Behaviour.is_opened e = false.
Proof. destruct e; try reflexivity; discriminate. Qed.

Lemma fetch_event_not_closed e :
  Props.is_fetch_event e = true -> Behaviour.is_ConnClose e = false.
Proof. destruct e; try reflexivity; discriminate. Qed.

Lemma fetch_event_not_derive e :
  Props.is_fetch_event e = true -> Behaviour.is_derive e = false.
Proof.
  unfold Props.is_fetch_event, Behaviour.is_derive.
  destruct (Props.step_of e); try reflexivity; discriminate.
Qed.

(** The set-up shared by the facts on [load_real_chainlink_data]: the
    fetch is replaced by its result and the rest is run call by call. *)
Ltac load_exec w st :=
  let ev_f := fresh "ev_f" in
  let res := fresh "res" in
  let E := fresh "E" in
  let F := fresh "F" in
  let R := fresh "R" in
  destruct (fetch_all_raises_or_fetched w st) as (ev_f & res & E & F & R);
  unfold Load.load_real_chainlink_data;
  unfold Run.bind at 1; rewrite E;
  destruct res as [fetched|e];
  [ let df := fresh "df" in
    let N := fresh "N" in
    let C := fresh "C" in
    let Rw := fresh "Rw" in
    let NE := fresh "NE" in
    let NN := fresh "NN" in
    let FR := fresh "FR" in
    let LE := fresh "LE" in
    destruct (normalize_fetched fetched R) as (df & N & C & Rw);
    destruct R as (_ & NN & NE & _ & _ & FR & LE); rewrite NE, N;
    unfold Load.connect, Load.execute, Load.write_pandas; run_unfold
  | ].

(** X8: a run of [load_real_chainlink_data] that returns after a write
    that succeeded leaves the warehouse consistent: the view exists and
    the z-score table is the derivation over all the price rows, the new
    ones included. *)
Theorem load_real_refreshes_derived
    (w : Run.world) (st : Run.state) (ev : list Run.event)
    (d' : Warehouse.t) (df : Py.DataFrame) :
  Load.load_real_chainlink_data w st
  = ({| Run.trace := Run.trace st ++ ev; Run.db := d' |}, Py.Ok tt) ->
  In (Props.written df (Py.Ok true)) ev ->
  exists old new loaded_at,
    Warehouse.CHAINLINK_PRICES (Run.db st) = Some old
    /\ Warehouse.to_rows (Py.columns df) loaded_at (Py.rows df) = Some new
    /\ Behaviour.schema_over w (old ++ new) d'.
Proof.
  load_exec w st.
  - exec_all;
      rewrite <- ?app_assoc in *;
      match goal with
      | H : _ ++ _ = _ ++ _ |- _ => apply app_inv_head in H; subst ev
      end;
      intros I; apply in_app_or in I;
      (destruct I as [I|I];
       [apply (in_fetch_events _ _ F) in I; discriminate I|]);
      simpl in I; decompose [or] I; try discriminate; try contradiction.
    repeat match goal with
           | H : Warehouse.execute _ _ _ _ = Py.Ok _ |- _ =>
               apply execute_ok in H; simpl in H
           | H : Warehouse.append_frame _ _ _ = Py.Ok _ |- _ =>
               apply append_frame_appends in H;
               destruct H as (old & new & Ho & Hn & Ha)
           end.
    subst.
    match goal with
    | H : exists _ _, _ |- _ => destruct H as (rows & z & T & Z & T' & V & Zs)
    end.
    match goal with
    | H : _ /\ _ /\ _ |- _ => destruct H as (Tv & _ & _)
    end.
    match goal with
    | H : _ = Props.written _ _ |- _ =>
        unfold Props.written in H; inversion H; subst
    end.
    exists old, new. eexists. split; [exact Ho|].
    split; [exact Hn|].
    unfold Behaviour.schema_over.
    assert (rows = old ++ new) by congruence. subst rows. eauto.
  - intros L. inversion L.
Qed.

Lemma load_real_refreshes_derived_witness :
  exists old new loaded_at,
    Warehouse.CHAINLINK_PRICES (Run.db Sample.ready) = Some old
    /\ Warehouse.to_rows (Py.columns Sample.stored) loaded_at
         (Py.rows Sample.stored) = Some new
    /\ Behaviour.schema_over Sample.calm (old ++ new)
         (Run.db Sample.loaded_once).
Proof.
  apply (load_real_refreshes_derived Sample.calm Sample.ready
           (Run.trace Sample.loaded_once) (Run.db Sample.loaded_once)
           Sample.stored).
  - vm_compute. reflexivity.
  - vm_compute. in_list.
Defined.

(** X9: [load_real_chainlink_data] closes the connection it opened, and
    opens at most one: in every run, whatever fails after the connection
    is made, as many connections are closed as were opened. *)
Theorem load_real_closes_connection (w : Run.world) (st : Run.state) :
  exists ev d' r,
    Load.load_real_chainlink_data w st
    = ({| Run.trace := Run.trace st ++ ev; Run.db := d' |}, r)
    /\ Behaviour.opened ev = Behaviour.closed ev
    /\ (Behaviour.opened ev <= 1)%nat.
Proof.
  destruct (Load.load_real_chainlink_data w st) as [st' r] eqn:L.
  revert L. load_exec w st.
  - repeat exec_step; intros L; inversion L; subst; clear L;
      (do 3 eexists; split; [rewrite <- ?app_assoc; simpl; reflexivity|]);
      unfold Behaviour.opened, Behaviour.closed;
      rewrite !filter_app,
        (fetch_events_filter _ ev_f fetch_event_not_opened F),
        (fetch_events_filter _ ev_f fetch_event_not_closed F);
      simpl; (split; [reflexivity|lia]).
  - intros L. inversion L; subst.
    do 3 eexists. split; [reflexivity|].
    unfold Behaviour.opened, Behaviour.closed.
    rewrite (fetch_events_filter _ ev_f fetch_event_not_opened F),
      (fetch_events_filter _ ev_f fetch_event_not_closed F).
    simpl. split; [reflexivity|lia].
Qed.

(** X10: when [write_pandas] reports no success, [load_real_chainlink_data]
    returns normally all the same: nothing is raised, the warehouse is as
    it was and neither the view nor the z-score table is rebuilt. *)
Theorem load_real_write_refused
    (w : Run.world) (st : Run.state) (ev : list Run.event)
    (d' : Warehouse.t) (r : Py.result unit) (df : Py.DataFrame) :
  Load.load_real_chainlink_data w st
  = ({| Run.trace := Run.trace st ++ ev; Run.db := d' |}, r) ->
  In (Props.written df (Py.Ok false)) ev ->
  r = Py.Ok tt
  /\ d' = Run.db st
  /\ filter Behaviour.is_derive ev = [].
Proof.
  load_exec w st.
  - exec_all;
      rewrite <- ?app_assoc in *;
      match goal with
      | H : _ ++ _ = _ ++ _ |- _ => apply app_inv_head in H; subst ev
      end;
      intros I; apply in_app_or in I;
      (destruct I as [I|I];
       [apply (in_fetch_events _ _ F) in I; discriminate I|]);
      simpl in I; decompose [or] I; try discriminate; try contradiction.
    repeat match goal with u : unit |- _ => destruct u end.
    repeat split.
    rewrite filter_app, (fetch_events_filter _ ev_f fetch_event_not_derive F).
    reflexivity.
  - intros L. inversion L as [[T D]].
    apply app_inv_head in T. subst ev.
    intros I. apply (in_fetch_events _ _ F) in I. discriminate I.
Qed.

Lemma load_real_write_refused_witness :
  snd (Load.load_real_chainlink_data Sample.refusing Sample.ready) = Py.Ok tt
  /\ Run.db (fst (Load.load_real_chainlink_data Sample.refusing Sample.ready))
     = Run.db Sample.ready
  /\ filter Behaviour.is_derive
       (Run.trace (fst (Load.load_real_chainlink_data Sample.refusing
                          Sample.ready))) = [].
Proof.
  apply (load_real_write_refused Sample.refusing Sample.ready
           (Run.trace (fst (Load.load_real_chainlink_data Sample.refusing
                              Sample.ready)))
           (Run.db (fst (Load.load_real_chainlink_data Sample.refusing
                           Sample.ready)))
           (snd (Load.load_real_chainlink_data Sample.refusing Sample.ready))
           Sample.stored).
  - vm_compute. reflexivity.
  - vm_compute. in_list.
Defined.

(* ================================================================= *)
(** * Further behaviour: the Dagster op *)

(** The summary of the rows only writes log lines. *)
Lemma log_rows_run cols rs : forall st,
  exists ev r,
    Load.log_rows cols rs st
    = ({| Run.trace := Run.trace st ++ ev; Run.db := Run.db st |}, r)
    /\ forallb Props.is_fetch_event ev = true.
Proof.
  induction rs as [|row rs IH]; intros st;
    unfold Load.log_rows; fold Load.log_rows.
  - exists [], (Py.Ok tt). run_unfold. rewrite app_nil_r.
    destruct st; auto.
  - assert (K : exists ev r,
               Run.raise (A := unit) (Py.Exn Py.KeyError "row") st
               = ({| Run.trace := Run.trace st ++ ev; Run.db := Run.db st |},
                  r)
               /\ forallb Props.is_fetch_event ev = true).
    { exists [], (Py.Raise (Py.Exn Py.KeyError "row")).
      run_unfold. rewrite app_nil_r. destruct st; auto. }
    destruct (Py.get (combine cols row) "token") as [v|]; [|exact K].
    destruct (Py.get (combine cols row) "price") as [v0|]; [|exact K].
    destruct (Py.get (combine cols row) "deviation_from_1") as [v1|];
      [|exact K].
    clear K.
    unfold Run.bind at 1, Fetch.lift.
    destruct (Load.mul100 v1) as [pct|e]; simpl.
    + unfold Run.bind at 1, Run.log, Run.emit.
      set (st1 := {| Run.trace := _; Run.db := Run.db st |}).
      destruct (IH st1) as (ev & r & -> & L).
      subst st1. simpl.
      do 2 eexists. split; [rewrite <- app_assoc; reflexivity|].
      simpl. exact L.
    + exists [], (Py.Raise e). rewrite app_nil_r. destruct st; auto.
Qed.

#[local] Arguments Load.log_rows : simpl never.

(** One call of the op's body, the summary of the rows taken as a whole. *)
Ltac op_step w :=
  lazymatch goal with
  | |- ?m = _ -> _ =>
      let x := scrutinee m in
      lazymatch x with
      | Load.log_rows ?c ?rs ?s =>
          let evl := fresh "evl" in
          let rl := fresh "rl" in
          let El := fresh "El" in
          let Ll := fresh "Ll" in
          destruct (log_rows_run c rs s) as (evl & rl & El & Ll);
          rewrite El; simpl
      | _ => tryif constr_eq x m then fail else (destruct x eqn:?; simpl)
      end
  end.

(** The set-up shared by the facts on the op. *)
Ltac op_exec w st :=
  let st1 := fresh "st1" in
  let ev_f := fresh "ev_f" in
  let res := fresh "res" in
  let E := fresh "E" in
  let F := fresh "F" in
  let R := fresh "R" in
  unfold Load.fetch_chainlink_price_op;
  unfold Run.bind at 1, Run.log at 1, Run.emit at 1;
  set (st1 := {| Run.trace := _; Run.db := Run.db st |});
  unfold Run.try_except at 1; unfold Run.bind at 1;
  destruct (fetch_all_raises_or_fetched w st1) as (ev_f & res & E & F & R);
  rewrite E; subst st1; simpl Run.trace in *; simpl Run.db in *;
  destruct res as [fetched|e];
  [ let C := fresh "C" in
    let NN := fresh "NN" in
    let NE := fresh "NE" in
    let FR := fresh "FR" in
    let LE := fresh "LE" in
    let cols := fresh "cols" in
    let idx := fresh "idx" in
    let rws := fresh "rws" in
    destruct R as (C & NN & NE & _ & _ & FR & LE); rewrite NE;
    destruct fetched as [cols idx rws]; simpl in C, NN, FR, LE; subst cols;
    unfold Load.connect, Load.execute, Load.write_pandas; run_unfold;
    repeat op_step w
  | run_unfold ].

Ltac count_events :=
  unfold Behaviour.opened, Behaviour.closed;
  repeat (progress (simpl; rewrite ?filter_app));
  repeat match goal with
         | F : forallb Props.is_fetch_event ?l = true |- _ =>
             rewrite ?(fetch_events_filter _ l fetch_event_not_opened F),
                     ?(fetch_events_filter _ l fetch_event_not_closed F),
                     ?(fetch_events_filter _ l fetch_event_not_derive F);
             clear F
         end;
  simpl.

(** C8: [fetch_all_chainlink_prices] raises what [get_web3_connection]
    raised, or the RuntimeError of two failed fetches, or returns a frame
    that is not empty, has the columns timestamp, token_symbol, price,
    deviation_from_peg in that order, ascends in token_symbol and is
    labelled from 0; so the [df.empty] branch of the op is never taken:
    a value the op returns has status 'success', and after a fetch that
    returned the op always counts the rows in its log and goes on to the
    connection. *)
Theorem fetch_all_never_returns_empty (w : Run.world) (st : Run.state) :
  (exists ev res,
     Fetch.fetch_all_chainlink_prices w st
     = ({| Run.trace := Run.trace st ++ ev; Run.db := Run.db st |}, res)
     /\ Props.raises_or_fetched w st ev res)
  /\ (forall out,
        snd (Load.fetch_chainlink_price_op w st) = Py.Ok out ->
        Py.get out "status" = Some (Py.VStr "success"))
  /\ exists ev d' r,
       Load.fetch_chainlink_price_op w st
       = ({| Run.trace := Run.trace st ++ ev; Run.db := d' |}, r)
       /\ Props.op_goes_on w st ev r.
Proof.
  split; [|split].
  - destruct (fetch_all_raises_or_fetched w st) as (ev & res & E & _ & R).
    eauto.
  - intros out. apply op_status_success.
  - destruct (Load.fetch_chainlink_price_op w st) as [st' r] eqn:L.
    revert L. op_exec w st;
      intros L; inversion L; subst; clear L;
      (do 3 eexists; split; [rewrite <- ?app_assoc; simpl; reflexivity|]);
      unfold Props.op_goes_on, Props.op_started; simpl;
      exists ev_f; eexists; (split; [exact E|]); simpl;
      first [ split; reflexivity | do 2 eexists; reflexivity ].
Qed.

(** X11: the op closes the connection it opened, and opens at most one,
    whether it returns or raises. *)
Theorem op_closes_connection (w : Run.world) (st : Run.state) :
  exists ev d' r,
    Load.fetch_chainlink_price_op w st
    = ({| Run.trace := Run.trace st ++ ev; Run.db := d' |}, r)
    /\ Behaviour.opened ev = Behaviour.closed ev
    /\ (Behaviour.opened ev <= 1)%nat.
Proof.
  destruct (Load.fetch_chainlink_price_op w st) as [st' r] eqn:L.
  revert L. op_exec w st;
    intros L; inversion L; subst; clear L;
    (do 3 eexists; split; [rewrite <- ?app_assoc; simpl; reflexivity|]);
    count_events; (split; [reflexivity|lia]).
Qed.

Ltac keep_derived :=
  repeat match goal with
         | H : Warehouse.execute _ _ _ _ = Py.Ok _ |- _ =>
             apply execute_ok in H; simpl in H;
             destruct H as (? & ? & ?)
         | H : Warehouse.append_frame _ _ _ = Py.Ok _ |- _ =>
             apply append_frame_keeps in H; destruct H as (? & ?)
         end.

(** X12: the op never rebuilds what is derived from the prices: no run of
    it sends the statement of the view or of the z-score table, and the
    view and the z-score table are after the run what they were before
    it. *)
Theorem op_never_refreshes_derived (w : Run.world) (st : Run.state) :
  exists ev d' r,
    Load.fetch_chainlink_price_op w st
    = ({| Run.trace := Run.trace st ++ ev; Run.db := d' |}, r)
    /\ filter Behaviour.is_derive ev = []
    /\ Warehouse.stablecoin_peg_health d'
       = Warehouse.stablecoin_peg_health (Run.db st)
    /\ Warehouse.stablecoin_peg_zscore d'
       = Warehouse.stablecoin_peg_zscore (Run.db st).
Proof.
  destruct (Load.fetch_chainlink_price_op w st) as [st' r] eqn:L.
  revert L. op_exec w st;
    intros L; inversion L; subst; clear L;
    (do 3 eexists; split; [rewrite <- ?app_assoc; simpl; reflexivity|]);
    keep_derived;
    (split; [count_events; reflexivity|]);
    split; congruence.
Qed.

(** Where an event of a run sits, the fetch and the log lines apart. *)
Ltac split_in I :=
  repeat first
    [ apply in_app_or in I; destruct I as [I|I]
    | destruct I as [I|I] ];
  try match goal with
      | F : forallb Props.is_fetch_event ?l = true, J : In _ ?l |- _ =>
          apply (in_fetch_events _ _ F) in J; discriminate J
      end;
  try discriminate I; try contradiction.

Ltac in_trace :=
  simpl;
  first [ left; reflexivity
        | right; in_trace
        | apply in_or_app; right; in_trace ].

(** X13: when [write_pandas] reports no success the op fails: it raises
    the exception of its [else] branch, after logging it as an error, and
    the price table holds the rows it held before, the table being made
    when it was not there. *)
Theorem op_write_refused_raises
    (w : Run.world) (st : Run.state) (ev : list Run.event)
    (d' : Warehouse.t) (r : Py.result Py.dict) (df : Py.DataFrame) :
  Load.fetch_chainlink_price_op w st
  = ({| Run.trace := Run.trace st ++ ev; Run.db := d' |}, r) ->
  In (Props.written df (Py.Ok false)) ev ->
  r = Py.Raise Behaviour.write_refused
  /\ In (Run.Log Run.ERROR "Error fetching Chainlink prices: {str(e)}"
           [Run.str Behaviour.write_refused]) ev
  /\ Warehouse.CHAINLINK_PRICES d'
     = Some (Behaviour.existing_rows (Run.db st)).
Proof.
  op_exec w st;
    intros L; inversion L; subst; clear L;
    rewrite <- ?app_assoc in *;
    match goal with
    | H : _ ++ _ = _ ++ _ |- _ => apply app_inv_head in H; subst ev
    end;
    intros I; unfold Props.written in I; split_in I.
  keep_derived.
  split; [reflexivity|]. split; [in_trace|]. assumption.
Qed.

Lemma op_write_refused_raises_witness :
  snd (Load.fetch_chainlink_price_op Sample.refusing Sample.start)
  = Py.Raise Behaviour.write_refused
  /\ In (Run.Log Run.ERROR "Error fetching Chainlink prices: {str(e)}"
           [Run.str Behaviour.write_refused])
        (Run.trace (fst (Load.fetch_chainlink_price_op Sample.refusing
                           Sample.start)))
  /\ Warehouse.CHAINLINK_PRICES
       (Run.db (fst (Load.fetch_chainlink_price_op Sample.refusing
                       Sample.start)))
     = Some (Behaviour.existing_rows (Run.db Sample.start)).
Proof.
  apply (op_write_refused_raises Sample.refusing Sample.start
           (Run.trace (fst (Load.fetch_chainlink_price_op Sample.refusing
                              Sample.start)))
           (Run.db (fst (Load.fetch_chainlink_price_op Sample.refusing
                           Sample.start)))
           (snd (Load.fetch_chainlink_price_op Sample.refusing Sample.start))
           (Behaviour.op_frame
              match snd (Fetch.fetch_all_chainlink_prices Sample.calm
                           Sample.start) with
              | Py.Ok fetched => fetched
              | Py.Raise _ => Py.empty_frame
              end)).
  - vm_compute. reflexivity.
  - vm_compute. in_list.
Defined.

(** The rows of a fetched frame go into the table cell by cell, under
    any spelling of the four column names. *)
Lemma to_rows_frame_rows cols t rws : forall new,
  cols = ["TIMESTAMP"; "TOKEN"; "PRICE"; "DEVIATION_FROM_1"]%string ->
  Forall Props.frame_row rws ->
  Warehouse.to_rows cols t rws = Some new ->
  List.length new = List.length rws /\ Forall Behaviour.stored_price new.
Proof.
  intros new U. revert new.
  induction rws as [|r rws IH]; intros new F T.
  - unfold Warehouse.to_rows in T. inversion T. auto.
  - inversion F as [|x l (ts & tok & p & -> & I & P) Fl]; subst.
    unfold Warehouse.to_rows in T; fold Warehouse.to_rows in T.
    unfold Warehouse.to_row in T. simpl in T.
    destruct (Warehouse.to_rows _ t rws) as [xs|]; [|discriminate].
    inversion T; subst. destruct (IH xs Fl eq_refl) as [L S].
    simpl. split; [now rewrite L|].
    constructor; [|exact S].
    unfold Behaviour.stored_price. simpl. auto.
Qed.

(** X14: the op never loads a row.  Its frame keeps the lower-case names
    timestamp, token, price and deviation_from_1, which [write_pandas]
    quotes as they are spelt and which the table made by the op's own
    CREATE TABLE does not have.  So no run of the op returns: each ends
    in an exception, no write reports success, and the price table holds
    after the run the rows it held before. *)
Theorem op_write_never_lands (w : Run.world) (st : Run.state) :
  exists ev d' e,
    Load.fetch_chainlink_price_op w st
    = ({| Run.trace := Run.trace st ++ ev; Run.db := d' |}, Py.Raise e)
    /\ Behaviour.existing_rows d' = Behaviour.existing_rows (Run.db st)
    /\ forall df, ~ In (Props.written df (Py.Ok true)) ev.
Proof.
  destruct (Load.fetch_chainlink_price_op w st) as [st' r] eqn:L.
  revert L. op_exec w st;
    intros L; inversion L; subst; clear L;
    try (exfalso;
         match goal with
         | H : Warehouse.append_frame _ _ _ = Py.Ok _ |- _ =>
             apply append_frame_known in H; vm_compute in H; discriminate H
         end);
    (do 3 eexists; split; [rewrite <- ?app_assoc; simpl; reflexivity|]);
    (split;
     [ try reflexivity;
       match goal with
       | H : Warehouse.execute _ _ _ _ = Py.Ok _ |- _ =>
           apply execute_ok in H; simpl in H; destruct H as (Hc & _ & _);
           unfold Behaviour.existing_rows at 1; rewrite Hc; reflexivity
       end
     | intros df0 I; unfold Props.written in I; split_in I ]).
Qed.

(* ================================================================= *)
(** * Further behaviour: what a load leaves in the price table *)

(** X15: once [write_pandas] has succeeded in a run of
    [load_real_chainlink_data], the price table holds one or two rows
    more, each a price as it was fetched, and it keeps them whatever
    happens later in the run: a refresh of the view or of the z-score
    table that fails afterwards does not take the rows back. *)
Theorem load_real_keeps_written_rows
    (w : Run.world) (st : Run.state) (ev : list Run.event)
    (d' : Warehouse.t) (r : Py.result unit) (df : Py.DataFrame) :
  Load.load_real_chainlink_data w st
  = ({| Run.trace := Run.trace st ++ ev; Run.db := d' |}, r) ->
  In (Props.written df (Py.Ok true)) ev ->
  exists old new,
    Warehouse.CHAINLINK_PRICES (Run.db st) = Some old
    /\ Warehouse.CHAINLINK_PRICES d' = Some (old ++ new)
    /\ (1 <= List.length new <= 2)%nat
    /\ Forall Behaviour.stored_price new.
Proof.
  load_exec w st.
  - exec_all;
      rewrite <- ?app_assoc in *;
      match goal with
      | H : _ ++ _ = _ ++ _ |- _ => apply app_inv_head in H; subst ev
      end;
      intros I; unfold Props.written in I; split_in I;
      match goal with
      | H : Warehouse.append_frame _ _ _ = Py.Ok _ |- _ =>
          apply append_frame_appends in H;
          destruct H as (old & new & Ho & Hn & Ha)
      end;
      keep_prices;
      rewrite C, Rw in Hn;
      destruct (to_rows_frame_rows
                  ["TIMESTAMP"; "TOKEN"; "PRICE"; "DEVIATION_FROM_1"]%string
                  _ _ new eq_refl FR Hn) as [Ln S];
      exists old, new;
      (split; [exact Ho|]); (split; [congruence|]); (split; [|exact S]);
      rewrite Ln;
      (destruct (Py.rows fetched); [congruence|simpl in *; lia]).
  - intros L. inversion L as [[T D]].
    apply app_inv_head in T. subst ev.
    intros I. apply (in_fetch_events _ _ F) in I. discriminate I.
Qed.

Lemma load_real_keeps_written_rows_witness :
  exists old new,
    Warehouse.CHAINLINK_PRICES (Run.db Sample.ready) = Some old
    /\ Warehouse.CHAINLINK_PRICES (Run.db Sample.loaded_once)
       = Some (old ++ new)
    /\ (1 <= List.length new <= 2)%nat
    /\ Forall Behaviour.stored_price new.
Proof.
  apply (load_real_keeps_written_rows Sample.calm Sample.ready
           (Run.trace Sample.loaded_once) (Run.db Sample.loaded_once)
           (Py.Ok tt) Sample.stored).
  - vm_compute. reflexivity.
  - vm_compute. in_list.
Defined.

(* ================================================================= *)
(** * Further behaviour: fetch_continuously *)

Lemma fetch_event_not_sleep e :
  Props.is_fetch_event e = true -> Props.is_sleep e = false.
Proof. destruct e; try reflexivity; discriminate. Qed.

(** A load never sleeps. *)
Lemma load_real_no_sleep (w : Run.world) (st : Run.state) :
  exists ev d' r,
    Load.load_real_chainlink_data w st
    = ({| Run.trace := Run.trace st ++ ev; Run.db := d' |}, r)
    /\ filter Props.is_sleep ev = [].
Proof.
  destruct (Load.load_real_chainlink_data w st) as [st' r] eqn:L.
  revert L. load_exec w st.
  - repeat exec_step; intros L; inversion L; subst; clear L;
      (do 3 eexists; split; [rewrite <- ?app_assoc; simpl; reflexivity|]);
      rewrite ?filter_app,
        (fetch_events_filter _ ev_f fetch_event_not_sleep F);
      reflexivity.
  - intros L. inversion L; subst.
    do 3 eexists. split; [reflexivity|].
    apply (fetch_events_filter _ ev_f fetch_event_not_sleep F).
Qed.

#[local] Arguments Load.load_real_chainlink_data : simpl never.

Lemma sleep_run (w : Run.world) (secs : Z) (st : Run.state) :
  0 <= secs <= Load.max_sleep ->
  (forall h, Run.sleep_fault w h secs = None) ->
  Load.sleep w secs st
  = ({| Run.trace := Run.trace st ++ [Run.Sleep secs]; Run.db := Run.db st |},
     Py.Ok tt).
Proof.
  intros [L U] P. unfold Load.sleep.
  destruct (Z.ltb_spec secs 0); [lia|].
  destruct (Z.ltb_spec Load.max_sleep secs); [lia|].
  rewrite P. reflexivity.
Qed.


#[local] Arguments Load.sleep : simpl never.

(** X16: for an interval that [time.sleep] accepts and a platform that
    lets the wait through, [fetch_continuously] sleeps once in every turn
    of its loop, for [interval_seconds], whether the load of that turn
    returned or raised, and no exception of a load leaves the loop: after
    [fuel] turns there were [fuel] sleeps and the loop is still
    running. *)
Theorem fetch_continuously_sleeps_every_turn
    (w : Run.world) (interval_seconds : Z) (fuel : nat) (st : Run.state) :
  0 <= interval_seconds <= Load.max_sleep ->
  (forall h, Run.sleep_fault w h interval_seconds = None) ->
  exists ev d',
    Load.fetch_continuously w fuel interval_seconds st
    = ({| Run.trace := Run.trace st ++ ev; Run.db := d' |}, Py.Ok tt)
    /\ filter Props.is_sleep ev = repeat (Run.Sleep interval_seconds) fuel.
Proof.
  intros B P. revert st.
  induction fuel as [|fuel IH]; intros st; simpl.
  - exists [], (Run.db st). run_unfold. rewrite app_nil_r.
    destruct st; auto.
  - destruct (load_real_no_sleep w st) as (ev & d1 & r & E & N).
    unfold Run.bind at 1, Run.try_except. unfold Run.bind at 1.
    rewrite E.
    destruct r as [[]|e]; rewrite (sleep_run _ _ _ B P); simpl;
      match goal with
      | |- context [Load.fetch_continuously w fuel interval_seconds ?s] =>
          destruct (IH s) as (ev' & d2 & -> & S)
      end;
      simpl;
      (do 2 eexists; split; [rewrite <- ?app_assoc; simpl; reflexivity|]);
      rewrite filter_app, N; simpl; rewrite S; reflexivity.
Qed.

Lemma fetch_continuously_sleeps_every_turn_witness :
  exists ev d',
    Load.fetch_continuously Sample.calm 2 60 Sample.ready
    = ({| Run.trace := Run.trace Sample.ready ++ ev; Run.db := d' |},
       Py.Ok tt)
    /\ filter Props.is_sleep ev = repeat (Run.Sleep 60) 2.
Proof.
  apply (fetch_continuously_sleeps_every_turn Sample.calm 60 2 Sample.ready).
  - unfold Load.max_sleep. lia.
  - reflexivity.
Defined.



(* ================================================================= *)
(** * Further behaviour: the guard on the price

    Rounding keeps the sign, so the quotient of an answer that is not
    positive by a power of ten is not positive either. *)

Lemma binary_round_aux_sign s m e l :
  0 <= m -> IEEE.has_sign_sf s (binary_round_aux prec emax s m e l) = true.
Proof.
  intros H. unfold binary_round_aux.
  pose proof (shr_fexp_nonneg m e l H) as H1.
  destruct (shr_fexp prec emax m e l) as [mrs' e'] eqn:E1. simpl in H1.
  pose proof (shr_fexp_nonneg
                (round_nearest_even (shr_m mrs') (loc_of_shr_record mrs')) e'
                loc_Exact (round_nearest_even_nonneg _ _ H1)) as H2.
  destruct (shr_fexp prec emax _ e' loc_Exact) as [mrs'' e''] eqn:E2.
  simpl in H2.
  destruct (shr_m mrs'') as [|q|q]; try reflexivity.
  - destruct (e'' <=? emax - prec); simpl; apply Bool.eqb_reflx.
  - lia.
Qed.

Lemma binary_round_sign s m e :
  IEEE.has_sign_sf s (binary_round prec emax s m e) = true.
Proof.
  unfold binary_round.
  destruct (shl_align m e _) as [mz ez].
  apply binary_round_aux_sign. lia.
Qed.

Lemma binary_normalize_sign m e sz :
  IEEE.has_sign_sf (m <? 0) (binary_normalize prec emax m e sz) = true.
Proof.
  destruct m; simpl; auto using binary_round_sign.
Qed.

Lemma SFldexp_sign s x e :
  IEEE.has_sign_sf s x = true ->
  IEEE.has_sign_sf s (SFldexp prec emax x e) = true.
Proof.
  destruct x as [sx|sx| |sx mx ex]; simpl; auto.
  intros H. apply Bool.eqb_prop in H. subst sx. apply binary_round_sign.
Qed.

Lemma SFopp_sign s x :
  IEEE.has_sign_sf s x = true -> IEEE.has_sign_sf (negb s) (SFopp x) = true.
Proof. destruct x as [sx|sx| |sx mx ex], s; simpl; auto; destruct sx; auto. Qed.

Lemma SF2Prim_sign s x :
  IEEE.has_sign_sf s x = true ->
  IEEE.has_sign_sf s (Prim2SF (SF2Prim x)) = true.
Proof.
  destruct x as [[|]|[|]| |sx m e]; intros H; try reflexivity;
    try discriminate; try exact H.
  simpl in H. apply Bool.eqb_prop in H. subst sx.
  unfold SF2Prim.
  assert (N : IEEE.has_sign_sf false
            (Prim2SF (Z.ldexp (of_uint63 (Uint63.of_Z (Zpos m))) e)) = true).
  { rewrite Z_ldexp_spec, of_uint63_spec.
    apply SFldexp_sign.
    pose proof (binary_normalize_sign
                  (Uint63.to_Z (Uint63.of_Z (Zpos m))) 0 false) as B.
    destruct (Uint63.to_Z_bounded (Uint63.of_Z (Zpos m))) as [P _].
    apply Z.ltb_ge in P. rewrite P in B. exact B. }
  destruct s; [rewrite opp_spec; apply (SFopp_sign false)|]; exact N.
Qed.

Lemma SFdiv_sign s x y :
  IEEE.has_sign_sf s x = true -> IEEE.is_inf_sf x = false ->
  IEEE.has_sign_sf false y = true -> IEEE.is_zero_sf y = false ->
  IEEE.has_sign_sf s (SFdiv prec emax x y) = true.
Proof.
  destruct x as [sx|sx| |sx mx ex], y as [sy|sy| |sy my ey];
    simpl; intros Hx Ix Hy Zy; try reflexivity; try discriminate.
  - assert (sy = false) by (destruct sy; [discriminate Hy|reflexivity]).
    assert (sx = s) by (destruct s, sx; try discriminate Hx; reflexivity).
    subst sx sy.
    unfold SFdiv_core_binary.
    set (m' := match _ with Z0 => Zpos mx | Zpos _ => _ | Zneg _ => 0 end).
    assert (Hm : 0 <= m').
    { subst m'. destruct (_ - _ - _) eqn:E; try lia.
      apply Z.shiftl_nonneg. lia. }
    pose proof (Z_div_mod m' (Zpos my) eq_refl) as D.
    destruct (Z.div_eucl m' (Zpos my)) as [q r].
    rewrite Bool.xorb_false_r.
    apply binary_round_aux_sign. nia.
Qed.

Lemma SFleb_non_positive x :
  IEEE.has_sign_sf true x = true -> SFleb x (S754_zero false) = true.
Proof.
  destruct x as [sx|[|]| |[|] mx ex]; simpl; intros H;
    try discriminate; reflexivity.
Qed.

(** The sign of [float(z)]. *)
Lemma float_of_int_sign z f :
  Py.float_of_int z = Py.Ok f ->
  IEEE.has_sign_sf (z <? 0) (Prim2SF f) = true.
Proof.
  unfold Py.float_of_int.
  destruct (is_infinity (SF2Prim _)) eqn:E; intros H; inversion H; subst.
  apply SF2Prim_sign, binary_normalize_sign.
Qed.

(** No answer below or at zero passes the guard [price_float <= 0]. *)
Lemma non_positive_price_rejected a n x p :
  Py.float_of_int a = Py.Ok x ->
  Py.truediv_float_int x n = Py.Ok p ->
  a <= 0 -> 0 < n -> (p <=? 0)%float = true.
Proof.
  intros Hx Hp A N.
  destruct (float_of_int_finite _ _ Hx) as [Xn Xi].
  pose proof (float_of_int_sign _ _ Hx) as Xs.
  unfold Py.truediv_float_int in Hp.
  destruct (Py.float_of_int n) as [y|e] eqn:E; [|discriminate].
  destruct (y =? 0)%float eqn:Z0; inversion Hp; subst.
  pose proof (float_of_int_sign _ _ E) as Ys.
  replace (n <? 0) with false in Ys by (symmetry; apply Z.ltb_ge; lia).
  rewrite leb_spec, div_spec. change (Prim2SF 0) with (S754_zero false).
  apply SFleb_non_positive.
  destruct (Z.ltb_spec a 0) as [L|G].
  - apply SFdiv_sign; auto using Prim2SF_is_inf, Prim2SF_is_zero.
  - assert (a = 0) by lia. subst a.
    assert (Xz : exists s, Prim2SF x = S754_zero s).
    { unfold Py.float_of_int in Hx. simpl in Hx. inversion Hx.
      exists false. reflexivity. }
    destruct Xz as [s ->].
    destruct (Prim2SF y) as [sy|sy| |sy my ey] eqn:Py; simpl;
      try reflexivity.
    + apply Prim2SF_is_zero in Z0. rewrite Py in Z0. discriminate.
    + simpl in Ys. discriminate.
Qed.

(** X17: an answer of the feed that is zero or negative never becomes a
    record: whatever the decimals, [fetch_token_price] returns [None] and
    does not read the clock. *)
Theorem fetch_token_price_rejects_non_positive
    (w : Run.world) (w3 token_symbol feed_address : string) (st : Run.state)
    (ev : list Run.event) (r : option Py.dict)
    (address : string) (round_data : Run.round_data) :
  Fetch.fetch_token_price w w3 token_symbol feed_address st
  = ({| Run.trace := Run.trace st ++ ev; Run.db := Run.db st |}, Py.Ok r) ->
  In (Run.CallLatestRoundData address (Py.Ok round_data)) ev ->
  Run.answer round_data <= 0 ->
  r = None /\ forall ts, ~ In (Run.UtcNow ts) ev.
Proof.
  unfold Fetch.fetch_token_price. run_unfold.
  repeat run_step;
    intros L; inversion L; subst; clear L;
    rewrite <- ?app_assoc in *;
    match goal with
    | H : _ ++ _ = _ ++ _ |- _ => apply app_inv_head in H; subst ev
    end;
    intros I A; simpl in I; decompose [or] I;
    try discriminate; try contradiction;
    try (split; [reflexivity|];
         intros ts J; simpl in J; decompose [or] J;
         try discriminate; contradiction).
  exfalso.
  match goal with
  | H : Run.CallLatestRoundData _ _ = Run.CallLatestRoundData _ _ |- _ =>
      inversion H; subst
  end.
  match goal with
  | Hx : Py.float_of_int _ = Py.Ok ?x,
    Hp : Py.truediv_float_int ?x _ = Py.Ok ?p,
    G : (?p <=? 0)%float = false |- _ =>
      rewrite (non_positive_price_rejected _ _ _ _ Hx Hp A) in G;
      [discriminate G|]
  end.
  apply Z.pow_pos_nonneg; lia.
Qed.

Lemma fetch_token_price_rejects_non_positive_witness :
  snd (Fetch.fetch_token_price Sample.below_zero "rpc" "USDC"
         Sample.USDC_feed Sample.start) = Py.Ok None
  /\ forall ts,
       ~ In (Run.UtcNow ts)
            (Run.trace (fst (Fetch.fetch_token_price Sample.below_zero "rpc"
                               "USDC" Sample.USDC_feed Sample.start))).
Proof.
  assert (H := fetch_token_price_rejects_non_positive Sample.below_zero
                 "rpc" "USDC" Sample.USDC_feed Sample.start
                 (Run.trace (fst (Fetch.fetch_token_price Sample.below_zero
                                    "rpc" "USDC" Sample.USDC_feed
                                    Sample.start)))
                 None Sample.USDC_feed (Sample.round (-99990000))).
  destruct H as [_ N].
  - vm_compute. reflexivity.
  - vm_compute. in_list.
  - vm_compute. discriminate.
  - split; [vm_compute; reflexivity|exact N].
Defined.

(* ================================================================= *)
(** * Further behaviour: the rows of stablecoin_peg_zscore *)

Section Ordering.
Context {A : Type} (leb : A -> A -> bool).
Hypothesis leb_total : forall a b, leb a b = false -> leb b a = true.

Lemma insert_sorted_HdRel x y l :
  leb y x = true -> HdRel (fun a b => leb a b = true) y l ->
  HdRel (fun a b => leb a b = true) y (insert_sorted leb x l).
Proof.
  intros Hyx H. destruct l as [|z l]; simpl.
  - constructor. exact Hyx.
  - destruct (leb x z); constructor; [exact Hyx|].
    inversion H; assumption.
Qed.

Lemma insert_sorted_sorted x l :
  Sorted (fun a b => leb a b = true) l ->
  Sorted (fun a b => leb a b = true) (insert_sorted leb x l).
Proof.
  induction 1 as [|y l S IH H]; simpl.
  - repeat constructor.
  - destruct (leb x y) eqn:E.
    + constructor; [constructor; assumption|]. constructor. exact E.
    + constructor; [exact IH|].
      apply insert_sorted_HdRel; [apply leb_total, E|exact H].
Qed.

Lemma order_by_sorted l : Sorted (fun a b => leb a b = true) (order_by leb l).
Proof.
  induction l as [|x l IH]; simpl; [constructor|].
  apply insert_sorted_sorted, IH.
Qed.
End Ordering.

Lemma zscore_order_total (a b : Sql.stablecoin_peg_zscore.row) :
  Sql.stablecoin_peg_zscore.order a b = false ->
  Sql.stablecoin_peg_zscore.order b a = true.
Proof.
  unfold Sql.stablecoin_peg_zscore.order, String.ltb.
  rewrite (String.compare_antisym (Sql.stablecoin_peg_zscore.TOKEN b)).
  destruct (String.compare _ _) eqn:C; simpl; try discriminate;
    [|reflexivity].
  apply String.compare_eq_iff in C. rewrite C, String.eqb_refl. simpl.
  intros H. apply Z.leb_gt in H. apply Z.leb_le. lia.
Qed.

Lemma select_all_map {A B K} (f : A -> Sql.sql_error + B)
    (g : B -> K) (h : A -> K) l : forall bs,
  (forall a b, f a = inr b -> g b = h a) ->
  Sql.select_all f l = inr bs -> map g bs = map h l.
Proof.
  induction l as [|a l IH]; simpl; intros bs K0 H.
  - inversion H. reflexivity.
  - destruct (f a) as [e|b] eqn:Fa; [discriminate|].
    destruct (Sql.select_all f l) as [e|bs0]; [discriminate|].
    inversion H; subst. simpl. rewrite (K0 a b Fa), (IH bs0 K0 eq_refl).
    reflexivity.
Qed.

(** X18: the statement that builds stablecoin_peg_zscore always goes
    through, and the table it makes has one row for each row of
    CHAINLINK_PRICES, with its TIMESTAMP, TOKEN and PRICE, a row that is
    there twice included; the rows are in the order of TOKEN and, for one
    token, from the latest to the earliest. *)
Theorem zscore_table_one_row_per_price
    (AVG STDDEV : list float -> option float)
    (t : list Sql.CHAINLINK_PRICES.row) :
  exists z,
    Sql.zscore_query AVG STDDEV t = inr z
    /\ Permutation (map Behaviour.zscore_key z) (map Behaviour.price_key t)
    /\ Behaviour.token_then_latest z.
Proof.
  unfold Sql.zscore_query.
  set (peg_data := Sql.stablecoin_peg_health.query t).
  destruct (select_all_total Sql.zscore_select
              (map (Sql.rolling_stats_select AVG STDDEV peg_data) peg_data)
              zscore_select_total) as [rows R].
  rewrite R. eexists. split; [reflexivity|]. split.
  - rewrite (Permutation_map _ (order_by_perm _ rows)).
    assert (K : forall a b, Sql.zscore_select a = inr b ->
                Behaviour.zscore_key b
                = (Sql.rolling_stats.TIMESTAMP a, Sql.rolling_stats.TOKEN a,
                   Sql.rolling_stats.PRICE a)).
    { intros a b. unfold Sql.zscore_select.
      destruct (Sql.ZSCORE_of a); [discriminate|].
      destruct (Sql.ZSCORE_STATUS_of a); [discriminate|].
      intros H. inversion H. reflexivity. }
    rewrite (select_all_map _ _ _ _ rows K R).
    rewrite map_map. simpl.
    subst peg_data. unfold Sql.stablecoin_peg_health.query.
    rewrite (Permutation_map _ (order_by_perm _ _)).
    rewrite map_map. reflexivity.
  - apply order_by_sorted, zscore_order_total.
Qed.

(* ================================================================= *)
(** * Further behaviour: the dashboard without its credentials *)

Lemma getenv_all_vars (w : Run.world) names : forall st,
  exists ev vars,
    Dashboard.getenv_all w names st
    = ({| Run.trace := Run.trace st ++ ev; Run.db := Run.db st |}, Py.Ok vars)
    /\ forallb Behaviour.is_Getenv ev = true
    /\ forall n, (forall h, Run.getenv w h n = None) -> In n names ->
         In (n, None) vars.
Proof.
  induction names as [|n names IH]; intros st.
  - exists [], []. unfold Dashboard.getenv_all. run_unfold.
    rewrite app_nil_r. destruct st; repeat split; auto.
  - unfold Dashboard.getenv_all; fold (Dashboard.getenv_all w).
    unfold Run.bind at 1, Run.ask.
    set (st1 := {| Run.trace := _; Run.db := Run.db st |}).
    destruct (IH st1) as (ev & vars & E & G & N).
    unfold Run.bind at 1. rewrite E. run_unfold.
    eexists. eexists. split; [rewrite <- app_assoc; reflexivity|].
    split; [simpl; exact G|].
    intros m Hm [<-|I].
    + left. rewrite Hm. reflexivity.
    + right. apply N; assumption.
Qed.

Lemma get_snowflake_connection_missing
    (w : Run.world) (st : Run.state) (name : string) :
  In name Dashboard.required_vars ->
  (forall h, Run.getenv w h name = None) ->
  exists ev missing,
    Dashboard.get_snowflake_connection_uncached w st
    = ({| Run.trace := Run.trace st ++ ev; Run.db := Run.db st |},
       Py.Ok None)
    /\ In name missing
    /\ In (Behaviour.missing_variables missing) ev
    /\ existsb Behaviour.reaches_warehouse ev = false.
Proof.
  intros I G.
  destruct (getenv_all_vars w Dashboard.required_vars st)
    as (ev & vars & E & Ge & N).
  specialize (N name G I).
  assert (M : In name (map fst (filter (fun nv => Dashboard.is_None (snd nv))
                                       vars))).
  { apply in_map_iff. exists (name, None). split; [reflexivity|].
    apply filter_In. split; [exact N|reflexivity]. }
  assert (W : existsb Behaviour.reaches_warehouse ev = false).
  { clear - Ge. induction ev as [|e ev IH]; [reflexivity|].
    simpl in *. apply andb_true_iff in Ge. destruct Ge as [Ge1 Ge2].
    rewrite (IH Ge2). destruct e; try discriminate. reflexivity. }
  unfold Dashboard.get_snowflake_connection_uncached.
  unfold Run.bind at 1. rewrite E.
  destruct (map fst (filter _ vars)) as [|m ms] eqn:Ms; [destruct M|].
  run_unfold.
  exists (ev ++ [Behaviour.missing_variables (m :: ms);
                 Run.StInfo
                   "Please create a `.env` file in the project root with your Snowflake credentials."]),
    (m :: ms).
  rewrite <- !app_assoc. simpl.
  split; [reflexivity|]. split; [exact M|].
  split.
  - apply in_or_app. right. left. reflexivity.
  - rewrite existsb_app, W. reflexivity.
Qed.

(** X19: when one of the seven variables of the connection is not set,
    both loaders of the dashboard return the empty frame and never reach
    the warehouse: no connection is tried and no query is sent.  This
    holds whether the cache of the connection is empty or holds what an
    earlier call returned; when it is empty the loader's call reports
    the variables that are missing, that one among them. *)
Theorem dashboard_loaders_without_credentials
    (w : Run.world) (cached : option (option unit)) (st : Run.state)
    (token : option string) (name : string) :
  In name Dashboard.required_vars ->
  (forall h, Run.getenv w h name = None) ->
  Behaviour.cache_of w cached ->
  exists ev,
    Dashboard.load_peg_health_data w cached token st
    = ({| Run.trace := Run.trace st ++ ev; Run.db := Run.db st |},
       Py.Ok Py.empty_frame)
    /\ Dashboard.load_zscore_data w cached token st
       = ({| Run.trace := Run.trace st ++ ev; Run.db := Run.db st |},
          Py.Ok Py.empty_frame)
    /\ existsb Behaviour.reaches_warehouse ev = false
    /\ (cached = None ->
        exists missing,
          In name missing /\ In (Behaviour.missing_variables missing) ev).
Proof.
  intros I G C.
  unfold Dashboard.load_peg_health_data, Dashboard.load_zscore_data,
    Dashboard.get_snowflake_connection.
  destruct cached as [conn|].
  - destruct C as (st0 & C).
    destruct (get_snowflake_connection_missing w st0 name I G)
      as (ev0 & missing0 & E0 & _).
    rewrite E0 in C. simpl in C. inversion C; subst conn.
    exists []. run_unfold. rewrite app_nil_r.
    destruct st. repeat split; try reflexivity. discriminate.
  - destruct (get_snowflake_connection_missing w st name I G)
      as (ev & missing & E & M & R & W).
    exists ev. unfold Run.bind. rewrite E. unfold Run.ret.
    repeat split; try assumption. intros _. exists missing. auto.
Qed.

Lemma dashboard_loaders_without_credentials_witness :
  exists ev,
    Dashboard.load_peg_health_data Sample.no_url None None Sample.start
    = ({| Run.trace := Run.trace Sample.start ++ ev;
          Run.db := Run.db Sample.start |}, Py.Ok Py.empty_frame)
    /\ Dashboard.load_zscore_data Sample.no_url None None Sample.start
       = ({| Run.trace := Run.trace Sample.start ++ ev;
             Run.db := Run.db Sample.start |}, Py.Ok Py.empty_frame)
    /\ existsb Behaviour.reaches_warehouse ev = false
    /\ (@None (option unit) = None ->
        exists missing,
          In "SNOWFLAKE_ROLE"%string missing
          /\ In (Behaviour.missing_variables missing) ev).
Proof.
  apply (dashboard_loaders_without_credentials Sample.no_url None
           Sample.start None "SNOWFLAKE_ROLE").
  - simpl. tauto.
  - reflexivity.
  - exact I.
Defined.
